(** * Apex Capital ledger: deposit webhook, status transitions, sessions

    A shallow embedding of the Netlify functions that move money:
    - [deposit-webhook.js]            (Coinbase Commerce events -> balance credit)
    - [admin-transaction-update.js]   (status transition with compensating refund)
    - [ledger-transaction-create.js], [admin-balance-adjust.js] (balance call sites)
    - [_db.js] [getSession], [auth-user.js] [verifyPayload] (cookie sessions)

    Conventions of the embedding.
    - A JavaScript value that comes out of [JSON.parse] is a [value].  Numbers
      are integers ([Z]): a count is itself, an amount is a number of the
      asset's smallest unit (fixed point), a USD value is a number of cents.
      Fractions, exponents and non-finite numbers are outside the model.
    - An [await]ed call is a computation in [M]: it reads and writes the
      [World] (the Supabase tables) and either returns or throws.
    - Every Supabase REST call may fail: the [faults] of the world are the
      schedule of failures, one entry per call ([true] = the call throws).
    - Timestamps ([created_at], [updated_at]) and free-text [notes] are not
      tracked.
    - What Node provides (HMAC digests, base64url, [JSON.parse], the clock,
      the environment) is a [Variable] of the section that uses it.

    The model comes first: values, tables, awaited computations, then one
    module per function file.  The properties follow. *)

From Stdlib Require Import ZArith List String Ascii Bool Lia.
From stdpp Require Import base option list gmap strings pretty.

Local Open Scope string_scope.
Local Open Scope Z_scope.
Local Open Scope list_scope.
Set Warnings "-register-all".

(** ** JavaScript values and the coercions the handlers rely on *)

Module JS.

Inductive Exn :=
| TypeError            (* property of null, call of a non-function, ToPrimitive *)
| RangeError           (* timingSafeEqual on buffers of different length *)
| SyntaxError          (* JSON.parse *)
| SupabaseError        (* a REST call answered with a non-2xx status *)
| InsufficientBalance  (* upsert_balance raised 'Insufficient balance' *)
| InvalidDelta.        (* upsert_balance called with a null delta *)

Inductive Outcome (A : Type) :=
| Ret (a : A)
| Throw (e : Exn).
Arguments Ret {A} a.
Arguments Throw {A} e.

Definition obind {A B} (c : Outcome A) (k : A -> Outcome B) : Outcome B :=
  match c with
  | Ret a => k a
  | Throw e => Throw e
  end.

Inductive value :=
| VUndefined
| VNull
| VBool (b : bool)
| VNum (n : Z)
| VStr (s : string)
| VArr (l : list value)
| VObj (fields : list (string * value)).

(** [{}] *)
Definition empty_obj : value := VObj [].

(** ToBoolean. *)
Definition truthy (v : value) : bool :=
  match v with
  | VUndefined | VNull => false
  | VBool b => b
  | VNum n => negb (n =? 0)
  | VStr s => negb (String.eqb s "")
  | VArr _ | VObj _ => true
  end.

(** [a || b] *)
Definition or_else (a b : value) : value := if truthy a then a else b.

(** Own property of an object built by [JSON.parse]: a later duplicate key
    overrides an earlier one. *)
Fixpoint own (fields : list (string * value)) (k : string) : option value :=
  match fields with
  | [] => None
  | (k', v) :: rest =>
      match own rest k with
      | Some v' => Some v'
      | None => if String.eqb k' k then Some v else None
      end
  end.

Definition has_own (fields : list (string * value)) (k : string) : bool :=
  match own fields k with Some _ => true | None => false end.

(** [v.k] for a [v] that is neither [null] nor [undefined], and a [k] that is
    one of the identifiers the handlers read (never an index, never a method).
    Arrays and strings answer [length]. *)
Definition prop (v : value) (k : string) : value :=
  match v with
  | VObj fields => default VUndefined (own fields k)
  | VArr l => if String.eqb k "length" then VNum (Z.of_nat (length l)) else VUndefined
  | VStr s => if String.eqb k "length" then VNum (Z.of_nat (String.length s)) else VUndefined
  | _ => VUndefined
  end.

(** [v.k]: a [TypeError] on [null] and [undefined]. *)
Definition get (v : value) (k : string) : Outcome value :=
  match v with
  | VUndefined | VNull => Throw TypeError
  | _ => Ret (prop v k)
  end.

(** [v?.k] *)
Definition get_opt (v : value) (k : string) : value :=
  match v with
  | VUndefined | VNull => VUndefined
  | _ => prop v k
  end.

Fixpoint last_char (s : string) : option ascii :=
  match s with
  | EmptyString => None
  | String c EmptyString => Some c
  | String _ rest => last_char rest
  end.

(** [v[v.length - 1]] for a truthy [v].  On an object the index is read from a
    numeric [length] key; objects whose [length] is not a number are treated as
    having no such element. *)
Definition last_elem (v : value) : value :=
  match v with
  | VArr l => List.last l VUndefined
  | VStr s => match last_char s with
              | Some c => VStr (String c EmptyString)
              | None => VUndefined
              end
  | VObj fields =>
      match own fields "length" with
      | Some (VNum n) => default VUndefined (own fields (pretty (n - 1)))
      | _ => VUndefined
      end
  | _ => VUndefined
  end.

Fixpoint join (l : list string) : string :=
  match l with
  | [] => ""
  | [s] => s
  | s :: rest => s +:+ "," +:+ join rest
  end.

(** ToString.  An object parsed from JSON cannot carry a callable: with an own
    [toString] key, ToPrimitive finds nothing to call and throws. *)
Fixpoint to_string (v : value) : Outcome string :=
  match v with
  | VUndefined => Ret "undefined"
  | VNull => Ret "null"
  | VBool true => Ret "true"
  | VBool false => Ret "false"
  | VNum n => Ret (pretty n)
  | VStr s => Ret s
  | VArr l =>
      obind
        ((fix elems (l : list value) : Outcome (list string) :=
            match l with
            | [] => Ret []
            | x :: rest =>
                obind (match x with
                       | VUndefined | VNull => Ret ""
                       | _ => to_string x
                       end)
                  (fun s => obind (elems rest) (fun ss => Ret (s :: ss)))
            end) l)
        (fun ss => Ret (join ss))
  | VObj fields =>
      if has_own fields "toString" then Throw TypeError
      else Ret "[object Object]"
  end.

(** *** parseInt / parseFloat *)

Definition is_space (c : ascii) : bool :=
  let n := nat_of_ascii c in
  ((n =? 32) || ((9 <=? n) && (n <=? 13)))%nat.

Fixpoint skip_space (s : string) : string :=
  match s with
  | String c rest => if is_space c then skip_space rest else s
  | EmptyString => s
  end.

Definition digit_of (radix : Z) (c : ascii) : option Z :=
  let n := Z.of_nat (nat_of_ascii c) in
  let d := if (48 <=? n) && (n <=? 57) then Some (n - 48)
           else if (97 <=? n) && (n <=? 102) then Some (n - 87)
           else if (65 <=? n) && (n <=? 70) then Some (n - 55)
           else None in
  match d with
  | Some k => if k <? radix then Some k else None
  | None => None
  end.

(** The longest prefix of digits; [None] when there is no digit (NaN). *)
Fixpoint digits (radix : Z) (s : string) (acc : option Z) : option Z :=
  match s with
  | String c rest =>
      match digit_of radix c with
      | Some d => digits radix rest (Some (radix * default 0 acc + d))
      | None => acc
      end
  | EmptyString => acc
  end.

Definition split_sign (s : string) : Z * string :=
  match s with
  | String "-" rest => (-1, rest)
  | String "+" rest => (1, rest)
  | _ => (1, s)
  end.

Definition strip_hex (s : string) : Z * string :=
  match s with
  | String "0" (String "x" rest) | String "0" (String "X" rest) => (16, rest)
  | _ => (10, s)
  end.

Definition parseInt_string (s : string) : option Z :=
  let '(sign, s1) := split_sign (skip_space s) in
  let '(radix, s2) := strip_hex s1 in
  option_map (Z.mul sign) (digits radix s2 None).

Definition parseFloat_string (s : string) : option Z :=
  let '(sign, s1) := split_sign (skip_space s) in
  option_map (Z.mul sign) (digits 10 s1 None).

(** [parseInt(v)]: [None] is NaN. *)
Definition parseInt (v : value) : Outcome (option Z) :=
  match v with
  | VNum n => Ret (Some n)
  | _ => obind (to_string v) (fun s => Ret (parseInt_string s))
  end.

Definition parseFloat (v : value) : Outcome (option Z) :=
  match v with
  | VNum n => Ret (Some n)
  | _ => obind (to_string v) (fun s => Ret (parseFloat_string s))
  end.

(** [x < t] on numbers, false on NaN. *)
Definition num_lt (x : option Z) (t : Z) : bool :=
  match x with
  | Some n => n <? t
  | None => false
  end.

End JS.
Export JS.

(** ** The tables *)

Module Charge.

Inductive Status :=
| pending | detected | confirming | completed | failed | underpaid | resolved.

(** A row of [deposit_charges] (written by deposit-create.js, lines 138-154). *)
Record t := mk {
  id : string;
  coinbase_charge_id : string;
  coinbase_charge_code : string;
  user_id : string;
  asset : string;
  amount_usd : Z;
  crypto_amount : option Z;
  status : Status;
  confirmations : option Z;
  confirm_threshold : Z;
  credited : bool;
  network_tx : value;
  transaction_id : option string
}.

(** The body of a PATCH: the columns it names. *)
Record patch := mkPatch {
  set_status : option Status;
  set_credited : option bool;
  set_confirmations : option (option Z);
  set_network_tx : option value;
  set_transaction_id : option (option string)
}.

Definition apply (p : patch) (c : t) : t :=
  {| id := id c;
     coinbase_charge_id := coinbase_charge_id c;
     coinbase_charge_code := coinbase_charge_code c;
     user_id := user_id c;
     asset := asset c;
     amount_usd := amount_usd c;
     crypto_amount := crypto_amount c;
     status := default (status c) (set_status p);
     confirmations := default (confirmations c) (set_confirmations p);
     confirm_threshold := confirm_threshold c;
     credited := default (credited c) (set_credited p);
     network_tx := default (network_tx c) (set_network_tx p);
     transaction_id := default (transaction_id c) (set_transaction_id p) |}.

(** The states the specification calls terminal. *)
Definition terminal (s : Status) : bool :=
  match s with
  | completed | failed | underpaid | resolved => true
  | pending | detected | confirming => false
  end.

End Charge.

Module Tx.

Inductive Kind := deposit | withdrawal.

Inductive Status := processing | pending | completed | failed | cancelled.

(** A row of [transactions]. *)
Record t := mk {
  id : string;
  user_id : string;
  type : Kind;
  asset : string;
  amount : option Z;
  usd_value : option Z;
  fee_amount : option Z;
  fee_usd : option Z;
  status : Status;
  tx_hash : value
}.

Definition status_name (s : Status) : string :=
  match s with
  | processing => "processing"
  | pending => "pending"
  | completed => "completed"
  | failed => "failed"
  | cancelled => "cancelled"
  end.

Definition with_status (s : Status) (x : t) : t :=
  {| id := id x; user_id := user_id x; type := type x; asset := asset x;
     amount := amount x; usd_value := usd_value x; fee_amount := fee_amount x;
     fee_usd := fee_usd x; status := s; tx_hash := tx_hash x |}.

End Tx.

Module Audit.

(** A row of [audit_log]. *)
Record t := mk {
  user_id : option string;
  action : string;
  ip_address : string;
  user_agent : string;
  meta : list (string * value)
}.

End Audit.

Module User.

Record t := mk {
  id : string;
  auth0_sub : string;
  email : string;
  name : option string;
  kyc_status : string
}.

End User.

(** What a handler answers: [{ statusCode, body }]. *)
Record Response := mkResponse { statusCode : Z; body : string }.

(** What [notify.transactionInitiated] is handed (fire and forget). *)
Record Notification := mkNotification {
  n_userEmail : value;
  n_type : Tx.Kind;
  n_asset : string;
  n_amount : option Z;
  n_status : string;
  n_txId : string;
  n_ip : string
}.

Record World := mkWorld {
  charges : list Charge.t;
  balances : gmap (string * string) Z;
  transactions : list Tx.t;
  audit_log : list Audit.t;
  users : list User.t;
  notifications : list Notification;
  faults : list bool
}.

Definition with_charges (cs : list Charge.t) (w : World) : World :=
  mkWorld cs (balances w) (transactions w) (audit_log w) (users w) (notifications w) (faults w).
Definition with_balances (b : gmap (string * string) Z) (w : World) : World :=
  mkWorld (charges w) b (transactions w) (audit_log w) (users w) (notifications w) (faults w).
Definition with_transactions (ts : list Tx.t) (w : World) : World :=
  mkWorld (charges w) (balances w) ts (audit_log w) (users w) (notifications w) (faults w).
Definition with_audit_log (a : list Audit.t) (w : World) : World :=
  mkWorld (charges w) (balances w) (transactions w) a (users w) (notifications w) (faults w).
Definition with_notifications (n : list Notification) (w : World) : World :=
  mkWorld (charges w) (balances w) (transactions w) (audit_log w) (users w) n (faults w).
Definition with_faults (f : list bool) (w : World) : World :=
  mkWorld (charges w) (balances w) (transactions w) (audit_log w) (users w) (notifications w) f.

(** The amount held by [user] in [asset]; a missing row reads as 0. *)
Definition balance_of (w : World) (user asset : string) : Z :=
  default 0 (balances w !! (user, asset)).

(** ** Awaited computations *)

Definition M (A : Type) : Type := World -> Outcome A * World.

Definition ret {A} (a : A) : M A := fun w => (Ret a, w).
Definition throw {A} (e : Exn) : M A := fun w => (Throw e, w).
Definition bind {A B} (c : M A) (k : A -> M B) : M B :=
  fun w => match c w with
           | (Ret a, w') => k a w'
           | (Throw e, w') => (Throw e, w')
           end.
(** [try { c } catch (err) { h err }] *)
Definition try_catch {A} (c : M A) (h : Exn -> M A) : M A :=
  fun w => match c w with
           | (Ret a, w') => (Ret a, w')
           | (Throw e, w') => h e w'
           end.
(** A synchronous computation that may throw. *)
Definition lift {A} (o : Outcome A) : M A := fun w => (o, w).

Declare Scope await_scope.
Delimit Scope await_scope with await.
Notation "'let!' x ':=' c 'in' k" := (bind c (fun x => k))
  (at level 10, x pattern, c at level 100, k at level 200) : await_scope.
Notation "c ';;' k" := (bind c (fun _ => k))
  (at level 100, k at level 200, right associativity) : await_scope.
Local Open Scope await_scope.

(** ** _db.js: the Supabase REST helper *)

(** [supabase(path, opts)], lines 211-232: throws when the answer is not ok.
    The next entry of the failure schedule decides. *)
Definition supabase {A} (op : M A) : M A :=
  fun w => match faults w with
           | true :: fs => (Throw SupabaseError, with_faults fs w)
           | false :: fs => op (with_faults fs w)
           | [] => op w
           end.

Module supabase_get.
(** [supabase.get('/rest/v1/deposit_charges', `coinbase_charge_id=eq.X`)] *)
Definition deposit_charges (coinbase_id : string) : M (list Charge.t) :=
  supabase (fun w =>
    (Ret (filter (fun c => Charge.coinbase_charge_id c = coinbase_id) (charges w)), w)).
(** [supabase.get('/rest/v1/users', `id=eq.X`)] *)
Definition users_by_id (uid : string) : M (list User.t) :=
  supabase (fun w => (Ret (filter (fun u => User.id u = uid) (users w)), w)).
(** [supabase.get('/rest/v1/transactions', `id=eq.X`)] *)
Definition transactions (txid : string) : M (list Tx.t) :=
  supabase (fun w => (Ret (filter (fun x => Tx.id x = txid) (transactions w)), w)).
End supabase_get.

Module supabase_patch.
(** [supabase.patch('/rest/v1/deposit_charges', `id=eq.X`, body)] *)
Definition deposit_charges (chargeId : string) (p : Charge.patch) : M unit :=
  supabase (fun w =>
    (Ret tt,
     with_charges
       (map (fun c => if decide (Charge.id c = chargeId) then Charge.apply p c else c)
            (charges w)) w)).
(** [supabase.patch('/rest/v1/transactions', `id=eq.X`, { status, ... })] *)
Definition transactions (txid : string) (s : Tx.Status) : M unit :=
  supabase (fun w =>
    (Ret tt,
     with_transactions
       (map (fun x => if decide (Tx.id x = txid) then Tx.with_status s x else x)
            (transactions w)) w)).
End supabase_patch.

Module supabase_post.
(** [supabase.post('/rest/v1/transactions', row)]: the store assigns the id and
    answers with the stored row. *)
Definition transactions (mk_row : string -> Tx.t) : M Tx.t :=
  supabase (fun w =>
    let row := mk_row (pretty (S (length (transactions w)))) in
    (Ret row, with_transactions (transactions w ++ [row]) w)).
(** [supabase.post('/rest/v1/audit_log', row)] *)
Definition audit_log (row : Audit.t) : M unit :=
  supabase (fun w => (Ret tt, with_audit_log (audit_log w ++ [row]) w)).
End supabase_post.

(** Modelled from the spec: the Postgres function [upsert_balance], which is
    not among the JavaScript sources.  Section 4.1: one atomic operation,
    [amount <- amount + delta] on the (user, asset) row, the row created at 0
    when absent; it fails with 'Insufficient balance' when the amount after
    the delta would be negative, and then changes nothing. *)
Definition upsert_balance (user asset : string) (delta : Z)
    (b : gmap (string * string) Z) : Outcome (gmap (string * string) Z) :=
  let amount := default 0 (b !! (user, asset)) in
  if 0 <=? amount + delta
  then Ret (<[(user, asset) := amount + delta]> b)
  else Throw InsufficientBalance.

(** [supabase.rpc('upsert_balance', { p_user_id, p_asset, p_delta })].
    [p_delta] is [None] when the caller computed NaN or null, which
    [JSON.stringify] sends as null: the call is then rejected. *)
Definition rpc_upsert_balance (p_user_id p_asset : string) (p_delta : option Z) : M unit :=
  supabase (fun w =>
    match p_delta with
    | None => (Throw InvalidDelta, w)
    | Some d =>
        match upsert_balance p_user_id p_asset d (balances w) with
        | Ret b => (Ret tt, with_balances b w)
        | Throw e => (Throw e, w)
        end
    end).

(** [auditLog], lines 278-297: never throws. *)
Definition auditLog (userId : option string) (action : string)
    (meta : list (string * value)) (ip user_agent : string) : M unit :=
  try_catch
    (supabase_post.audit_log (Audit.mk userId action ip user_agent meta))
    (fun _ => ret tt).

(** [notify.transactionInitiated({...}).catch(() => {})] *)
Definition notify_transactionInitiated (n : Notification) : M unit :=
  fun w => (Ret tt, with_notifications (notifications w ++ [n]) w).

(** ** deposit-webhook.js *)

Module Webhook.

(** The bodies the handler answers with; [ack_error] stands for
    [JSON.stringify({ received: true, error: err.message })]. *)
Definition ack : string := "{received:true}".
Definition ack_error : string := "{received:true,error}".

Inductive EventType :=
| charge_created | charge_pending | charge_confirmed | charge_failed
| charge_expired | charge_delayed | charge_resolved | unhandled.

(** The [switch (type)] of line 166: strict equality with the case labels. *)
Definition classify (type : value) : EventType :=
  match type with
  | VStr s =>
      if String.eqb s "charge:created" then charge_created
      else if String.eqb s "charge:pending" then charge_pending
      else if String.eqb s "charge:confirmed" then charge_confirmed
      else if String.eqb s "charge:failed" then charge_failed
      else if String.eqb s "charge:expired" then charge_expired
      else if String.eqb s "charge:delayed" then charge_delayed
      else if String.eqb s "charge:resolved" then charge_resolved
      else unhandled
  | _ => unhandled
  end.

(** [updateChargeStatus], lines 338-344: [{ status, ...extra }]. *)
Definition updateChargeStatus (chargeId : string) (status : Charge.Status)
    (extra : option (option Z * value)) : M unit :=
  supabase_patch.deposit_charges chargeId
    {| Charge.set_status := Some status;
       Charge.set_credited := None;
       Charge.set_confirmations := fst <$> extra;
       Charge.set_network_tx := snd <$> extra;
       Charge.set_transaction_id := None |}.

Definition of_amount (a : option Z) : value :=
  match a with Some n => VNum n | None => VNull end.

(** [x || charge.crypto_amount] for a number [x] ([None] is NaN). *)
Definition num_or (x : option Z) (fallback : option Z) : option Z :=
  match x with
  | Some n => if n =? 0 then fallback else Some n
  | None => fallback
  end.

(** [payments.find(p => p.status === 'CONFIRMED')]: only an array has [find]. *)
Fixpoint find_confirmed (l : list value) : Outcome value :=
  match l with
  | [] => Ret VUndefined
  | p :: rest =>
      obind (get p "status") (fun s =>
        match s with
        | VStr "CONFIRMED" => Ret p
        | _ => find_confirmed rest
        end)
  end.

Definition payments_find (payments : value) : Outcome value :=
  match payments with
  | VArr l => find_confirmed l
  | _ => Throw TypeError
  end.

(** Lines 186-199 and 278-291: tell the user, when the user row exists. *)
Definition notify_user (charge : Charge.t) (amount : option Z) (status txId : string) : M unit :=
  let! userRows := supabase_get.users_by_id (Charge.user_id charge) in
  match userRows with
  | u :: _ =>
      notify_transactionInitiated
        {| n_userEmail := VStr (User.email u);
           n_type := Tx.deposit; n_asset := Charge.asset charge;
           n_amount := amount; n_status := status; n_txId := txId;
           n_ip := "coinbase-webhook" |}
  | [] => ret tt
  end.

(** [case 'charge:pending'], lines 173-201. *)
Definition on_pending (data : value) (charge : Charge.t) : M unit :=
  let payments := or_else (prop data "payments") (VArr []) in
  let latestPayment := or_else (last_elem payments) empty_obj in
  updateChargeStatus (Charge.id charge) Charge.detected
    (Some (Some 0, or_else (prop latestPayment "transaction_id") VNull)) ;;
  notify_user charge (num_or (Charge.crypto_amount charge) (Some 0))
    "processing" (Charge.id charge).

(** The values read from the payload by lines 212-216. *)
Record Confirmed := mkConfirmed {
  cryptoAmount : option Z;
  networkTx : value;
  confirmations : option Z
}.

(** [payments.find(...) || payments[payments.length - 1] || {}], lines 212-213. *)
Definition confirmed_payment (data : value) : Outcome value :=
  let payments := or_else (prop data "payments") (VArr []) in
  obind (payments_find payments) (fun found =>
  Ret (or_else (or_else found (last_elem payments)) empty_obj)).

(** [confirmedPmt.block?.confirmations]: the count the payload reports. *)
Definition reported_confirmations (confirmedPmt : value) : value :=
  get_opt (prop confirmedPmt "block") "confirmations".

Definition read_confirmed (data : value) (charge : Charge.t) : Outcome Confirmed :=
  obind (confirmed_payment data) (fun confirmedPmt =>
  obind (parseFloat
           (or_else
              (or_else (get_opt (get_opt (prop confirmedPmt "value") "crypto") "amount")
                       (of_amount (Charge.crypto_amount charge)))
              (VNum 0))) (fun cryptoAmount =>
  let networkTx := or_else (prop confirmedPmt "transaction_id") VNull in
  obind (parseInt
           (or_else (reported_confirmations confirmedPmt)
                    (VNum (Charge.confirm_threshold charge)))) (fun confirmations =>
  Ret (mkConfirmed cryptoAmount networkTx confirmations)))).

(** [case 'charge:confirmed'], lines 203-295. *)
Definition on_confirmed (data : value) (coinbaseChargeId : value) (charge : Charge.t) : M unit :=
  if Charge.credited charge then ret tt
  else
    let! r := lift (read_confirmed data charge) in
    if num_lt (confirmations r) (Charge.confirm_threshold charge)
    then updateChargeStatus (Charge.id charge) Charge.confirming
           (Some (confirmations r, networkTx r))
    else
      let delta := num_or (cryptoAmount r) (Charge.crypto_amount charge) in
      rpc_upsert_balance (Charge.user_id charge) (Charge.asset charge) delta ;;
      let! tx := supabase_post.transactions (fun id =>
        {| Tx.id := id; Tx.user_id := Charge.user_id charge; Tx.type := Tx.deposit;
           Tx.asset := Charge.asset charge; Tx.amount := delta;
           Tx.usd_value := Some (Charge.amount_usd charge);
           Tx.fee_amount := None; Tx.fee_usd := None;
           Tx.status := Tx.completed; Tx.tx_hash := networkTx r |}) in
      supabase_patch.deposit_charges (Charge.id charge)
        {| Charge.set_status := Some Charge.completed;
           Charge.set_credited := Some true;
           Charge.set_confirmations := Some (confirmations r);
           Charge.set_network_tx := Some (networkTx r);
           Charge.set_transaction_id := Some (Some (Tx.id tx)) |} ;;
      auditLog (Some (Charge.user_id charge)) "deposit_credited"
        [("charge_id", VStr (Charge.id charge));
         ("coinbase_id", coinbaseChargeId);
         ("asset", VStr (Charge.asset charge));
         ("crypto_amount", of_amount (cryptoAmount r));
         ("usd_value", VNum (Charge.amount_usd charge));
         ("confirmations", of_amount (confirmations r));
         ("network_tx", networkTx r);
         ("transaction_id", VStr (Tx.id tx))]
        "unknown" "unknown" ;;
      notify_user charge delta "completed" (Tx.id tx).

(** [case 'charge:failed': case 'charge:expired':], lines 297-308. *)
Definition on_failed (type : value) (coinbaseChargeId : value) (charge : Charge.t) : M unit :=
  updateChargeStatus (Charge.id charge) Charge.failed None ;;
  auditLog (Some (Charge.user_id charge)) "deposit_failed"
    [("charge_id", VStr (Charge.id charge));
     ("coinbase_id", coinbaseChargeId);
     ("event_type", type)]
    "unknown" "unknown".

(** Step 4, lines 166-324. *)
Definition dispatch (type data : value) (charge : Charge.t) : M unit :=
  match classify type with
  | charge_created => updateChargeStatus (Charge.id charge) Charge.pending None
  | charge_pending => on_pending data charge
  | charge_confirmed => on_confirmed data (prop data "id") charge
  | charge_failed | charge_expired => on_failed type (prop data "id") charge
  | charge_delayed => updateChargeStatus (Charge.id charge) Charge.underpaid None
  | charge_resolved => updateChargeStatus (Charge.id charge) Charge.resolved None
  | unhandled => ret tt
  end.

(** Lines 149-333: the [try] around steps 3 and 4, which answers 200 whatever
    happens inside.  [type] and [data] are truthy here. *)
Definition process (type data : value) : M Response :=
  let coinbaseChargeId := prop data "id" in
  try_catch
    (let! key := lift (to_string coinbaseChargeId) in
     let! found := supabase_get.deposit_charges key in
     match found with
     | [] => ret (mkResponse 200 "OK")
     | charge :: _ =>
         dispatch type data charge ;;
         ret (mkResponse 200 ack)
     end)
    (fun _ => ret (mkResponse 200 ack_error)).

End Webhook.

(** ** Running the webhook on a world *)

(** The charge the handler loads for a provider id: [charges[0]]. *)
Definition lookup (key : string) (w : World) : option Charge.t :=
  head (filter (fun c => Charge.coinbase_charge_id c = key) (charges w)).

(** The world after one delivery. *)
Definition deliver (type data : value) (w : World) : World :=
  snd (Webhook.process type data w).

Definition confirmed : value := VStr "charge:confirmed".

(** Sequential delivery of [charge:confirmed] events. *)
Fixpoint deliver_confirmed (ds : list value) (w : World) : World :=
  match ds with
  | [] => w
  | d :: rest => deliver_confirmed rest (deliver confirmed d w)
  end.

(** The event names the provider charge [key]. *)
Definition names (key : string) (data : value) : Prop :=
  to_string (prop data "id") = Ret key.

(** The tables, as opposed to the failure schedule. *)
Definition same_tables (w w' : World) : Prop :=
  charges w' = charges w /\ balances w' = balances w /\
  transactions w' = transactions w /\ audit_log w' = audit_log w /\
  users w' = users w /\ notifications w' = notifications w.

(** The columns no webhook event writes. *)
Definition same_charge (c c' : Charge.t) : Prop :=
  Charge.id c' = Charge.id c /\
  Charge.coinbase_charge_id c' = Charge.coinbase_charge_id c /\
  Charge.user_id c' = Charge.user_id c /\
  Charge.asset c' = Charge.asset c /\
  Charge.amount_usd c' = Charge.amount_usd c /\
  Charge.crypto_amount c' = Charge.crypto_amount c /\
  Charge.confirm_threshold c' = Charge.confirm_threshold c.



(** The world once a REST call has consumed its entry of the schedule. *)
Definition pop (w : World) : World :=
  match faults w with
  | _ :: fs => with_faults fs w
  | [] => w
  end.



(** ** The HTTP entry point of deposit-webhook.js *)

Record HttpEvent := mkHttpEvent {
  httpMethod : string;
  headers : gmap string string;
  rawBody : option string
}.

(** [crypto.timingSafeEqual(Buffer.from(a), Buffer.from(b))]: a [RangeError]
    when the two buffers differ in length. *)
Definition timingSafeEqual (a b : string) : Outcome bool :=
  if (String.length a =? String.length b)%nat then Ret (String.eqb a b)
  else Throw RangeError.

Section WebhookHandler.

(** [process.env.COINBASE_COMMERCE_WEBHOOK_SECRET] *)
Variable WEBHOOK_SECRET : option string.
(** [crypto.createHmac('sha256', key).update(data, 'utf8').digest('hex')] *)
Variable hmac_sha256_hex : string -> string -> string.
(** [JSON.parse]; [None] is a [SyntaxError]. *)
Variable JSON_parse : string -> option value.

(** [exports.handler], lines 113-334.  A [Throw] is an exception that leaves
    the handler. *)
Definition webhook_handler (event : HttpEvent) : M Response :=
  if negb (String.eqb (httpMethod event) "POST")
  then ret (mkResponse 405 "Method Not Allowed")
  else
    let signature := default "" (headers event !! "x-cc-webhook-signature") in
    let rawBody := default "" (rawBody event) in
    match WEBHOOK_SECRET with
    | None | Some "" => ret (mkResponse 500 "Webhook secret not configured")
    | Some secret =>
        let expectedSig := hmac_sha256_hex secret rawBody in
        let! equal := lift (timingSafeEqual signature expectedSig) in
        if negb equal then ret (mkResponse 401 "Invalid signature")
        else
          match JSON_parse rawBody with
          | None => ret (mkResponse 400 "Invalid JSON")
          | Some payload =>
              let! ev := lift (get payload "event") in
              let ev := or_else ev empty_obj in
              let type := prop ev "type" in
              let data := prop ev "data" in
              if negb (truthy type) || negb (truthy data)
              then ret (mkResponse 400 "Missing event type or data")
              else
                (* line 147: the template literal converts both to strings *)
                lift (to_string type) ;;
                lift (to_string (prop data "id")) ;;
                Webhook.process type data
          end
    end.

(** The request carries the digest of its own body under the configured secret. *)
Definition validly_signed (event : HttpEvent) : Prop :=
  httpMethod event = "POST" /\
  exists secret, WEBHOOK_SECRET = Some secret /\ secret <> "" /\
    default "" (headers event !! "x-cc-webhook-signature")
    = hmac_sha256_hex secret (default "" (rawBody event)).

(** The event of a parsed payload: [payload.event || {}]. *)
Definition event_of (payload : value) : value := or_else (prop payload "event") empty_obj.

End WebhookHandler.

(** ** Strings and numbers of the request handlers *)

Module JSText.

(** [s.split(sep)] for a one-character separator: never empty. *)
Fixpoint split_on (sep : ascii) (s : string) : list string :=
  match s with
  | EmptyString => [""]
  | String c rest =>
      if Ascii.eqb c sep then "" :: split_on sep rest
      else match split_on sep rest with
           | h :: t => String c h :: t
           | [] => [String c ""]
           end
  end.

Fixpoint rtrim (s : string) : string :=
  match s with
  | EmptyString => ""
  | String c rest =>
      match rtrim rest with
      | EmptyString => if is_space c then "" else String c ""
      | r => String c r
      end
  end.

(** [s.trim()] *)
Definition trim (s : string) : string := rtrim (skip_space s).

(** [s.slice(n)] *)
Fixpoint slice (n : nat) (s : string) : string :=
  match n, s with
  | O, _ => s
  | S n', String _ rest => slice n' rest
  | S _, EmptyString => ""
  end.

(** Every character is a digit of the radix; [None] otherwise or when empty. *)
Fixpoint all_digits (radix : Z) (s : string) (acc : option Z) : option Z :=
  match s with
  | EmptyString => acc
  | String c rest =>
      match digit_of radix c with
      | Some d => all_digits radix rest (Some (radix * default 0 acc + d))
      | None => None
      end
  end.

(** ToNumber on a string, for integer literals: the whole trimmed string must
    be one; the empty string is 0; [None] is NaN. *)
Definition string_to_number (s : string) : option Z :=
  match trim s with
  | EmptyString => Some 0
  | String "0" (String "x" rest) | String "0" (String "X" rest) => all_digits 16 rest None
  | t => let '(sign, digits) := split_sign t in
         option_map (Z.mul sign) (all_digits 10 digits None)
  end.

(** ToNumber; on an object or array through ToPrimitive. *)
Definition to_number (v : value) : Outcome (option Z) :=
  match v with
  | VUndefined => Ret None
  | VNull => Ret (Some 0)
  | VBool b => Ret (Some (if b then 1 else 0))
  | VNum n => Ret (Some n)
  | VStr s => Ret (string_to_number s)
  | VArr _ | VObj _ => obind (to_string v) (fun s => Ret (string_to_number s))
  end.

(** [isNaN(v)] *)
Definition isNaN (v : value) : Outcome bool :=
  obind (to_number v) (fun n => Ret (match n with None => true | Some _ => false end)).

End JSText.
Export JSText.

(** ** _db.js: sessions and standard answers *)

Definition json (status : Z) (message : string) : Response := mkResponse status message.
Definition ok (summary : string) : Response := json 200 summary.
Definition badReq (msg : string) : Response := json 400 msg.
Definition unauth : Response := json 401 "Unauthorised".
Definition forbidden : Response := json 403 "Forbidden".
Definition serverErr : Response := json 502 "error".

Definition COOKIE_NAME : string := "apex_session".

(** [try { ... } catch { return null; }] around a synchronous body. *)
Definition catch_null {A} (o : Outcome (option A)) : Outcome (option A) :=
  match o with
  | Ret r => Ret r
  | Throw _ => Ret None
  end.

(** [header.split(';').map(s => s.trim()).find(s => s.startsWith(name + '='))] *)
Definition find_cookie (cookieHeader : string) : option string :=
  List.find (fun s => String.prefix (COOKIE_NAME +:+ "=") s)
            (map trim (split_on ";" cookieHeader)).

Section Sessions.

(** [process.env.AUTH0_COOKIE_SECRET] *)
Variable AUTH0_COOKIE_SECRET : option string.
(** [crypto.createHmac('sha256', key).update(data).digest('base64url')] *)
Variable hmac_sha256_base64url : string -> string -> string.
(** [Buffer.from(data, 'base64url').toString('utf8')] *)
Variable base64url_decode : string -> string.
(** [JSON.parse]; [None] is a [SyntaxError]. *)
Variable JSON_parse : string -> option value.
(** [Date.now()], in milliseconds. *)
Variable Date_now : Z.

(** [Date.now() / 1000 > exp] *)
Definition past (exp : value) : Outcome bool :=
  obind (to_number exp) (fun e =>
    Ret (match e with
         | Some n => 1000 * n <? Date_now
         | None => false
         end)).

(** [const [data, sig] = token.split('.'); if (!data || !sig) return null;]
    and the signature check that both verifiers share. *)
Definition signed_data (token : string) (secret : option string) : Outcome (option string) :=
  let parts := split_on "." token in
  let data := nth 0 parts "" in
  match nth_error parts 1 with
  | None => Ret None
  | Some sig =>
      if String.eqb data "" || String.eqb sig "" then Ret None
      else
        match secret with
        | None => Throw TypeError           (* createHmac without a key *)
        | Some key =>
            let expected := hmac_sha256_base64url key data in
            obind (timingSafeEqual sig expected) (fun equal =>
              if negb equal then Ret None else Ret (Some data))
        end
  end.

Definition parse_payload (data : string) : Outcome value :=
  match JSON_parse (base64url_decode data) with
  | Some payload => Ret payload
  | None => Throw SyntaxError
  end.

(** [getSession], _db.js lines 247-271. *)
Definition getSession (event : HttpEvent) : Outcome (option value) :=
  let cookieHeader := default "" (headers event !! "cookie") in
  match find_cookie cookieHeader with
  | None => Ret None
  | Some raw =>
      let token := slice (String.length COOKIE_NAME + 1) raw in
      catch_null
        (obind (signed_data token AUTH0_COOKIE_SECRET) (fun checked =>
           match checked with
           | None => Ret None
           | Some data =>
               obind (parse_payload data) (fun payload =>
               obind (get payload "exp") (fun exp =>
                 if truthy exp
                 then obind (past exp) (fun late =>
                        if late then Ret None else Ret (Some payload))
                 else Ret (Some payload)))
           end))
  end.

(** [verifyPayload], auth-user.js lines 56-69. *)
Definition verifyPayload (token : string) (secret : option string) : Outcome (option value) :=
  catch_null
    (obind (signed_data token secret) (fun checked =>
       match checked with
       | None => Ret None
       | Some data => obind (parse_payload data) (fun payload => Ret (Some payload))
       end)).

(** [parseCookie], auth-user.js lines 51-54. *)
Definition parseCookie (header : string) : option string :=
  option_map (slice (String.length COOKIE_NAME + 1)) (find_cookie header).

(** A session that passes [if (!session)]. *)
Definition session_ok (session : option value) : option value :=
  match session with
  | Some v => if truthy v then Some v else None
  | None => None
  end.

(** [exports.handler] of auth-user.js, lines 11-39. *)
Definition auth_user (event : HttpEvent) : Outcome Response :=
  let cookieHeader := default "" (headers event !! "cookie") in
  match parseCookie cookieHeader with
  | None | Some "" => Ret (json 401 "{ok:false}")
  | Some raw =>
      obind (verifyPayload raw AUTH0_COOKIE_SECRET) (fun payload =>
        match session_ok payload with
        | None => Ret (json 401 "{ok:false}")
        | Some p =>
            let exp := prop p "exp" in
            obind (if truthy exp then past exp else Ret false) (fun late =>
              if late then Ret (json 401 "{ok:false}")
              else Ret (json 200 "{ok:true,user}"))
        end)
  end.

(** [requireAdmin], _admin-guard.js lines 12-30. *)
Definition requireAdmin (handler : HttpEvent -> value -> M Response)
    (event : HttpEvent) : M Response :=
  if String.eqb (httpMethod event) "OPTIONS" then ret (mkResponse 204 "")
  else
    let! session := lift (getSession event) in
    match session_ok session with
    | None => ret unauth
    | Some s =>
        if negb (truthy (prop s "isAdmin")) then ret forbidden
        else try_catch (handler event s) (fun _ => ret (json 502 "error"))
    end.

End Sessions.

(** [auditLog]'s reading of the request origin, _db.js lines 280-283. *)
Definition non_empty (s : option string) : option string :=
  match s with
  | Some "" | None => None
  | Some t => Some t
  end.

Definition client_ip (event : HttpEvent) : string :=
  match non_empty ((fun h => trim (nth 0 (split_on "," h) "")) <$>
                   headers event !! "x-forwarded-for") with
  | Some ip => ip
  | None => default "unknown" (non_empty (headers event !! "client-ip"))
  end.

Definition user_agent (event : HttpEvent) : string :=
  default "unknown" (non_empty (headers event !! "user-agent")).

Definition auditLog_for (event : HttpEvent) (userId : option string) (action : string)
    (meta : list (string * value)) : M unit :=
  auditLog userId action meta (client_ip event) (user_agent event).

(** ** admin-transaction-update.js *)

Module AdminUpdate.

(** [ALLOWED_STATUSES.has(status)], line 107. *)
Definition ALLOWED_STATUSES (status : value) : option Tx.Status :=
  match status with
  | VStr s =>
      if String.eqb s "completed" then Some Tx.completed
      else if String.eqb s "processing" then Some Tx.processing
      else if String.eqb s "failed" then Some Tx.failed
      else if String.eqb s "cancelled" then Some Tx.cancelled
      else None
  | _ => None
  end.

Definition status_eqb (a b : Tx.Status) : bool :=
  match a, b with
  | Tx.processing, Tx.processing | Tx.pending, Tx.pending
  | Tx.completed, Tx.completed | Tx.failed, Tx.failed
  | Tx.cancelled, Tx.cancelled => true
  | _, _ => false
  end.

Definition rejected (s : Tx.Status) : bool :=
  match s with
  | Tx.failed | Tx.cancelled => true
  | _ => false
  end.

(** The condition of lines 134-135. *)
Definition refund_due (tx : Tx.t) (status : Tx.Status) : bool :=
  match Tx.type tx with
  | Tx.withdrawal => rejected status && negb (rejected (Tx.status tx))
  | Tx.deposit => false
  end.

(** [parseFloat(tx.amount) + (parseFloat(tx.fee_amount) || 0)], line 140. *)
Definition refund_delta (tx : Tx.t) : option Z :=
  match Tx.amount tx with
  | Some amount => Some (amount + default 0 (Tx.fee_amount tx))
  | None => None
  end.

(** The handler wrapped by [requireAdmin], lines 109-204, from the parsed body
    on.  The id is interpolated into the filter as it is; it is taken to be
    free of the characters that separate query parameters. *)
Definition update (event : HttpEvent) (session body : value) : M Response :=
  let! transactionId := lift (get body "transactionId") in
  let status := prop body "status" in
  if negb (truthy transactionId) then ret (badReq "transactionId is required")
  else
    match ALLOWED_STATUSES status with
    | None => lift (to_string status) ;; ret (badReq "Invalid status")
    | Some status =>
        let! key := lift (to_string transactionId) in
        let! txRows := supabase_get.transactions key in
        match txRows with
        | [] => ret (badReq "Transaction not found")
        | tx :: _ =>
            let prevStatus := Tx.status tx in
            if status_eqb prevStatus status then ret (badReq "Transaction is already there")
            else
              (if refund_due tx status
               then try_catch
                      (rpc_upsert_balance (Tx.user_id tx) (Tx.asset tx) (refund_delta tx))
                      (fun _ => ret tt)
               else ret tt) ;;
              supabase_patch.transactions key status ;;
              let! userRows := supabase_get.users_by_id (Tx.user_id tx) in
              auditLog_for event None "admin_transaction_status_update"
                [("admin_email", prop session "email");
                 ("transaction_id", transactionId);
                 ("prev_status", VStr (Tx.status_name prevStatus));
                 ("new_status", VStr (Tx.status_name status));
                 ("type", VStr (match Tx.type tx with
                                | Tx.deposit => "deposit"
                                | Tx.withdrawal => "withdrawal"
                                end));
                 ("asset", VStr (Tx.asset tx));
                 ("amount", Webhook.of_amount (Tx.amount tx));
                 ("notes", prop body "notes");
                 ("refunded", VBool (match Tx.type tx with
                                     | Tx.withdrawal => rejected status
                                     | Tx.deposit => false
                                     end))] ;;
              match userRows with
              | u :: _ =>
                  notify_transactionInitiated
                    {| n_userEmail := VStr (User.email u); n_type := Tx.type tx;
                       n_asset := Tx.asset tx; n_amount := Tx.amount tx;
                       n_status := Tx.status_name status; n_txId := key;
                       n_ip := "admin-update" |}
              | [] => ret tt
              end ;;
              ret (ok "updated")
        end
    end.

Section Handler.
Variable JSON_parse : string -> option value.

(** [exports.handler] before [requireAdmin] wraps it. *)
Definition handler (event : HttpEvent) (session : value) : M Response :=
  if negb (String.eqb (httpMethod event) "POST")
  then ret (mkResponse 405 "Method Not Allowed")
  else
    match JSON_parse (default "{}" (non_empty (rawBody event))) with
    | None => ret (badReq "Invalid JSON")
    | Some body => update event session body
    end.
End Handler.

End AdminUpdate.

(** ** ledger-transaction-create.js and admin-balance-adjust.js *)

(** [x.toFixed(k)] in fixed point: the nearest multiple of the unit. *)
Definition round_div (n d : Z) : Z := (2 * n + d) / (2 * d).

(** [try { await rpc } catch (err) { if (err.message.includes('Insufficient
    balance')) return badReq(msg); throw err; }]: the answer to return early,
    if any. *)
Definition rpc_or_bad_request (user asset : string) (delta : option Z) (msg : string)
    : M (option Response) :=
  try_catch
    (rpc_upsert_balance user asset delta ;; ret None)
    (fun err => match err with
                | InsufficientBalance => ret (Some (badReq msg))
                | _ => throw err
                end).

(** [supabase.get('/rest/v1/users', `auth0_sub=eq.X`)] *)
Definition users_by_sub (sub : string) : M (list User.t) :=
  supabase (fun w => (Ret (filter (fun u => User.auth0_sub u = sub) (users w)), w)).

(** [supabase.get('/rest/v1/balances', ...)], the amount after the adjustment. *)
Definition read_balance (user asset : string) : M (option Z) :=
  supabase (fun w => (Ret (balances w !! (user, asset)), w)).

Definition one_of (allowed : list string) (v : value) : option string :=
  match v with
  | VStr s => if decide (s ∈ allowed) then Some s else None
  | _ => None
  end.

Module LedgerCreate.

Definition ALLOWED_ASSETS : list string := ["BTC"; "ETH"; "USDT"; "USDC"; "SOL"].
Definition ALLOWED_TYPES : list string := ["deposit"; "withdrawal"].

Definition kind_of (type : string) : Tx.Kind :=
  if String.eqb type "deposit" then Tx.deposit else Tx.withdrawal.

(** [FALLBACK_PRICES], in cents for one whole coin. *)
Definition FALLBACK_PRICES (asset : string) : Z :=
  if String.eqb asset "BTC" then 6700000
  else if String.eqb asset "ETH" then 350000
  else if String.eqb asset "SOL" then 18000
  else 100.

(** The smallest unit of an amount: 8 decimals, as [toFixed(8)] keeps. *)
Definition UNIT : Z := 100000000.

(** [parseFloat((x * price).toFixed(2))], in cents. *)
Definition usd_of (price : Z) (x : option Z) : option Z :=
  (fun n => round_div (n * price) UNIT) <$> x.

(** Lines 73-75: 0.1% on withdrawals ([PLATFORM_FEE_PCT]). *)
Definition fee_of (type : Tx.Kind) (numAmount : option Z) : option Z :=
  match type with
  | Tx.withdrawal => (fun n => round_div n 1000) <$> numAmount
  | Tx.deposit => Some 0
  end.

(** Lines 79-80, in cents. *)
Definition minimum_of (type : Tx.Kind) : Z :=
  match type with
  | Tx.deposit => 50000
  | Tx.withdrawal => 10000
  end.

(** Line 84: [type === 'deposit' ? numAmount : -(numAmount + fee_amount)]. *)
Definition delta_of (type : Tx.Kind) (numAmount fee_amount : option Z) : option Z :=
  match type, numAmount, fee_amount with
  | Tx.deposit, Some n, _ => Some n
  | Tx.withdrawal, Some n, Some f => Some (- (n + f))
  | _, _, _ => None
  end.

Section Create.

(** The price the crypto-prices function yields for an asset, in cents;
    [None] when the call fails or does not list the asset. *)
Variable crypto_prices : string -> option Z.

(** Lines 60-68. *)
Definition price_of (asset : string) : Z :=
  default (FALLBACK_PRICES asset) (crypto_prices asset).

(** Lines 48-170: the [try] of the handler, for a validated request. *)
Definition record (event : HttpEvent) (session : value) (type : Tx.Kind) (asset : string)
    (numAmount : option Z) (body : value) : M Response :=
  try_catch
    (let! sub := lift (to_string (prop session "sub")) in
     let! users := users_by_sub sub in
     match users with
     | [] => ret unauth
     | user :: _ =>
         let userId := User.id user in
         if String.eqb (User.kyc_status user) "rejected"
         then ret (badReq "Account suspended. Contact support.")
         else
           let price := price_of asset in
           let usd_value := usd_of price numAmount in
           let fee_amount := fee_of type numAmount in
           let fee_usd := usd_of price fee_amount in
           if num_lt usd_value (minimum_of type)
           then ret (badReq "Below the minimum USD equivalent")
           else
           let delta := delta_of type numAmount fee_amount in
           let! refused := rpc_or_bad_request userId asset delta "Insufficient balance" in
           match refused with
           | Some answer => ret answer
           | None =>
               let! tx := supabase_post.transactions (fun id =>
                 {| Tx.id := id; Tx.user_id := userId; Tx.type := type; Tx.asset := asset;
                    Tx.amount := numAmount; Tx.usd_value := usd_value;
                    Tx.fee_amount := Webhook.num_or fee_amount None;
                    Tx.fee_usd := Webhook.num_or fee_usd None;
                    Tx.status := match type with
                                 | Tx.deposit => Tx.processing
                                 | Tx.withdrawal => Tx.pending
                                 end;
                    Tx.tx_hash := prop body "tx_hash" |}) in
               auditLog_for event (Some userId)
                 (match type with
                  | Tx.deposit => "deposit_initiated"
                  | Tx.withdrawal => "withdrawal_initiated"
                  end)
                 [("transaction_id", VStr (Tx.id tx)); ("asset", VStr asset);
                  ("amount", Webhook.of_amount numAmount);
                  ("usd_value", Webhook.of_amount usd_value);
                  ("fee_usd", Webhook.of_amount fee_usd);
                  ("network", prop body "network");
                  ("address", prop body "address")] ;;
               notify_transactionInitiated
                 {| n_userEmail := prop session "email"; n_type := type; n_asset := asset;
                    n_amount := numAmount; n_status := "initiated"; n_txId := Tx.id tx;
                    n_ip := default "unknown"
                              (non_empty ((fun h => trim (nth 0 (split_on "," h) "")) <$>
                                          headers event !! "x-forwarded-for")) |} ;;
               ret (ok "transaction")
           end
     end)
    (fun _ => ret serverErr).

(** [!amount || isNaN(amount) || amount <= 0], line 43. *)
Definition bad_amount (amount : value) : Outcome bool :=
  if negb (truthy amount) then Ret true
  else obind (to_number amount) (fun n =>
         Ret (match n with
              | None => true
              | Some k => k <=? 0
              end)).

Variable JSON_parse : string -> option value.
Variable getSession : HttpEvent -> Outcome (option value).

(** [exports.handler], lines 28-171. *)
Definition handler (event : HttpEvent) : M Response :=
  if negb (String.eqb (httpMethod event) "POST")
  then ret (mkResponse 405 "Method Not Allowed")
  else
    let! session := lift (getSession event) in
    match session_ok session with
    | None => ret unauth
    | Some session =>
        match JSON_parse (default "{}" (non_empty (rawBody event))) with
        | None => ret (badReq "Invalid JSON")
        | Some body =>
            let! type := lift (get body "type") in
            match one_of ALLOWED_TYPES type with
            | None => lift (to_string type) ;; ret (badReq "Invalid type")
            | Some type =>
                match one_of ALLOWED_ASSETS (prop body "asset") with
                | None => lift (to_string (prop body "asset")) ;;
                          ret (badReq "Unsupported asset")
                | Some asset =>
                    let amount := prop body "amount" in
                    let! bad := lift (bad_amount amount) in
                    if bad then ret (badReq "amount must be a positive number")
                    else if String.eqb type "withdrawal"
                            && negb (truthy (prop body "address"))
                    then ret (badReq "address is required for withdrawals")
                    else
                      let! numAmount := lift (parseFloat amount) in
                      record event session (kind_of type) asset numAmount body
                end
            end
        end
    end.

End Create.

End LedgerCreate.

Module AdminAdjust.

Definition ALLOWED_ASSETS : list string := ["BTC"; "ETH"; "USDT"; "USDC"; "SOL"; "USD"].

(** [delta === undefined || delta === null || isNaN(delta) || delta === 0] *)
Definition bad_delta (delta : value) : Outcome bool :=
  match delta with
  | VUndefined | VNull => Ret true
  | VNum 0 => Ret true
  | _ => isNaN delta
  end.

(** [!reason?.trim()]: only a string has [trim]. *)
Definition no_reason (reason : value) : Outcome bool :=
  match reason with
  | VUndefined | VNull => Ret true
  | VStr s => Ret (String.eqb (trim s) "")
  | _ => Throw TypeError
  end.

(** Lines 38-105: the adjustment of an existing user. *)
Definition adjust (event : HttpEvent) (session : value) (userId asset : string)
    (numDelta : option Z) (user : User.t) : M Response :=
  let! refused := rpc_or_bad_request userId asset numDelta
                    "Insufficient balance - debit would go negative" in
  match refused with
  | Some answer => ret answer
  | None =>
      let kind := match numDelta with
                  | Some n => if 0 <? n then Tx.deposit else Tx.withdrawal
                  | None => Tx.withdrawal
                  end in
      let! tx := supabase_post.transactions (fun id =>
        {| Tx.id := id; Tx.user_id := userId; Tx.type := kind; Tx.asset := asset;
           Tx.amount := Z.abs <$> numDelta; Tx.usd_value := None;
           Tx.fee_amount := None; Tx.fee_usd := None;
           Tx.status := Tx.completed; Tx.tx_hash := VUndefined |}) in
      auditLog_for event None "admin_balance_adjustment"
        [("admin_email", prop session "email"); ("target_user_id", VStr userId);
         ("asset", VStr asset); ("delta", Webhook.of_amount numDelta);
         ("transaction_id", VStr (Tx.id tx))] ;;
      notify_transactionInitiated
        {| n_userEmail := VStr (User.email user); n_type := kind; n_asset := asset;
           n_amount := Z.abs <$> numDelta; n_status := "completed"; n_txId := Tx.id tx;
           n_ip := default "admin"
                     (non_empty ((fun h => nth 0 (split_on "," h) "") <$>
                                 headers event !! "x-forwarded-for")) |} ;;
      read_balance userId asset ;;
      ret (ok "adjusted")
  end.

Section Handler.
Variable JSON_parse : string -> option value.

(** [exports.handler] before [requireAdmin] wraps it, lines 16-106. *)
Definition handler (event : HttpEvent) (session : value) : M Response :=
  if negb (String.eqb (httpMethod event) "POST")
  then ret (mkResponse 405 "Method Not Allowed")
  else
    match JSON_parse (default "{}" (non_empty (rawBody event))) with
    | None => ret (badReq "Invalid JSON")
    | Some body =>
        let! userId := lift (get body "userId") in
        if negb (truthy userId) then ret (badReq "userId is required")
        else
          match one_of ALLOWED_ASSETS (prop body "asset") with
          | None => lift (to_string (prop body "asset")) ;; ret (badReq "Unsupported asset")
          | Some asset =>
              let delta := prop body "delta" in
              let! bad := lift (bad_delta delta) in
              if bad then ret (badReq "delta must be a non-zero number")
              else
                let! missing := lift (no_reason (prop body "reason")) in
                if missing then ret (badReq "reason is required for audit trail")
                else
                  let! numDelta := lift (parseFloat delta) in
                  let! key := lift (to_string userId) in
                  let! users := supabase_get.users_by_id key in
                  match users with
                  | [] => ret (badReq "User not found")
                  | user :: _ =>
                      (* the row answers the filter, so its id is [key] *)
                      adjust event session key asset numDelta user
                  end
          end
    end.
End Handler.

End AdminAdjust.

(** ** Worked inputs

    The scenario of the specification: a BTC charge with threshold 3 for
    0.05 BTC (5,000,000 satoshi), and the payloads of its events. *)

Definition scenario_charge : Charge.t :=
  {| Charge.id := "charge-1"; Charge.coinbase_charge_id := "cb-1";
     Charge.coinbase_charge_code := "CODE1";
     Charge.user_id := "user-1"; Charge.asset := "BTC"; Charge.amount_usd := 335000;
     Charge.crypto_amount := Some 5000000; Charge.status := Charge.pending;
     Charge.confirmations := Some 0; Charge.confirm_threshold := 3;
     Charge.credited := false; Charge.network_tx := VNull;
     Charge.transaction_id := None |}.

Definition scenario_user : User.t :=
  {| User.id := "user-1"; User.auth0_sub := "auth0|1"; User.email := "ada@example.com";
     User.name := Some "Ada"; User.kyc_status := "approved" |}.

Definition scenario_world : World :=
  {| charges := [scenario_charge]; balances := ∅; transactions := [];
     audit_log := []; users := [scenario_user]; notifications := []; faults := [] |}.

(** [{ id: 'cb-1', payments: [{ status: 'CONFIRMED', transaction_id: '0xabc',
       value: { crypto: { amount } }, block: { confirmations } }] }] *)
Definition payment_data (block : value) : value :=
  VObj [("id", VStr "cb-1");
        ("code", VStr "CODE1");
        ("payments",
         VArr [VObj [("status", VStr "CONFIRMED");
                     ("transaction_id", VStr "0xabc");
                     ("value", VObj [("crypto", VObj [("amount", VNum 5000000)])]);
                     ("block", block)]])].

Definition with_count (n : Z) : value := payment_data (VObj [("confirmations", VNum n)]).

(** The charge once it has been credited. *)
Definition credited_charge : Charge.t :=
  Charge.apply
    {| Charge.set_status := Some Charge.completed; Charge.set_credited := Some true;
       Charge.set_confirmations := Some (Some 3); Charge.set_network_tx := Some (VStr "0xabc");
       Charge.set_transaction_id := Some (Some "1") |}
    scenario_charge.


(** The status an event writes without looking at the current one. *)
Definition written_status (e : Webhook.EventType) : option Charge.Status :=
  match e with
  | Webhook.charge_created => Some Charge.pending
  | Webhook.charge_pending => Some Charge.detected
  | Webhook.charge_failed | Webhook.charge_expired => Some Charge.failed
  | Webhook.charge_delayed => Some Charge.underpaid
  | Webhook.charge_resolved => Some Charge.resolved
  | Webhook.charge_confirmed | Webhook.unhandled => None
  end.

(** A payload the provider sends: an object whose event has a type (a string)
    and data naming the provider charge [key]. *)
Definition well_formed (payload : value) (key : string) : Prop :=
  (exists fields, payload = VObj fields) /\
  (exists t, prop (event_of payload) "type" = VStr t /\ t <> "") /\
  truthy (prop (event_of payload) "data") = true /\
  names key (prop (event_of payload) "data").

(** The world in which the scenario charge has already been credited. *)
Definition credited_world : World :=
  {| charges := [credited_charge]; balances := {[ ("user-1", "BTC") := 5000000 ]};
     transactions := []; audit_log := []; users := [scenario_user];
     notifications := []; faults := [] |}.


(** Stand-ins for the Node primitives, to run the handlers on concrete
    requests: a keyed digest that depends on its key and message, and the
    parses of the three bodies used below. *)
Definition demo_hmac (key data : string) : string :=
  "mac(" +:+ key +:+ "," +:+ data +:+ ")".

(** The body [{event:{type:charge:confirmed,data:{id:cb-404}}}] names a
    charge that is not stored; [{}] has no event. *)
Definition demo_parse (s : string) : option value :=
  if String.eqb s "{}" then Some (VObj [])
  else if String.eqb s "null" then Some VNull
  else if String.eqb s "unknown-charge"
       then Some (VObj [("event", VObj [("type", VStr "charge:confirmed");
                                        ("data", VObj [("id", VStr "cb-404")])])])
  else None.

(** A POST of [body] that carries [sig] as its signature header. *)
Definition post (sig : option string) (body : string) : HttpEvent :=
  {| httpMethod := "POST";
     headers := match sig with
                | Some s => {[ "x-cc-webhook-signature" := s ]}
                | None => ∅
                end;
     rawBody := Some body |}.

(** [null] or [undefined]: reading a property of it throws. *)
Definition nullish (v : value) : bool :=
  match v with
  | VUndefined | VNull => true
  | _ => false
  end.

(** The transaction the admin handler loads for an id: [txRows[0]]. *)
Definition lookup_tx (key : string) (w : World) : option Tx.t :=
  head (filter (fun x => Tx.id x = key) (transactions w)).

(** The scenario of the specification: a withdrawal of 1.0 ETH with a fee of
    0.001 ETH (amounts in units of 1e-8 ETH), debited when it was created. *)
Definition withdrawal_row (status : Tx.Status) : Tx.t :=
  {| Tx.id := "1"; Tx.user_id := "user-1"; Tx.type := Tx.withdrawal; Tx.asset := "ETH";
     Tx.amount := Some 100000000; Tx.usd_value := Some 350000;
     Tx.fee_amount := Some 100000; Tx.fee_usd := Some 350;
     Tx.status := status; Tx.tx_hash := VNull |}.

Definition withdrawal_world (status : Tx.Status) : World :=
  {| charges := []; balances := {[ ("user-1", "ETH") := 50000000 ]};
     transactions := [withdrawal_row status]; audit_log := [];
     users := [scenario_user]; notifications := []; faults := [] |}.

(** [{ transactionId: '1', status }] *)
Definition update_body (status : string) : value :=
  VObj [("transactionId", VStr "1"); ("status", VStr status)].

Definition admin_event : HttpEvent :=
  {| httpMethod := "POST"; headers := ∅; rawBody := None |}.

Definition admin_session : value :=
  VObj [("email", VStr "root@example.com"); ("isAdmin", VBool true)].

(** The request passes the checks of lines 116-130 and loads [tx]. *)
Definition update_request (body : value) (key : string) (status : Tx.Status)
    (tx : Tx.t) (w : World) : Prop :=
  (exists tid, get body "transactionId" = Ret tid /\ truthy tid = true /\
               to_string tid = Ret key) /\
  AdminUpdate.ALLOWED_STATUSES (prop body "status") = Some status /\
  lookup_tx key w = Some tx.

(** The balances after the refund step, when the call itself goes through. *)
Definition after_refund (tx : Tx.t) (s : Tx.Status) (b : gmap (string * string) Z)
    : gmap (string * string) Z :=
  if AdminUpdate.refund_due tx s
  then match AdminUpdate.refund_delta tx with
       | Some delta =>
           match upsert_balance (Tx.user_id tx) (Tx.asset tx) delta b with
           | Ret b' => b'
           | Throw _ => b
           end
       | None => b
       end
  else b.

(** ** Cookie shapes that must not open a session *)

Section Refused.

Variable secret : option string.
Variable hmac : string -> string -> string.
Variable decode : string -> string.
Variable parse : string -> option value.
Variable now : Z.

(** [token.split('.')]: the data and the signature, when there is one. *)
Definition token_of (raw : string) : string := slice (String.length COOKIE_NAME + 1) raw.
Definition data_of (raw : string) : string := nth 0 (split_on "." (token_of raw)) "".
Definition sig_of (raw : string) : option string := nth_error (split_on "." (token_of raw)) 1.

(** The shapes of a cookie header listed by the claim: no session cookie; a
    token without separator; a signature whose length is not the digest's;
    a payload that is not JSON; a token past its expiry. *)
Inductive refused (event : HttpEvent) : Prop :=
| no_cookie :
    find_cookie (default "" (headers event !! "cookie")) = None -> refused event
| no_separator raw :
    find_cookie (default "" (headers event !! "cookie")) = Some raw ->
    sig_of raw = None -> refused event
| wrong_length raw sig key :
    find_cookie (default "" (headers event !! "cookie")) = Some raw ->
    sig_of raw = Some sig -> secret = Some key ->
    String.length sig <> String.length (hmac key (data_of raw)) -> refused event
| not_json raw :
    find_cookie (default "" (headers event !! "cookie")) = Some raw ->
    parse (decode (data_of raw)) = None -> refused event
| expired raw payload n :
    find_cookie (default "" (headers event !! "cookie")) = Some raw ->
    parse (decode (data_of raw)) = Some payload ->
    prop payload "exp" = VNum n -> n <> 0 -> 1000 * n < now -> refused event.

End Refused.

(** Requests for the session checks: a cookie header, and the stand-ins for
    the base64url digest and decoder. *)
Definition with_cookie (cookie : option string) : HttpEvent :=
  {| httpMethod := "POST";
     headers := match cookie with
                | Some c => {[ "cookie" := c ]}
                | None => ∅
                end;
     rawBody := None |}.

Definition demo_decode (data : string) : string := data.

(** A validated request of ledger-transaction-create reaches the balance
    call for [user] with [delta]: the session's user exists and is not
    suspended, and the amount is above the minimum. *)
Definition reaches_balance_call (prices : string -> option Z) (session : value)
    (type : Tx.Kind) (asset : string) (numAmount : option Z) (user : User.t)
    (delta : Z) (w : World) : Prop :=
  (exists sub, to_string (prop session "sub") = Ret sub /\
               head (filter (fun u => User.auth0_sub u = sub) (users w)) = Some user) /\
  User.kyc_status user <> "rejected" /\
  num_lt (LedgerCreate.usd_of (LedgerCreate.price_of prices asset) numAmount)
         (LedgerCreate.minimum_of type) = false /\
  LedgerCreate.delta_of type numAmount (LedgerCreate.fee_of type numAmount) = Some delta.

(** A [charge:confirmed] payload reaches the balance call with [delta]. *)
Definition reaches_credit (d : value) (c : Charge.t) (delta : Z) : Prop :=
  exists r, Webhook.read_confirmed d c = Ret r /\
            num_lt (Webhook.confirmations r) (Charge.confirm_threshold c) = false /\
            Webhook.num_or (Webhook.cryptoAmount r) (Charge.crypto_amount c) = Some delta.

(** The session of the scenario user. *)
Definition user_session : value :=
  VObj [("sub", VStr "auth0|1"); ("email", VStr "ada@example.com")].

(** ** What a computation leaves standing

    [preserves R m]: whatever the world and its schedule of failures, the
    world after [m] is related by [R] to the world before, whether [m]
    returns or throws. *)

Definition preserves {A} (R : World -> World -> Prop) (m : M A) : Prop :=
  forall w, R w (snd (m w)).

(** The relations that compose along a handler: reflexive, transitive, and
    blind to the schedule of failures. *)
Class Stable (R : World -> World -> Prop) : Prop := {
  stable_refl : forall w, R w w;
  stable_trans : forall a b c, R a b -> R b c -> R a c;
  stable_faults : forall fs w, R w (with_faults fs w)
}.

(** A charge row after a write: the columns fixed at creation are kept and
    [credited] is not taken back. *)
Definition evolves (c c' : Charge.t) : Prop :=
  same_charge c c' /\ (Charge.credited c = true -> Charge.credited c' = true).

Definition charges_evolve (w w' : World) : Prop :=
  Forall2 evolves (charges w) (charges w').

(** Only the rows with the id [id] may differ. *)
Definition charges_but (id : string) (w w' : World) : Prop :=
  Forall2 (fun c c' => Charge.id c <> id -> c' = c) (charges w) (charges w').


Definition audit_grows (w w' : World) : Prop :=
  audit_log w `prefix_of` audit_log w'.

Definition same_users (w w' : World) : Prop := users w' = users w.
Definition same_charges (w w' : World) : Prop := charges w' = charges w.

(** A transaction row after a status transition on [key]: every column but
    the status is kept, and rows with another id are kept whole. *)
Definition retouched (key : string) (x x' : Tx.t) : Prop :=
  x' = x \/ (Tx.id x = key /\ exists s, x' = Tx.with_status s x).

Definition transactions_retouched (key : string) (w w' : World) : Prop :=
  Forall2 (retouched key) (transactions w) (transactions w').

(** The ledger proper: the balances and the transaction rows. *)
Definition same_ledger (w w' : World) : Prop :=
  balances w' = balances w /\ transactions w' = transactions w.

(** One credit of [charge] between [w] and [w']: the balance call accepted
    [delta] for the user and asset of the charge, and the transaction row, if
    it was written, records that credit. *)
Definition credited_by (charge : Charge.t) (w w' : World) : Prop :=
  exists delta : Z,
    upsert_balance (Charge.user_id charge) (Charge.asset charge) delta (balances w)
    = Ret (balances w') /\
    (transactions w' = transactions w \/
     exists row, transactions w' = transactions w ++ [row] /\
       Tx.user_id row = Charge.user_id charge /\ Tx.type row = Tx.deposit /\
       Tx.asset row = Charge.asset charge /\ Tx.amount row = Some delta /\
       Tx.status row = Tx.completed).

(** ** auth-callback.js: the session issued at login *)

Definition MAX_AGE_SECONDS : Z := 60 * 60 * 8.
Definition ROLES_CLAIM : string := "https://apexcapital.com/roles".

(** [s.includes(t)] on strings. *)
Fixpoint includes_string (t s : string) : bool :=
  String.prefix t s ||
  match s with
  | String _ rest => includes_string t rest
  | EmptyString => false
  end.

(** [roles.includes('admin')], line 79: an array has the element, a string
    has the substring, anything else has no [includes]. *)
Definition includes_admin (roles : value) : Outcome bool :=
  match roles with
  | VArr l => Ret (existsb (fun v => match v with
                                     | VStr s => String.eqb s "admin"
                                     | _ => false
                                     end) l)
  | VStr s => Ret (includes_string "admin" s)
  | _ => Throw TypeError
  end.

(** Lines 62-64, 78-79 and 101-109: the payload of the session, from the
    profile that Auth0 answers with and [Date.now()]. *)
Definition session_payload (user : value) (Date_now : Z) : Outcome value :=
  obind (get user "name") (fun _ =>
  let name := or_else (or_else (prop user "name") (prop user "nickname"))
                      (prop user "email") in
  let email := prop user "email" in
  let sub := prop user "sub" in
  let roles := or_else (prop user ROLES_CLAIM) (VArr []) in
  obind (includes_admin roles) (fun isAdmin =>
  Ret (VObj [("sub", sub); ("email", email); ("name", name);
             ("picture", or_else (prop user "picture") VNull);
             ("isAdmin", VBool isAdmin);
             ("iat", VNum (Date_now / 1000));
             ("exp", VNum (Date_now / 1000 + MAX_AGE_SECONDS))]))).

Section AuthCallback.

(** [crypto.createHmac('sha256', key).update(data).digest('base64url')] *)
Variable hmac_sha256_base64url : string -> string -> string.
(** [Buffer.from(s).toString('base64url')] *)
Variable base64url_encode : string -> string.
Variable JSON_stringify : value -> string.

(** [signPayload], lines 141-145. *)
Definition signPayload (payload : value) (secret : option string) : Outcome string :=
  let data := base64url_encode (JSON_stringify payload) in
  match secret with
  | None => Throw TypeError           (* createHmac without a key *)
  | Some key => Ret (data +:+ "." +:+ hmac_sha256_base64url key data)
  end.

End AuthCallback.

(** The characters of a base64url text. *)
Definition base64url_char (c : ascii) : bool :=
  let n := nat_of_ascii c in
  ((65 <=? n) && (n <=? 90) || (97 <=? n) && (n <=? 122) || (48 <=? n) && (n <=? 57)
   || (n =? 45) || (n =? 95))%nat.

Fixpoint all_chars (p : ascii -> bool) (s : string) : bool :=
  match s with
  | EmptyString => true
  | String c rest => p c && all_chars p rest
  end.

(** A non-empty base64url text, as [toString('base64url')] and
    [digest('base64url')] yield for a non-empty input. *)
Definition base64url_text (s : string) : Prop :=
  s <> "" /\ all_chars base64url_char s = true.

(** A login to run the session checks on: the profile Auth0 answers with,
    and stand-ins for the encoder, the serialiser and the digest that keep to
    the base64url alphabet. *)
Definition login_profile : value :=
  VObj [("sub", VStr "auth0|1"); ("email", VStr "ada@example.com");
        ("name", VStr "Ada"); (ROLES_CLAIM, VArr [VStr "admin"])].

Definition demo_stringify (v : value) : string :=
  match prop v "exp" with
  | VNum n => "exp" +:+ pretty n
  | _ => "no-exp"
  end.

Definition demo_digest (key data : string) : string := key +:+ "-" +:+ data.

(** Reads back what [demo_stringify] wrote for a login at second 1000. *)
Definition demo_parse_session (s : string) : option value :=
  if String.eqb s "exp29800"
  then Some (VObj [("sub", VStr "auth0|1"); ("isAdmin", VBool true); ("exp", VNum 29800)])
  else None.

(** ** admin-kyc-update.js *)

Definition with_users (us : list User.t) (w : World) : World :=
  mkWorld (charges w) (balances w) (transactions w) (audit_log w) us (notifications w)
    (faults w).

Module AdminKyc.

(** [ALLOWED_STATUSES], line 96. *)
Definition ALLOWED_STATUSES : list string := ["pending"; "verified"; "rejected"].

Definition with_kyc (kyc_status : string) (u : User.t) : User.t :=
  {| User.id := User.id u; User.auth0_sub := User.auth0_sub u; User.email := User.email u;
     User.name := User.name u; User.kyc_status := kyc_status |}.

(** [supabase.patch('/rest/v1/users', `id=eq.X`, { kyc_status, updated_at })],
    lines 118-122. *)
Definition patch_users (userId kyc_status : string) : M unit :=
  supabase (fun w =>
    (Ret tt,
     with_users
       (map (fun u => if decide (User.id u = userId) then with_kyc kyc_status u else u)
            (users w)) w)).

(** The handler wrapped by [requireAdmin], lines 98-146, from the parsed body
    on.  The id is interpolated into the filter as it is; it is taken to be
    free of the characters that separate query parameters. *)
Definition update (event : HttpEvent) (session body : value) : M Response :=
  let! userId := lift (get body "userId") in
  let kyc_status := prop body "kyc_status" in
  if negb (truthy userId) then ret (badReq "userId is required")
  else
    match one_of ALLOWED_STATUSES kyc_status with
    | None => lift (to_string kyc_status) ;; ret (badReq "Invalid status")
    | Some status =>
        let! key := lift (to_string userId) in
        let! users := supabase_get.users_by_id key in
        match users with
        | [] => ret (badReq "User not found")
        | user :: _ =>
            let prevStatus := User.kyc_status user in
            patch_users key status ;;
            auditLog_for event None "admin_kyc_update"
              [("admin_email", prop session "email");
               ("target_user_id", userId);
               ("target_email", VStr (User.email user));
               ("prev_status", VStr prevStatus);
               ("new_status", VStr status);
               ("notes", or_else (prop body "notes") VNull)] ;;
            ret (ok "updated")
        end
    end.

Section Handler.
Variable JSON_parse : string -> option value.

(** [exports.handler] before [requireAdmin] wraps it. *)
Definition handler (event : HttpEvent) (session : value) : M Response :=
  if negb (String.eqb (httpMethod event) "POST")
  then ret (mkResponse 405 "Method Not Allowed")
  else
    match JSON_parse (default "{}" (non_empty (rawBody event))) with
    | None => ret (badReq "Invalid JSON")
    | Some body => update event session body
    end.
End Handler.

End AdminKyc.

(** No charge changes its [credited] flag. *)
Definition same_credited (w w' : World) : Prop :=
  Forall2 (fun c c' => Charge.credited c' = Charge.credited c) (charges w) (charges w').

(** The rows with the id of [charge] are marked as credited by the
    transaction row [row]; every other row is left whole. *)
Definition marked_credited (charge : Charge.t) (row : Tx.t) (w w' : World) : Prop :=
  Forall2 (fun c c' =>
             if decide (Charge.id c = Charge.id charge)
             then Charge.credited c' = true /\ Charge.status c' = Charge.completed /\
                  Charge.transaction_id c' = Some (Tx.id row)
             else c' = c)
    (charges w) (charges w').

(** ** ledger-transaction-history.js: the page requested and the page described *)

Module History.







End History.

(** ** deposit-status.js *)

Module DepositStatus.

(** What the dashboard is told about a charge, lines 40-60: the status shown
    and the convenience flags (the other fields are copied from the row). *)
Record View := mkView {
  charge : Charge.t;
  expired_shown : bool;
  is_pending : bool;
  is_detected : bool;
  is_complete : bool;
  is_failed : bool
}.

Definition is_status (c : Charge.t) (s : Charge.Status) : bool :=
  match Charge.status c, s with
  | Charge.pending, Charge.pending | Charge.detected, Charge.detected
  | Charge.confirming, Charge.confirming | Charge.completed, Charge.completed
  | Charge.failed, Charge.failed | Charge.underpaid, Charge.underpaid
  | Charge.resolved, Charge.resolved => true
  | _, _ => false
  end.

(** Lines 37-60.  [overdue] is [new Date(c.expires_at) < new Date()]; no
    stored status is ['expired'], so [c.status === 'expired'] is false. *)
Definition view (c : Charge.t) (overdue : bool) : View :=
  let expired := is_status c Charge.pending && overdue in
  {| charge := c;
     expired_shown := expired;
     is_pending := is_status c Charge.pending && negb expired;
     is_detected := is_status c Charge.detected || is_status c Charge.confirming;
     is_complete := is_status c Charge.completed && Charge.credited c;
     is_failed := is_status c Charge.failed || false || expired |}.

(** The answers of the endpoint: a plain response, or [ok({ charge })]. *)
Inductive Answer :=
| answered (r : Response)
| charge_status (v : View).

Section Handler.

Variable getSession : HttpEvent -> Outcome (option value).
(** [new Date(c.expires_at) < new Date()], from the [expires_at] column and
    the clock. *)
Variable overdue : Charge.t -> bool.

(** [supabase.get('/rest/v1/deposit_charges', `id=eq.X&user_id=eq.Y`)],
    lines 29-32. *)
Definition charges_of (chargeId userId : string) : M (list Charge.t) :=
  supabase (fun w =>
    (Ret (filter (fun c => Charge.id c = chargeId /\ Charge.user_id c = userId)
                 (charges w)), w)).

(** [exports.handler], lines 10-66; [chargeId] is
    [event.queryStringParameters?.charge_id], a string or undefined.  The id
    is interpolated into the filter as it is; it is taken to be free of the
    characters that separate query parameters. *)
Definition handler (event : HttpEvent) (chargeId : option string) : M Answer :=
  if negb (String.eqb (httpMethod event) "GET")
  then ret (answered (mkResponse 405 "Method Not Allowed"))
  else
    let! session := lift (getSession event) in
    match session_ok session with
    | None => ret (answered unauth)
    | Some session =>
        match non_empty chargeId with
        | None => ret (answered (badReq "charge_id is required"))
        | Some chargeId =>
            try_catch
              (let! sub := lift (to_string (prop session "sub")) in
               let! users := users_by_sub sub in
               match users with
               | [] => ret (answered unauth)
               | user :: _ =>
                   let! found := charges_of chargeId (User.id user) in
                   match found with
                   | [] => ret (answered (badReq "Charge not found"))
                   | c :: _ => ret (charge_status (view c (overdue c)))
                   end
               end)
              (fun _ => ret (answered serverErr))
        end
    end.

End Handler.

End DepositStatus.

(** ** The deployed functions together *)


Section Platform.

(** [process.env.COINBASE_COMMERCE_WEBHOOK_SECRET] and
    [process.env.AUTH0_COOKIE_SECRET] *)
Variable WEBHOOK_SECRET AUTH0_COOKIE_SECRET : option string.
Variable hmac_sha256_hex hmac_sha256_base64url : string -> string -> string.
Variable base64url_decode : string -> string.
Variable JSON_parse : string -> option value.



End Platform.

(** A transaction row but for its status. *)
Definition restatused (x x' : Tx.t) : Prop := exists s, x' = Tx.with_status s x.

(** Every transaction row is still there, in its place and with its id,
    user, type, asset, amounts and hash; rows may have been added after
    them. *)
Definition history_kept (w w' : World) : Prop :=
  exists kept added,
    transactions w' = kept ++ added /\ Forall2 restatused (transactions w) kept.

(** Balances reached from others by calls of the balance primitive that it
    accepted, and by nothing else. *)
Inductive through_primitive :
    gmap (string * string) Z -> gmap (string * string) Z -> Prop :=
| no_call b : through_primitive b b
| one_call b (user asset : string) (delta : Z) b1 b' :
    upsert_balance user asset delta b = Ret b1 ->
    through_primitive b1 b' -> through_primitive b b'.

Definition balances_through_primitive (w w' : World) : Prop :=
  through_primitive (balances w) (balances w').

(** Every user is still there, in place, with nothing changed but the KYC
    status. *)
Definition users_kept (w w' : World) : Prop :=
  Forall2 (fun u u' => exists s, u' = AdminKyc.with_kyc s u) (users w) (users w').

(** * Properties *)

(** ** The webhook state machine *)

Section WebhookFacts.

Implicit Types (w : World) (c : Charge.t) (d data type : value) (key : string).

Lemma same_tables_refl w : same_tables w w.
Proof. repeat split. Qed.

Lemma same_tables_trans w1 w2 w3 :
  same_tables w1 w2 -> same_tables w2 w3 -> same_tables w1 w3.
Proof.
  unfold same_tables. intros (?&?&?&?&?&?) (?&?&?&?&?&?).
  repeat split; congruence.
Qed.

Lemma same_tables_with_faults fs w : same_tables w (with_faults fs w).
Proof. repeat split. Qed.

Lemma same_charge_refl c : same_charge c c.
Proof. repeat split. Qed.

Lemma same_charge_trans c1 c2 c3 :
  same_charge c1 c2 -> same_charge c2 c3 -> same_charge c1 c3.
Proof.
  unfold same_charge. intros (?&?&?&?&?&?&?) (?&?&?&?&?&?&?).
  repeat split; congruence.
Qed.

Lemma same_charge_apply p c : same_charge c (Charge.apply p c).
Proof. repeat split. Qed.




(** A PATCH by id keeps every row where it is and rewrites the loaded one. *)
Lemma lookup_patch key c p w :
  lookup key w = Some c ->
  lookup key
    (with_charges
       (map (fun x => if decide (Charge.id x = Charge.id c) then Charge.apply p x else x)
            (charges w)) w)
  = Some (Charge.apply p c).
Proof.
  unfold lookup. simpl. generalize (charges w). intros cs.
  induction cs as [|x cs IH]; simpl; [discriminate|].
  rewrite !filter_cons.
  destruct (decide (Charge.id x = Charge.id c)) as [E|E]; simpl.
  - destruct (decide (Charge.coinbase_charge_id x = key)); simpl.
    + intros [= ->]. reflexivity.
    + exact IH.
  - destruct (decide (Charge.coinbase_charge_id x = key)); simpl.
    + intros [= ->]. contradiction.
    + exact IH.
Qed.


End WebhookFacts.

Section ConfirmedStep.

Implicit Types (w : World) (c : Charge.t) (d data type : value) (key : string).

Lemma same_tables_pop w : same_tables w (pop w).
Proof. unfold pop. destruct (faults w); repeat split. Qed.

Lemma supabase_no_fault {A} (op : M A) w : faults w = [] -> supabase op w = op w.
Proof. intros H. unfold supabase. now rewrite H. Qed.

(** Steps 3 and 4 under any failure schedule: the lookup either fails, finds
    nothing, or hands the first matching row to [dispatch]. *)
Lemma process_unfold type d key w :
  names key d ->
  Webhook.process type d w =
  match faults w with
  | true :: fs => (Ret (mkResponse 200 Webhook.ack_error), with_faults fs w)
  | _ =>
      match lookup key w with
      | None => (Ret (mkResponse 200 "OK"), pop w)
      | Some c =>
          match Webhook.dispatch type d c (pop w) with
          | (Ret _, w') => (Ret (mkResponse 200 Webhook.ack), w')
          | (Throw _, w') => (Ret (mkResponse 200 Webhook.ack_error), w')
          end
      end
  end.
Proof.
  intros Hk. unfold names in Hk.
  unfold Webhook.process, try_catch, bind, lift, supabase_get.deposit_charges, supabase.
  rewrite Hk. unfold lookup, pop.
  destruct (faults w) as [|[] fs]; simpl; try reflexivity.
  - destruct (filter _ (charges w)) as [|c cs]; simpl; [reflexivity|].
    destruct (Webhook.dispatch type d c w) as [[[]|e] w']; reflexivity.
  - destruct (filter _ (charges w)) as [|c cs]; simpl; [reflexivity|].
    destruct (Webhook.dispatch type d c (with_faults fs w)) as [[[]|e] w']; reflexivity.
Qed.

Lemma dispatch_confirmed d c :
  Webhook.dispatch confirmed d c = Webhook.on_confirmed d (prop d "id") c.
Proof. reflexivity. Qed.

(** The idempotency guard of lines 205-209. *)
Lemma on_confirmed_credited d v c w :
  Charge.credited c = true -> Webhook.on_confirmed d v c w = (Ret tt, w).
Proof. intros H. unfold Webhook.on_confirmed. now rewrite H. Qed.


End ConfirmedStep.

Section ConfirmedNoFault.

Implicit Types (w : World) (c : Charge.t) (d data type : value) (key : string).

Lemma pop_no_fault w : faults w = [] -> pop w = w.
Proof. intros H. unfold pop. now rewrite H. Qed.




End ConfirmedNoFault.

Section ConfirmedSequences.

Implicit Types (w : World) (c : Charge.t) (d data type : value) (key : string).



End ConfirmedSequences.

Section StatusEvents.

Implicit Types (w : World) (c : Charge.t) (d data type : value) (key : string).

(** An event other than [charge:confirmed], delivered without failures:
    the status is overwritten, whatever it was; a [charge:pending] event also
    resets the stored count to 0; balances and transactions are left alone. *)
Lemma deliver_status_event type d key c w s :
  faults w = [] -> names key d -> lookup key w = Some c ->
  written_status (Webhook.classify type) = Some s ->
  let w' := deliver type d w in
  faults w' = [] /\ balances w' = balances w /\ transactions w' = transactions w /\
  exists c', lookup key w' = Some c' /\ Charge.status c' = s /\
             Charge.credited c' = Charge.credited c /\
             Charge.confirmations c' =
               (match Webhook.classify type with
                | Webhook.charge_pending => Some 0
                | _ => Charge.confirmations c
                end) /\
             same_charge c c'.
Proof.
  intros Hf Hk Hl Hs. unfold deliver.
  rewrite (process_unfold _ _ _ _ Hk), Hf, Hl, (pop_no_fault _ Hf).
  unfold Webhook.dispatch.
  destruct (Webhook.classify type); simpl in Hs; try discriminate;
    injection Hs as <-;
    unfold Webhook.on_pending, Webhook.on_failed, Webhook.updateChargeStatus,
      supabase_patch.deposit_charges, Webhook.notify_user, supabase_get.users_by_id,
      auditLog, supabase_post.audit_log, try_catch, bind, supabase;
    simpl; repeat (rewrite Hf; simpl);
    try (destruct (filter (fun u => User.id u = Charge.user_id c) (users w)) as [|u us];
         simpl);
    (split_and!; try reflexivity; try assumption;
     eexists; (split; [apply (lookup_patch _ _ _ _ Hl)|]);
     split_and!; try reflexivity; apply same_charge_apply).
Qed.

(** An unrecognized event type writes nothing. *)
Lemma deliver_unhandled type d key c w :
  names key d -> lookup key w = Some c ->
  Webhook.classify type = Webhook.unhandled ->
  same_tables w (deliver type d w).
Proof.
  intros Hk Hl Hu. unfold deliver.
  rewrite (process_unfold _ _ _ _ Hk), Hl. unfold Webhook.dispatch. rewrite Hu.
  unfold ret. destruct (faults w) as [|[] fs] eqn:E; simpl;
    try apply same_tables_pop; apply same_tables_with_faults.
Qed.

End StatusEvents.

Section ConfirmedCases.

Implicit Types (w : World) (c : Charge.t) (d data type : value) (key : string).




End ConfirmedCases.

(** ** Claims about the webhook state machine *)






(** C4, as stated, fails: a [charge:created] event moves a completed,
    credited charge back to [pending], and a [charge:pending] event moves it
    to [detected]. *)
Lemma created_event_regresses_completed_charge :
  lookup "cb-1" credited_world = Some credited_charge /\
  Charge.status credited_charge = Charge.completed /\
  Charge.terminal (Charge.status credited_charge) = true /\
  Charge.status <$> lookup "cb-1" (deliver (VStr "charge:created") (with_count 3) credited_world)
    = Some Charge.pending /\
  Charge.status <$> lookup "cb-1" (deliver (VStr "charge:pending") (with_count 3) credited_world)
    = Some Charge.detected.
Proof. split_and!; vm_compute; reflexivity. Qed.

(** C4, amended.  Without store failure, every recognized event other than
    [charge:confirmed] writes its status whatever the current status is,
    terminal or not: created writes [pending], pending writes [detected],
    failed and expired write [failed], delayed writes [underpaid], resolved
    writes [resolved]; none of them changes [credited], a balance or a
    Transaction row.  The only guard is the one of [charge:confirmed]: on a
    credited charge it writes nothing; an unrecognized type writes nothing. *)
Theorem event_status_is_written_unconditionally type d key c w :
  faults w = [] -> names key d -> lookup key w = Some c ->
  let w' := deliver type d w in
  match written_status (Webhook.classify type) with
  | Some s =>
      balances w' = balances w /\ transactions w' = transactions w /\
      exists c', lookup key w' = Some c' /\ Charge.status c' = s /\
                 Charge.credited c' = Charge.credited c
  | None =>
      Webhook.classify type = Webhook.unhandled \/ Charge.credited c = true ->
      same_tables w w'
  end.
Proof.
  intros Hf Hk Hl w'.
  destruct (written_status (Webhook.classify type)) as [s|] eqn:Hs.
  - destruct (deliver_status_event type d key c w s Hf Hk Hl Hs)
      as (_ & Hb & Ht & c' & Hl' & Hs' & Hc' & _).
    split_and!; try assumption. exists c'. split_and!; assumption.
  - intros [Hu|Hc].
    + exact (deliver_unhandled type d key c w Hk Hl Hu).
    + destruct (Webhook.classify type) eqn:E; simpl in Hs; try discriminate.
      * unfold w', deliver. rewrite (process_unfold _ _ _ _ Hk), Hf, Hl.
        unfold Webhook.dispatch. rewrite E.
        rewrite (on_confirmed_credited _ _ _ _ Hc). simpl. apply same_tables_pop.
      * exact (deliver_unhandled type d key c w Hk Hl E).
Qed.

Lemma event_status_is_written_unconditionally_witness :
  faults credited_world = [] /\
  balances (deliver (VStr "charge:failed") (with_count 3) credited_world)
    = balances credited_world /\
  exists c', lookup "cb-1" (deliver (VStr "charge:failed") (with_count 3) credited_world)
             = Some c' /\
             Charge.status c' = Charge.failed /\ Charge.credited c' = true.
Proof.
  pose proof (event_status_is_written_unconditionally (VStr "charge:failed") (with_count 3)
                "cb-1" credited_charge credited_world eq_refl eq_refl eq_refl)
    as (Hb & _ & Hc).
  split; [reflexivity|]. split; [exact Hb| exact Hc].
Defined.




(** ** Claims about the webhook entry point *)

Section HandlerFacts.

Variable WEBHOOK_SECRET : option string.
Variable hmac : string -> string -> string.
Variable parse : string -> option value.

Lemma timingSafeEqual_same s : timingSafeEqual s s = Ret true.
Proof. unfold timingSafeEqual. now rewrite Nat.eqb_refl, String.eqb_refl. Qed.

(** What the handler does once the signature has been accepted. *)
Lemma webhook_handler_signed event w :
  validly_signed WEBHOOK_SECRET hmac event ->
  webhook_handler WEBHOOK_SECRET hmac parse event w =
  match parse (default "" (rawBody event)) with
  | None => (Ret (mkResponse 400 "Invalid JSON"), w)
  | Some payload =>
      match get payload "event" with
      | Throw e => (Throw e, w)
      | Ret ev =>
          let type := prop (or_else ev empty_obj) "type" in
          let data := prop (or_else ev empty_obj) "data" in
          if truthy type && truthy data
          then match to_string type, to_string (prop data "id") with
               | Ret _, Ret _ => Webhook.process type data w
               | Throw e, _ => (Throw e, w)
               | Ret _, Throw e => (Throw e, w)
               end
          else (Ret (mkResponse 400 "Missing event type or data"), w)
      end
  end.
Proof.
  intros (Hm & secret & Hs & Hne & Hsig).
  unfold webhook_handler. rewrite Hm, Hs. simpl.
  destruct secret as [|a secret]; [contradiction|].
  rewrite Hsig, timingSafeEqual_same.
  destruct (parse (default "" (rawBody event))) as [payload|]; [|reflexivity].
  unfold bind, lift. cbn [negb].
  destruct (get payload "event") as [ev|e]; [|reflexivity]. cbn zeta.
  destruct (truthy (prop (or_else ev empty_obj) "type"));
    destruct (truthy (prop (or_else ev empty_obj) "data")); cbn [negb orb andb];
    reflexivity.
Qed.

(** A validly signed request with a well-formed payload reaches steps 3 and 4. *)
Lemma webhook_handler_processes event payload key w :
  validly_signed WEBHOOK_SECRET hmac event ->
  parse (default "" (rawBody event)) = Some payload ->
  well_formed payload key ->
  webhook_handler WEBHOOK_SECRET hmac parse event w
  = Webhook.process (prop (event_of payload) "type") (prop (event_of payload) "data") w.
Proof.
  intros Hv Hp ((fields & ->) & (t & Ht & Htne) & Hd & Hk).
  rewrite (webhook_handler_signed event w Hv), Hp. unfold names in Hk.
  cbn [get]. cbn zeta.
  change (or_else (prop (VObj fields) "event") empty_obj) with (event_of (VObj fields)).
  rewrite Ht, Hd, Hk. cbn [truthy to_string negb andb].
  destruct (String.eqb_spec t ""); [contradiction|]. reflexivity.
Qed.

End HandlerFacts.

(** C9.  A validly signed, well-formed event whose provider charge id matches
    no stored charge is answered with HTTP 200, and no table is written: the
    charges, balances, transactions and audit rows (and the users and the
    notifications) are those before the request, also when the lookup
    itself fails. *)
Theorem unknown_charge_acknowledged WEBHOOK_SECRET hmac parse event payload key w :
  validly_signed WEBHOOK_SECRET hmac event ->
  parse (default "" (rawBody event)) = Some payload ->
  well_formed payload key ->
  lookup key w = None ->
  let result := webhook_handler WEBHOOK_SECRET hmac parse event w in
  (exists b, fst result = Ret (mkResponse 200 b)) /\ same_tables w (snd result).
Proof.
  intros Hv Hp Hwf Hl result. unfold result.
  rewrite (webhook_handler_processes WEBHOOK_SECRET hmac parse event payload key w Hv Hp Hwf).
  destruct Hwf as (_ & _ & _ & Hk).
  rewrite (process_unfold _ _ _ _ Hk), Hl.
  destruct (faults w) as [|[] fs] eqn:E; simpl; (split; [eexists; reflexivity|]).
  - unfold pop. rewrite E. apply same_tables_refl.
  - apply same_tables_with_faults.
  - unfold pop. rewrite E. apply same_tables_with_faults.
Qed.

Lemma unknown_charge_acknowledged_witness :
  validly_signed (Some "whsec") demo_hmac
    (post (Some (demo_hmac "whsec" "unknown-charge")) "unknown-charge") /\
  lookup "cb-404" scenario_world = None /\
  fst (webhook_handler (Some "whsec") demo_hmac demo_parse
         (post (Some (demo_hmac "whsec" "unknown-charge")) "unknown-charge") scenario_world)
  = Ret (mkResponse 200 "OK") /\
  same_tables scenario_world
    (snd (webhook_handler (Some "whsec") demo_hmac demo_parse
            (post (Some (demo_hmac "whsec" "unknown-charge")) "unknown-charge")
            scenario_world)).
Proof.
  assert (Hv : validly_signed (Some "whsec") demo_hmac
                 (post (Some (demo_hmac "whsec" "unknown-charge")) "unknown-charge")).
  { split; [reflexivity|]. exists "whsec". split_and!; [reflexivity|discriminate|reflexivity]. }
  assert (Hwf : well_formed
                  (VObj [("event", VObj [("type", VStr "charge:confirmed");
                                         ("data", VObj [("id", VStr "cb-404")])])])
                  "cb-404").
  { split_and!; [eexists; reflexivity| |reflexivity|reflexivity].
    exists "charge:confirmed". split; [reflexivity|discriminate]. }
  split; [exact Hv|]. split; [reflexivity|]. split; [reflexivity|].
  exact (proj2 (unknown_charge_acknowledged (Some "whsec") demo_hmac demo_parse
                  (post (Some (demo_hmac "whsec" "unknown-charge")) "unknown-charge")
                  _ "cb-404" scenario_world Hv eq_refl Hwf eq_refl)).
Defined.

(** A claimed signature as long as the digest but different from it is
    rejected with 401 before the body is parsed; nothing is touched. *)
Lemma signature_mismatch_rejected secret hmac parse event w :
  httpMethod event = "POST" -> secret <> "" ->
  String.length (default "" (headers event !! "x-cc-webhook-signature"))
  = String.length (hmac secret (default "" (rawBody event))) ->
  default "" (headers event !! "x-cc-webhook-signature")
  <> hmac secret (default "" (rawBody event)) ->
  webhook_handler (Some secret) hmac parse event w
  = (Ret (mkResponse 401 "Invalid signature"), w).
Proof.
  intros Hm Hne Hlen Hdiff. unfold webhook_handler. rewrite Hm. simpl.
  destruct secret as [|a secret]; [contradiction|].
  unfold bind, lift, timingSafeEqual. rewrite Hlen, Nat.eqb_refl.
  destruct (String.eqb_spec (default "" (headers event !! "x-cc-webhook-signature"))
              (hmac (String a secret) (default "" (rawBody event)))); [contradiction|].
  reflexivity.
Qed.

(** C5 does not hold of the code: when the claimed signature and the digest
    differ in length (an absent, empty or truncated header),
    [timingSafeEqual] throws; the handler has no [try] around it, so the
    exception leaves the handler instead of the answer 401.  The body is not
    parsed and nothing is touched. *)
Theorem signature_of_other_length_throws secret hmac parse event w :
  httpMethod event = "POST" -> secret <> "" ->
  String.length (default "" (headers event !! "x-cc-webhook-signature"))
  <> String.length (hmac secret (default "" (rawBody event))) ->
  webhook_handler (Some secret) hmac parse event w = (Throw RangeError, w).
Proof.
  intros Hm Hne Hlen. unfold webhook_handler. rewrite Hm. simpl.
  destruct secret as [|a secret]; [contradiction|].
  unfold bind, lift, timingSafeEqual.
  destruct (Nat.eqb_spec
              (String.length (default "" (headers event !! "x-cc-webhook-signature")))
              (String.length (hmac (String a secret) (default "" (rawBody event)))));
    [contradiction|reflexivity].
Qed.

(** A POST without the signature header. *)
Lemma signature_of_other_length_throws_witness :
  webhook_handler (Some "whsec") demo_hmac demo_parse (post None "unknown-charge")
    scenario_world
  = (Throw RangeError, scenario_world).
Proof.
  apply (signature_of_other_length_throws "whsec" demo_hmac demo_parse
           (post None "unknown-charge") scenario_world).
  - reflexivity.
  - discriminate.
  - vm_compute. discriminate.
Defined.

(** Steps 3 and 4 answer 200 whatever happens in them. *)
Lemma process_answers_200 type data w :
  exists b, fst (Webhook.process type data w) = Ret (mkResponse 200 b).
Proof.
  unfold Webhook.process, try_catch, bind, lift.
  destruct (to_string (prop data "id")) as [key|e]; [|eexists; reflexivity].
  destruct (supabase_get.deposit_charges key w) as [[[|c found]|e] w1];
    try (eexists; reflexivity).
  destruct (Webhook.dispatch type data c w1) as [[[]|e] w2]; eexists; reflexivity.
Qed.

(** C6, as stated, fails: the validly signed, parsable body [{}] is answered
    with 400. *)
Lemma parsable_body_without_event_is_rejected :
  validly_signed (Some "whsec") demo_hmac (post (Some (demo_hmac "whsec" "{}")) "{}") /\
  demo_parse "{}" = Some (VObj []) /\
  webhook_handler (Some "whsec") demo_hmac demo_parse
    (post (Some (demo_hmac "whsec" "{}")) "{}") scenario_world
  = (Ret (mkResponse 400 "Missing event type or data"), scenario_world).
Proof.
  split_and!; try reflexivity.
  split; [reflexivity|]. exists "whsec". split_and!; [reflexivity|discriminate|reflexivity].
Qed.

(** C6, amended.  A request with a valid signature is answered with 400 when
    its body is not parsable JSON, and also when the parsed payload has no
    event type or no event data; otherwise, for a payload that is not [null]
    and whose event type and charge id convert to strings, it is answered
    with 200, whatever happens during the lookup and the dispatch. *)
Theorem valid_signature_answers_200_or_400 WEBHOOK_SECRET hmac parse event w :
  validly_signed WEBHOOK_SECRET hmac event ->
  let answer := fst (webhook_handler WEBHOOK_SECRET hmac parse event w) in
  match parse (default "" (rawBody event)) with
  | None => answer = Ret (mkResponse 400 "Invalid JSON")
  | Some payload =>
      nullish payload = false ->
      let type := prop (event_of payload) "type" in
      let data := prop (event_of payload) "data" in
      if truthy type && truthy data
      then (exists t, to_string type = Ret t) ->
           (exists k, to_string (prop data "id") = Ret k) ->
           exists b, answer = Ret (mkResponse 200 b)
      else answer = Ret (mkResponse 400 "Missing event type or data")
  end.
Proof.
  intros Hv answer. unfold answer.
  rewrite (webhook_handler_signed WEBHOOK_SECRET hmac parse event w Hv).
  destruct (parse (default "" (rawBody event))) as [payload|]; [|reflexivity].
  intros Hnull.
  assert (Hget : get payload "event" = Ret (prop payload "event")).
  { destruct payload; try discriminate; reflexivity. }
  rewrite Hget. cbn zeta.
  change (or_else (prop payload "event") empty_obj) with (event_of payload).
  destruct (truthy (prop (event_of payload) "type")
            && truthy (prop (event_of payload) "data")); [|reflexivity].
  intros (t & Ht) (k & Hk). rewrite Ht, Hk.
  apply process_answers_200.
Qed.

Lemma valid_signature_answers_200_or_400_witness :
  validly_signed (Some "whsec") demo_hmac
    (post (Some (demo_hmac "whsec" "not json")) "not json") /\
  fst (webhook_handler (Some "whsec") demo_hmac demo_parse
         (post (Some (demo_hmac "whsec" "not json")) "not json") scenario_world)
  = Ret (mkResponse 400 "Invalid JSON").
Proof.
  assert (Hv : validly_signed (Some "whsec") demo_hmac
                 (post (Some (demo_hmac "whsec" "not json")) "not json")).
  { split; [reflexivity|]. exists "whsec". split_and!; [reflexivity|discriminate|reflexivity]. }
  split; [exact Hv|].
  exact (valid_signature_answers_200_or_400 (Some "whsec") demo_hmac demo_parse
           (post (Some (demo_hmac "whsec" "not json")) "not json") scenario_world Hv).
Defined.

(** ** Claims about the admin status transition *)

Section AdminUpdateFacts.

Implicit Types (w : World) (tx : Tx.t) (key : string) (s : Tx.Status).

Lemma status_eqb_eq a b : AdminUpdate.status_eqb a b = true <-> a = b.
Proof. destruct a, b; simpl; split; intros H; try discriminate; reflexivity. Qed.



(** One status transition without store failure. *)
Lemma update_no_fault event session body key s tx w :
  update_request body key s tx w -> Tx.status tx <> s -> faults w = [] ->
  let w' := snd (AdminUpdate.update event session body w) in
  faults w' = [] /\
  fst (AdminUpdate.update event session body w) = Ret (ok "updated") /\
  balances w' = after_refund tx s (balances w) /\
  transactions w' =
    map (fun x => if decide (Tx.id x = key) then Tx.with_status s x else x) (transactions w).
Proof.
  intros ((tid & Hg & Ht & Hk) & Ha & Hl) Hne Hf.
  assert (Heq : AdminUpdate.status_eqb (Tx.status tx) s = false).
  { destruct (AdminUpdate.status_eqb (Tx.status tx) s) eqn:E; [|reflexivity].
    apply status_eqb_eq in E. contradiction. }
  unfold lookup_tx in Hl.
  unfold AdminUpdate.update, bind, lift. rewrite Hg, Ht, Ha, Hk. cbn [negb].
  unfold supabase_get.transactions. rewrite (supabase_no_fault _ _ Hf).
  destruct (filter (fun x => Tx.id x = key) (transactions w)) as [|tx0 rows] eqn:Hrows;
    [discriminate|]. injection Hl as ->.
  rewrite Heq. unfold after_refund.
  unfold try_catch, rpc_upsert_balance, supabase_patch.transactions,
    supabase_get.users_by_id, auditLog_for, auditLog, supabase_post.audit_log,
    try_catch, bind, ret, supabase.
  destruct (AdminUpdate.refund_due tx s).
  - rewrite Hf. destruct (AdminUpdate.refund_delta tx) as [delta|].
    + destruct (upsert_balance _ _ delta (balances w)) as [b'|e];
        simpl; repeat (rewrite Hf; simpl);
        destruct (filter (fun u => User.id u = Tx.user_id tx) (users w)); simpl;
        split_and!; try reflexivity; assumption.
    + simpl; repeat (rewrite Hf; simpl);
        destruct (filter (fun u => User.id u = Tx.user_id tx) (users w)); simpl;
        split_and!; try reflexivity; assumption.
  - simpl; repeat (rewrite Hf; simpl);
      destruct (filter (fun u => User.id u = Tx.user_id tx) (users w)); simpl;
      split_and!; try reflexivity; assumption.
Qed.


End AdminUpdateFacts.





(** ** Claims about session verification *)

Section SessionFacts.

Variable secret : option string.
Variable hmac : string -> string -> string.
Variable decode : string -> string.
Variable parse : string -> option value.
Variable now : Z.

Lemma catch_null_returns {A} (o : Outcome (option A)) : exists r, catch_null o = Ret r.
Proof. destruct o; eexists; reflexivity. Qed.

Lemma getSession_returns event :
  exists r, getSession secret hmac decode parse now event = Ret r.
Proof.
  unfold getSession.
  destruct (find_cookie _); [apply catch_null_returns | eexists; reflexivity].
Qed.

Lemma verifyPayload_returns token key :
  exists r, verifyPayload hmac decode parse token key = Ret r.
Proof. unfold verifyPayload. apply catch_null_returns. Qed.

(** What is left of the signature check once the token has been split. *)
Lemma signed_data_cases token key :
  signed_data hmac token key = Ret None \/
  (exists e, signed_data hmac token key = Throw e) \/
  signed_data hmac token key = Ret (Some (nth 0 (split_on "." token) "")).
Proof.
  unfold signed_data.
  destruct (nth_error (split_on "." token) 1) as [sig|]; [|left; reflexivity].
  destruct (_ || _); [left; reflexivity|].
  destruct key as [k|]; [|right; left; eexists; reflexivity].
  destruct (timingSafeEqual sig _) as [[]|e]; simpl.
  - right; right; reflexivity.
  - left; reflexivity.
  - right; left; eexists; reflexivity.
Qed.

Lemma getSession_refused event :
  refused secret hmac decode parse now event ->
  getSession secret hmac decode parse now event = Ret None.
Proof.
  intros H. unfold getSession.
  destruct H as [Hc | raw Hc Hs | raw sig key Hc Hs Hk Hlen | raw Hc Hp | raw payload n Hc Hp He Hz Hlt];
    rewrite Hc; try reflexivity.
  - unfold signed_data. unfold sig_of, token_of in Hs. rewrite Hs. reflexivity.
  - unfold signed_data. unfold sig_of, data_of, token_of in *. rewrite Hs, Hk.
    destruct (_ || _); [reflexivity|].
    unfold timingSafeEqual. destruct (Nat.eqb_spec (String.length sig)
      (String.length (hmac key (nth 0 (split_on "." (slice (String.length COOKIE_NAME + 1) raw)) ""))));
      [contradiction|reflexivity].
  - destruct (signed_data_cases (slice (String.length COOKIE_NAME + 1) raw) secret)
      as [E|[(e & E)|E]]; rewrite E; try reflexivity.
    cbn [obind]. unfold parse_payload. unfold data_of, token_of in Hp. now rewrite Hp.
  - destruct (signed_data_cases (slice (String.length COOKIE_NAME + 1) raw) secret)
      as [E|[(e & E)|E]]; rewrite E; try reflexivity.
    cbn [obind]. unfold parse_payload. unfold data_of, token_of in Hp. rewrite Hp.
    cbn [obind].
    assert (Hg : get payload "exp" = Ret (VNum n)).
    { destruct payload; simpl in He; try discriminate; simpl; now rewrite He. }
    rewrite Hg. cbn [obind truthy].
    destruct (n =? 0) eqn:E0; [apply Z.eqb_eq in E0; contradiction|]. cbn [negb].
    unfold past. cbn [to_number obind]. apply Z.ltb_lt in Hlt. now rewrite Hlt.
Qed.

(** auth-user.js answers the same shapes with its own 401. *)
Lemma auth_user_refused event :
  refused secret hmac decode parse now event ->
  auth_user secret hmac decode parse now event = Ret (json 401 "{ok:false}").
Proof.
  intros H. unfold auth_user, parseCookie.
  assert (Hv : forall token,
            verifyPayload hmac decode parse token secret = Ret None ->
            match token with
            | "" => Ret (json 401 "{ok:false}")
            | _ =>
                obind (verifyPayload hmac decode parse token secret) (fun payload =>
                  match session_ok payload with
                  | None => Ret (json 401 "{ok:false}")
                  | Some p =>
                      obind (if truthy (prop p "exp") then past now (prop p "exp")
                             else Ret false) (fun late =>
                        if late then Ret (json 401 "{ok:false}")
                        else Ret (json 200 "{ok:true,user}"))
                  end)
            end = Ret (json 401 "{ok:false}")).
  { intros token E. rewrite E. destruct token; reflexivity. }
  destruct H as [Hc | raw Hc Hs | raw sig key Hc Hs Hk Hlen | raw Hc Hp | raw payload n Hc Hp He Hz Hlt];
    rewrite Hc; try reflexivity; cbn [option_map]; fold (token_of raw).
  - apply Hv. unfold verifyPayload, signed_data. unfold sig_of in Hs. now rewrite Hs.
  - apply Hv. unfold verifyPayload, signed_data. unfold sig_of, data_of in *. rewrite Hs, Hk.
    destruct (_ || _); [reflexivity|].
    unfold timingSafeEqual.
    destruct (Nat.eqb_spec (String.length sig)
                (String.length (hmac key (nth 0 (split_on "." (token_of raw)) ""))));
      [contradiction|reflexivity].
  - apply Hv. unfold verifyPayload.
    destruct (signed_data_cases (token_of raw) secret) as [E|[(e & E)|E]];
      rewrite E; try reflexivity.
    cbn [obind]. unfold parse_payload. unfold data_of in Hp. now rewrite Hp.
  - destruct (token_of raw) as [|a token] eqn:Etok; [reflexivity|]. rewrite <- Etok.
    unfold verifyPayload.
    destruct (signed_data_cases (token_of raw) secret) as [E|[(e & E)|E]];
      rewrite E; try reflexivity.
    cbn [obind catch_null]. unfold parse_payload. unfold data_of in Hp. rewrite Hp.
    cbn [obind catch_null session_ok].
    destruct (truthy payload); [|reflexivity].
    rewrite He. cbn [truthy].
    destruct (n =? 0) eqn:E0; [apply Z.eqb_eq in E0; contradiction|]. cbn [negb].
    unfold past. cbn [to_number obind]. apply Z.ltb_lt in Hlt. now rewrite Hlt.
Qed.

End SessionFacts.

(** C10.  Session verification is total: for every request [getSession]
    returns a decoded payload or null, and [verifyPayload] does for every
    token; neither throws.  A missing cookie, a token without separator, a
    signature of the wrong length, a payload that is not JSON and an expired
    token all yield null; and a null session is answered with 401
    Unauthorised by the cookie-authenticated endpoints. *)
Theorem session_verification_is_total secret hmac decode parse now event :
  let session := getSession secret hmac decode parse now event in
  (exists r, session = Ret r) /\
  (forall token key, exists r, verifyPayload hmac decode parse token key = Ret r) /\
  (refused secret hmac decode parse now event ->
   session = Ret None /\
   auth_user secret hmac decode parse now event = Ret (json 401 "{ok:false}")) /\
  (session = Ret None ->
   forall w,
     (httpMethod event <> "OPTIONS" ->
      forall handler,
        requireAdmin secret hmac decode parse now handler event w = (Ret unauth, w)) /\
     (httpMethod event = "POST" ->
      forall prices,
        LedgerCreate.handler prices parse (getSession secret hmac decode parse now) event w
        = (Ret unauth, w))).
Proof.
  intros session. split_and!.
  - apply getSession_returns.
  - intros token key. apply verifyPayload_returns.
  - intros Hr. split; [now apply getSession_refused | now apply auth_user_refused].
  - intros Hs w. split.
    + intros Hm handler. unfold requireAdmin.
      destruct (String.eqb_spec (httpMethod event) "OPTIONS"); [contradiction|].
      unfold bind, lift. fold session. rewrite Hs. reflexivity.
    + intros Hm prices. unfold LedgerCreate.handler. rewrite Hm. simpl.
      unfold bind, lift. fold session. rewrite Hs. reflexivity.
Qed.

(** A cookie whose token has no signature part. *)
Lemma session_verification_is_total_witness :
  refused (Some "cookie-secret") demo_hmac demo_decode demo_parse 1700000000000
    (with_cookie (Some "theme=dark; apex_session=abcdef")) /\
  getSession (Some "cookie-secret") demo_hmac demo_decode demo_parse 1700000000000
    (with_cookie (Some "theme=dark; apex_session=abcdef")) = Ret None /\
  LedgerCreate.handler (fun _ => None) demo_parse
    (getSession (Some "cookie-secret") demo_hmac demo_decode demo_parse 1700000000000)
    (with_cookie (Some "theme=dark; apex_session=abcdef")) scenario_world
  = (Ret unauth, scenario_world).
Proof.
  assert (Hr : refused (Some "cookie-secret") demo_hmac demo_decode demo_parse 1700000000000
                 (with_cookie (Some "theme=dark; apex_session=abcdef"))).
  { apply (no_separator _ _ _ _ _ _ "apex_session=abcdef"); reflexivity. }
  destruct (session_verification_is_total (Some "cookie-secret") demo_hmac demo_decode
              demo_parse 1700000000000
              (with_cookie (Some "theme=dark; apex_session=abcdef")))
    as (_ & _ & Hnull & H401).
  split; [exact Hr|]. split; [exact (proj1 (Hnull Hr))|].
  exact (proj2 (H401 (proj1 (Hnull Hr)) scenario_world) eq_refl (fun _ => None)).
Defined.

(** ** Claims about the balance primitive and its call sites *)

Section BalanceFacts.

Implicit Types (w : World) (user asset : string) (delta : Z).

Lemma upsert_balance_accepts user asset delta (b : gmap (string * string) Z) :
  0 <= default 0 (b !! (user, asset)) + delta <->
  upsert_balance user asset delta b
  = Ret (<[(user, asset) := default 0 (b !! (user, asset)) + delta]> b).
Proof.
  unfold upsert_balance.
  destruct (Z.leb_spec 0 (default 0 (b !! (user, asset)) + delta)) as [Hle|Hgt];
    split; intros Hx; try reflexivity; try assumption; try lia; discriminate.
Qed.

Lemma upsert_balance_refuses user asset delta (b : gmap (string * string) Z) :
  default 0 (b !! (user, asset)) + delta < 0 <->
  upsert_balance user asset delta b = Throw InsufficientBalance.
Proof.
  unfold upsert_balance.
  destruct (Z.leb_spec 0 (default 0 (b !! (user, asset)) + delta)) as [Hle|Hgt];
    split; intros Hx; try reflexivity; try assumption; try lia; discriminate.
Qed.

(** The call itself, when the store is reachable. *)
Lemma rpc_refused user asset delta w :
  faults w = [] -> balance_of w user asset + delta < 0 ->
  rpc_upsert_balance user asset (Some delta) w = (Throw InsufficientBalance, w).
Proof.
  intros Hf Hneg. unfold rpc_upsert_balance. rewrite (supabase_no_fault _ _ Hf).
  apply upsert_balance_refuses in Hneg. now rewrite Hneg.
Qed.

Lemma rpc_or_bad_request_refused user asset delta msg w :
  faults w = [] -> balance_of w user asset + delta < 0 ->
  rpc_or_bad_request user asset (Some delta) msg w = (Ret (Some (badReq msg)), w).
Proof.
  intros Hf Hneg. unfold rpc_or_bad_request, try_catch, bind.
  now rewrite (rpc_refused user asset delta w Hf Hneg).
Qed.

(** ledger-transaction-create: a refused debit is answered with 400 and
    nothing is written. *)
Lemma record_refused prices event session type asset numAmount body (u : User.t) delta w :
  faults w = [] ->
  reaches_balance_call prices session type asset numAmount u delta w ->
  balance_of w (User.id u) asset + delta < 0 ->
  LedgerCreate.record prices event session type asset numAmount body w
  = (Ret (badReq "Insufficient balance"), w).
Proof.
  intros Hf ((sub & Hsub & Hu) & Hkyc & Hmin & Hdelta) Hneg.
  unfold LedgerCreate.record, try_catch, bind, lift. rewrite Hsub.
  unfold users_by_sub. rewrite (supabase_no_fault _ _ Hf).
  destruct (filter (fun u => User.auth0_sub u = sub) (users w)) as [|u0 us];
    [discriminate|]. injection Hu as ->.
  destruct (String.eqb_spec (User.kyc_status u) "rejected"); [contradiction|].
  rewrite Hmin, Hdelta.
  now rewrite (rpc_or_bad_request_refused (User.id u) asset delta _ w Hf Hneg).
Qed.

(** admin-balance-adjust: a refused debit is answered with 400 and nothing is
    written. *)
Lemma adjust_refused event session user asset delta u w :
  faults w = [] -> balance_of w user asset + delta < 0 ->
  AdminAdjust.adjust event session user asset (Some delta) u w
  = (Ret (badReq "Insufficient balance - debit would go negative"), w).
Proof.
  intros Hf Hneg. unfold AdminAdjust.adjust, bind.
  now rewrite (rpc_or_bad_request_refused user asset delta _ w Hf Hneg).
Qed.

(** deposit-webhook: a refused credit is acknowledged with the error and
    nothing is written. *)
Lemma credit_refused d key c delta w :
  faults w = [] -> names key d -> lookup key w = Some c ->
  Charge.credited c = false -> reaches_credit d c delta ->
  balance_of w (Charge.user_id c) (Charge.asset c) + delta < 0 ->
  Webhook.process confirmed d w = (Ret (mkResponse 200 Webhook.ack_error), w).
Proof.
  intros Hf Hk Hl Hc (r & Hr & Hlt & Hd) Hneg.
  rewrite (process_unfold _ _ _ _ Hk), Hf, Hl, (pop_no_fault _ Hf), dispatch_confirmed.
  unfold Webhook.on_confirmed, bind, lift. rewrite Hc, Hr, Hlt, Hd.
  now rewrite (rpc_refused _ _ delta w Hf Hneg).
Qed.

End BalanceFacts.

(** C7.  The balance primitive (modelled from section 4.1) stores b + d when
    b + d >= 0, the absent row counting as 0, and fails with Insufficient
    balance otherwise, in which case nothing is stored.  At the call sites a
    refusal leaves every table as it was: ledger-transaction-create and
    admin-balance-adjust answer 400 Insufficient balance and record no
    transaction; the deposit credit acknowledges with the error and neither
    credits nor marks the charge; the refund of a status transition leaves
    the balances as they were.  A credit or refund of a non-negative amount
    to a non-negative balance is never refused. *)
Theorem balance_primitive_all_or_nothing user asset delta w :
  faults w = [] ->
  let held := balance_of w user asset in
  (0 <= held + delta <->
   upsert_balance user asset delta (balances w)
   = Ret (<[(user, asset) := held + delta]> (balances w))) /\
  (held + delta < 0 <->
   upsert_balance user asset delta (balances w) = Throw InsufficientBalance) /\
  (0 <= held -> 0 <= delta ->
   rpc_upsert_balance user asset (Some delta) w
   = (Ret tt, with_balances (<[(user, asset) := held + delta]> (balances w)) w)) /\
  (held + delta < 0 ->
   rpc_upsert_balance user asset (Some delta) w = (Throw InsufficientBalance, w) /\
   (forall prices event session type numAmount body u,
      reaches_balance_call prices session type asset numAmount u delta w ->
      User.id u = user ->
      LedgerCreate.record prices event session type asset numAmount body w
      = (Ret (badReq "Insufficient balance"), w)) /\
   (forall event session u,
      AdminAdjust.adjust event session user asset (Some delta) u w
      = (Ret (badReq "Insufficient balance - debit would go negative"), w)) /\
   (forall d key c,
      names key d -> lookup key w = Some c -> Charge.credited c = false ->
      Charge.user_id c = user -> Charge.asset c = asset -> reaches_credit d c delta ->
      Webhook.process confirmed d w = (Ret (mkResponse 200 Webhook.ack_error), w)) /\
   (forall event session body key s tx,
      update_request body key s tx w -> Tx.status tx <> s ->
      Tx.user_id tx = user -> Tx.asset tx = asset ->
      AdminUpdate.refund_delta tx = Some delta ->
      balances (snd (AdminUpdate.update event session body w)) = balances w)).
Proof.
  intros Hf held. split_and!.
  - apply upsert_balance_accepts.
  - apply upsert_balance_refuses.
  - intros Hheld Hdelta. unfold rpc_upsert_balance. rewrite (supabase_no_fault _ _ Hf).
    assert (Hok : 0 <= default 0 (balances w !! (user, asset)) + delta)
      by (fold (balance_of w user asset); fold held; lia).
    apply upsert_balance_accepts in Hok. now rewrite Hok.
  - intros Hneg. split_and!.
    + exact (rpc_refused user asset delta w Hf Hneg).
    + intros prices event session type numAmount body u Hreach <-.
      exact (record_refused prices event session type asset numAmount body u delta w
               Hf Hreach Hneg).
    + intros event session u. exact (adjust_refused event session user asset delta u w Hf Hneg).
    + intros d key c Hk Hl Hc <- <- Hreach.
      exact (credit_refused d key c delta w Hf Hk Hl Hc Hreach Hneg).
    + intros event session body key s tx Hreq Hne <- <- Hd.
      destruct (update_no_fault event session body key s tx w Hreq Hne Hf)
        as (_ & _ & Hb & _).
      rewrite Hb. unfold after_refund. rewrite Hd.
      apply upsert_balance_refuses in Hneg. rewrite Hneg.
      destruct (AdminUpdate.refund_due tx s); reflexivity.
Qed.

(** A debit of 0.6 ETH from a balance of 0.5 ETH. *)
Lemma balance_primitive_all_or_nothing_witness :
  faults (withdrawal_world Tx.pending) = [] /\
  balance_of (withdrawal_world Tx.pending) "user-1" "ETH" + (-60000000) < 0 /\
  rpc_upsert_balance "user-1" "ETH" (Some (-60000000)) (withdrawal_world Tx.pending)
  = (Throw InsufficientBalance, withdrawal_world Tx.pending) /\
  AdminAdjust.adjust admin_event admin_session "user-1" "ETH" (Some (-60000000))
    scenario_user (withdrawal_world Tx.pending)
  = (Ret (badReq "Insufficient balance - debit would go negative"),
     withdrawal_world Tx.pending).
Proof.
  assert (Hneg : balance_of (withdrawal_world Tx.pending) "user-1" "ETH" + (-60000000) < 0)
    by reflexivity.
  destruct (balance_primitive_all_or_nothing "user-1" "ETH" (-60000000)
              (withdrawal_world Tx.pending) eq_refl) as (_ & _ & _ & H).
  destruct (H Hneg) as (Hrpc & _ & Hadj & _).
  split; [reflexivity|]. split; [exact Hneg|]. split; [exact Hrpc|].
  exact (Hadj admin_event admin_session scenario_user).
Defined.

(** ** The scenarios of the specification, run *)

(** [pending], [confirmed] with 1 confirmation, [confirmed] with 3, and the
    duplicate: 0.05 BTC is credited once and one Transaction row exists. *)
Example scenario_event_stream :
  let w := deliver_confirmed [with_count 1; with_count 3; with_count 3]
             (deliver (VStr "charge:pending") (with_count 0) scenario_world) in
  balance_of w "user-1" "BTC" = 5000000 /\
  length (transactions w) = 1%nat /\
  (Charge.credited <$> lookup "cb-1" w) = Some true /\
  (Charge.status <$> lookup "cb-1" w) = Some Charge.completed.
Proof. vm_compute. split_and!; reflexivity. Qed.

(** Cancelling the pending withdrawal twice: the second request is refused
    and the balance has grown by 1.001 ETH once. *)
Example scenario_cancel_twice :
  let w1 := snd (AdminUpdate.update admin_event admin_session (update_body "cancelled")
                   (withdrawal_world Tx.pending)) in
  let second := AdminUpdate.update admin_event admin_session (update_body "cancelled") w1 in
  balance_of w1 "user-1" "ETH" = 50000000 + 100100000 /\
  fst second = Ret (badReq "Transaction is already there") /\
  balance_of (snd second) "user-1" "ETH" = 50000000 + 100100000.
Proof. vm_compute. split_and!; reflexivity. Qed.

(** A signature computed with another secret has the digest's length here
    and is answered with 401; the charge is untouched. *)
Example scenario_wrong_secret :
  webhook_handler (Some "whsec") demo_hmac demo_parse
    (post (Some (demo_hmac "other" "unknown-charge")) "unknown-charge") scenario_world
  = (Ret (mkResponse 401 "Invalid signature"), scenario_world).
Proof. vm_compute. reflexivity. Qed.

(** ** Store failures in the middle of the credit path

    The credit path is three writes: the balance delta, the Transaction row,
    the mark on the charge.  When the store fails after the first, the charge
    stays uncredited although the delta has been applied, and the next
    [charge:confirmed] delivery applies it again. *)
Example partial_failure_then_redelivery :
  let failing := with_faults [false; false; true] scenario_world in
  let w1 := deliver confirmed (with_count 3) failing in
  let w2 := deliver confirmed (with_count 3) w1 in
  balance_of w1 "user-1" "BTC" = 5000000 /\
  (Charge.credited <$> lookup "cb-1" w1) = Some false /\
  balance_of w2 "user-1" "BTC" = 10000000 /\
  (Charge.credited <$> lookup "cb-1" w2) = Some true.
Proof. vm_compute. split_and!; reflexivity. Qed.

(** Withdrawing 0.6 ETH (fee 0.0006 ETH) from a balance of 0.5 ETH is
    answered with 400 and writes nothing. *)
Example scenario_overdraft :
  LedgerCreate.record (fun _ => None) admin_event user_session Tx.withdrawal "ETH"
    (Some 60000000) (VObj [("address", VStr "0xdeadbeef")]) (withdrawal_world Tx.pending)
  = (Ret (badReq "Insufficient balance"), withdrawal_world Tx.pending).
Proof. vm_compute. reflexivity. Qed.

(** * Further properties *)

(** ** Composing what computations preserve *)

Section Preservation.

Context (R : World -> World -> Prop) `{!Stable R}.

Lemma preserves_ret {A} (a : A) : preserves R (ret a).
Proof. intros w. apply stable_refl. Qed.

Lemma preserves_throw {A} (e : Exn) : preserves R (@throw A e).
Proof. intros w. apply stable_refl. Qed.

Lemma preserves_lift {A} (o : Outcome A) : preserves R (lift o).
Proof. intros w. apply stable_refl. Qed.

Lemma preserves_bind {A B} (m : M A) (k : A -> M B) :
  preserves R m -> (forall a, preserves R (k a)) -> preserves R (bind m k).
Proof.
  intros Hm Hk w. unfold bind. specialize (Hm w).
  destruct (m w) as [[a|e] w1]; simpl in *; [|exact Hm].
  eapply stable_trans; [exact Hm | apply Hk].
Qed.

Lemma preserves_try_catch {A} (m : M A) (h : Exn -> M A) :
  preserves R m -> (forall e, preserves R (h e)) -> preserves R (try_catch m h).
Proof.
  intros Hm Hh w. unfold try_catch. specialize (Hm w).
  destruct (m w) as [[a|e] w1]; simpl in *; [exact Hm|].
  eapply stable_trans; [exact Hm | apply Hh].
Qed.

(** A REST call: the schedule decides whether [op] runs at all. *)
Lemma preserves_supabase {A} (op : M A) : preserves R op -> preserves R (supabase op).
Proof.
  intros Hop w. unfold supabase.
  destruct (faults w) as [|[] fs]; simpl.
  - apply Hop.
  - apply stable_faults.
  - eapply stable_trans; [apply stable_faults | apply Hop].
Qed.

(** A call that only reads. *)
Lemma preserves_read {A} (f : World -> A) : preserves R (supabase (fun w => (Ret (f w), w))).
Proof. apply preserves_supabase. intros w. apply stable_refl. Qed.

(** A call that writes [upd w] and does not fail on its own. *)
Lemma preserves_write {A} (f : World -> A) (upd : World -> World) :
  (forall w, R w (upd w)) -> preserves R (supabase (fun w => (Ret (f w), upd w))).
Proof. intros H. apply preserves_supabase. intros w. apply H. Qed.

End Preservation.

(** A relation between the values of one table is stable. *)
Lemma Stable_on {F} (table : World -> F) (r : F -> F -> Prop) :
  (forall x, r x x) -> (forall x y z, r x y -> r y z -> r x z) ->
  (forall fs w, table (with_faults fs w) = table w) ->
  Stable (fun w w' => r (table w) (table w')).
Proof.
  intros Hrefl Htrans Hf. split.
  - intros w. apply Hrefl.
  - intros a b c. apply Htrans.
  - intros fs w. rewrite Hf. apply Hrefl.
Qed.

Lemma evolves_refl c : evolves c c.
Proof. split; [apply same_charge_refl | auto]. Qed.

Lemma evolves_trans c1 c2 c3 : evolves c1 c2 -> evolves c2 c3 -> evolves c1 c3.
Proof.
  intros (H1 & G1) (H2 & G2). split; [eapply same_charge_trans; eassumption | auto].
Qed.

Lemma Forall2_refl_on {A} (r : A -> A -> Prop) (l : list A) :
  (forall x, r x x) -> Forall2 r l l.
Proof. intros H. induction l; constructor; auto. Qed.

Lemma Forall2_trans_on {A} (r : A -> A -> Prop) (l1 l2 l3 : list A) :
  (forall x y z, r x y -> r y z -> r x z) ->
  Forall2 r l1 l2 -> Forall2 r l2 l3 -> Forall2 r l1 l3.
Proof.
  intros H H12. revert l3. induction H12; intros l3 H23; inversion H23; subst;
    constructor; eauto.
Qed.

#[global] Instance charges_evolve_stable : Stable charges_evolve.
Proof.
  apply (Stable_on charges (Forall2 evolves)).
  - intros l. apply Forall2_refl_on, evolves_refl.
  - intros l1 l2 l3. apply Forall2_trans_on, evolves_trans.
  - reflexivity.
Qed.

#[global] Instance same_charges_stable : Stable same_charges.
Proof. apply (Stable_on charges (fun l l' => l' = l)); [congruence|congruence|reflexivity]. Qed.

#[global] Instance audit_grows_stable : Stable audit_grows.
Proof.
  apply (Stable_on audit_log (fun l l' => l `prefix_of` l')).
  - reflexivity.
  - intros x y z. apply transitivity.
  - reflexivity.
Qed.

#[global] Instance same_users_stable : Stable same_users.
Proof. apply (Stable_on users (fun l l' => l' = l)); [congruence|congruence|reflexivity]. Qed.

Lemma retouched_trans key x y z : retouched key x y -> retouched key y z -> retouched key x z.
Proof.
  intros [->|(Hk & s & ->)] [->|(Hk' & s' & ->)]; unfold retouched; auto.
  - right. split; [assumption|]. eauto.
  - right. split; [assumption|]. eauto.
  - right. split; [assumption|]. exists s'. reflexivity.
Qed.

#[global] Instance transactions_retouched_stable key : Stable (transactions_retouched key).
Proof.
  apply (Stable_on transactions (Forall2 (retouched key))).
  - intros l. apply Forall2_refl_on. intros x. now left.
  - intros l1 l2 l3. apply Forall2_trans_on, retouched_trans.
  - reflexivity.
Qed.

#[global] Instance charges_but_stable id : Stable (charges_but id).
Proof.
  apply (Stable_on charges (Forall2 (fun c c' => Charge.id c <> id -> c' = c))).
  - intros l. apply Forall2_refl_on. auto.
  - intros l1 l2 l3 H12. revert l3.
    induction H12 as [|a b l1 l2 Hab H12 IH]; intros l3 H23; inversion H23; subst;
      constructor; auto.
    intros Hne. pose proof (Hab Hne) as Hb. subst b. auto.
  - reflexivity.
Qed.


#[global] Instance same_credited_stable : Stable same_credited.
Proof.
  apply (Stable_on charges (Forall2 (fun c c' => Charge.credited c' = Charge.credited c))).
  - intros l. apply Forall2_refl_on. auto.
  - intros l1 l2 l3. apply Forall2_trans_on. congruence.
  - reflexivity.
Qed.

Lemma patch_same_credited id p (l : list Charge.t) :
  Charge.set_credited p = None ->
  Forall2 (fun c c' => Charge.credited c' = Charge.credited c) l
    (map (fun c => if decide (Charge.id c = id) then Charge.apply p c else c) l).
Proof.
  intros Hp. induction l as [|c l IH]; simpl; constructor; [|exact IH].
  destruct (decide (Charge.id c = id)); [|reflexivity]. simpl. now rewrite Hp.
Qed.

#[global] Instance same_tables_stable : Stable same_tables.
Proof.
  split.
  - apply same_tables_refl.
  - apply same_tables_trans.
  - intros fs w. apply same_tables_with_faults.
Qed.

(** ** What the store calls preserve *)

Lemma preserves_notify R `{!Stable R} n :
  (forall w, R w (with_notifications (notifications w ++ [n]) w)) ->
  preserves R (notify_transactionInitiated n).
Proof. intros H w. apply H. Qed.

(** The balance call writes the balances, and only when the primitive
    accepts the delta. *)
Lemma preserves_rpc R `{!Stable R} (user asset : string) (delta : option Z) :
  (forall w (d : Z) b, delta = Some d -> upsert_balance user asset d (balances w) = Ret b ->
                 R w (with_balances b w)) ->
  preserves R (rpc_upsert_balance user asset delta).
Proof.
  intros H. unfold rpc_upsert_balance. apply preserves_supabase; [assumption|].
  intros w. destruct delta as [d|]; simpl; [|apply stable_refl].
  destruct (upsert_balance user asset d (balances w)) as [b|e] eqn:E; simpl.
  - now apply (H w d b).
  - apply stable_refl.
Qed.


Lemma patch_evolves id p (l : list Charge.t) :
  Charge.set_credited p <> Some false ->
  Forall2 evolves l
    (map (fun c => if decide (Charge.id c = id) then Charge.apply p c else c) l).
Proof.
  intros Hp. induction l as [|c l IH]; simpl; constructor; [|exact IH].
  destruct (decide (Charge.id c = id)); [|apply evolves_refl].
  split; [apply same_charge_apply|]. intros Hc. simpl.
  destruct (Charge.set_credited p) as [[]|]; simpl; congruence.
Qed.

Lemma patch_but id p (l : list Charge.t) :
  Forall2 (fun c c' => Charge.id c <> id -> c' = c) l
    (map (fun c => if decide (Charge.id c = id) then Charge.apply p c else c) l).
Proof.
  induction l as [|c l IH]; simpl; constructor; [|exact IH].
  intros Hne. destruct (decide (Charge.id c = id)); [contradiction|reflexivity].
Qed.

Lemma patch_retouched key s (l : list Tx.t) :
  Forall2 (retouched key) l
    (map (fun x => if decide (Tx.id x = key) then Tx.with_status s x else x) l).
Proof.
  induction l as [|x l IH]; simpl; constructor; [|exact IH].
  destruct (decide (Tx.id x = key)); [right; eauto | now left].
Qed.

(** The obligations of a write, for the relations above. *)
Ltac solve_write :=
  unfold charges_evolve, charges_but, same_charges, audit_grows, same_users,
    transactions_retouched, same_ledger, same_credited, same_tables;
  simpl;
  first
    [ reflexivity
    | split; reflexivity
    | split_and!; reflexivity
    | apply patch_same_credited; reflexivity
    | solve [auto]
    | apply prefix_app_r; reflexivity
    | apply patch_evolves; discriminate
    | apply patch_but
    | apply patch_retouched
    | solve [apply Forall2_refl_on; first [apply evolves_refl | intros ?; now left | auto]] ].

Ltac unfold_calls :=
  unfold Webhook.updateChargeStatus, Webhook.notify_user, auditLog_for, auditLog,
    supabase_get.deposit_charges, supabase_get.users_by_id, supabase_get.transactions,
    supabase_patch.deposit_charges, supabase_patch.transactions,
    supabase_post.transactions, supabase_post.audit_log, users_by_sub, read_balance,
    rpc_or_bad_request;
  cbv zeta.

(** Walk down a handler: sequencing, [try], branches, store calls. *)
Create HintDb preserves.

Ltac preserve :=
  unfold_calls;
  repeat first
    [ match goal with
      | |- Stable _ => apply _
      | |- forall _, preserves _ _ => intros ?
      end
    | solve [auto 1 with preserves nocore]
    | apply preserves_ret | apply preserves_throw | apply preserves_lift
    | apply preserves_read
    | apply preserves_bind
    | apply preserves_try_catch
    | apply preserves_write; [apply _ | intros ?; solve_write]
    | apply preserves_notify; [apply _ | intros ?; solve_write]
    | apply preserves_rpc; [apply _ | intros; solve_write]
    | match goal with
      | |- preserves _ (match ?x with _ => _ end) => destruct x
      | |- preserves _ (if ?b then _ else _) => destruct b
      end ].

Section WebhookInvariants.

Implicit Types (w : World) (c : Charge.t) (d data type : value) (key : string).

Lemma rpc_keeps_charges user asset delta :
  preserves charges_evolve (rpc_upsert_balance user asset delta).
Proof. apply preserves_rpc; [apply _|]. intros; solve_write. Qed.
#[local] Hint Resolve rpc_keeps_charges : preserves.

Lemma dispatch_charges_evolve type d c : preserves charges_evolve (Webhook.dispatch type d c).
Proof.
  unfold Webhook.dispatch, Webhook.on_pending, Webhook.on_confirmed, Webhook.on_failed.
  destruct (Webhook.classify type); preserve.
Qed.
#[local] Hint Resolve dispatch_charges_evolve : preserves.

Lemma process_charges_evolve type d : preserves charges_evolve (Webhook.process type d).
Proof. unfold Webhook.process. preserve. Qed.

End WebhookInvariants.

#[global] Hint Resolve process_charges_evolve : preserves.

Lemma same_ledger_stable : Stable same_ledger.
Proof.
  split; unfold same_ledger.
  - intros w. split; reflexivity.
  - intros a b c [? ?] [? ?]. split; congruence.
  - intros fs w. split; reflexivity.
Qed.
#[global] Existing Instance same_ledger_stable.

(** ** What one delivery does to the ledger *)

Lemma snd_bind {A B} (m : M A) (k : A -> M B) w :
  snd (bind m k w)
  = match fst (m w) with
    | Ret a => snd (k a (snd (m w)))
    | Throw _ => snd (m w)
    end.
Proof. unfold bind. destruct (m w) as [[a|e] w1]; reflexivity. Qed.

Lemma snd_try_catch_ret {A} (m : M A) (a : A) w :
  snd (try_catch m (fun _ => ret a) w) = snd (m w).
Proof. unfold try_catch, ret. destruct (m w) as [[x|e] w1]; reflexivity. Qed.

(** The balance call either fails and leaves the ledger alone, or returns
    after the primitive accepted the delta. *)
Lemma rpc_cases (user asset : string) (delta : option Z) w :
  let r := rpc_upsert_balance user asset delta w in
  ((exists e, fst r = Throw e) /\ same_ledger w (snd r)) \/
  (fst r = Ret tt /\ transactions (snd r) = transactions w /\
   exists d, delta = Some d /\
     upsert_balance user asset d (balances w) = Ret (balances (snd r))).
Proof.
  unfold rpc_upsert_balance, supabase.
  destruct (faults w) as [|[] fs]; simpl.
  - destruct delta as [d|]; [|left; split; [eauto|split; reflexivity]].
    destruct (upsert_balance user asset d (balances w)) as [b|e] eqn:E; simpl.
    + right. split_and!; [reflexivity|reflexivity|]. exists d. now split.
    + left. split; [eauto|split; reflexivity].
  - left. split; [eauto|split; reflexivity].
  - destruct delta as [d|]; [|left; split; [eauto|split; reflexivity]].
    destruct (upsert_balance user asset d (balances w)) as [b|e] eqn:E; simpl.
    + right. split_and!; [reflexivity|reflexivity|]. exists d. now split.
    + left. split; [eauto|split; reflexivity].
Qed.

(** The insert either fails and leaves the ledger alone, or appends the row
    it answers with. *)
Lemma post_cases (mk_row : string -> Tx.t) w :
  let r := supabase_post.transactions mk_row w in
  ((exists e, fst r = Throw e) /\ same_ledger w (snd r)) \/
  (exists id, fst r = Ret (mk_row id) /\
     transactions (snd r) = transactions w ++ [mk_row id] /\
     balances (snd r) = balances w).
Proof.
  unfold supabase_post.transactions, supabase.
  destruct (faults w) as [|[] fs]; simpl.
  - right. eexists. split_and!; reflexivity.
  - left. split; [eauto|split; reflexivity].
  - right. eexists. split_and!; reflexivity.
Qed.

Section LedgerEffect.

Implicit Types (w : World) (c : Charge.t) (d data type : value) (key : string).

Lemma on_confirmed_ledger d id c w :
  let w' := snd (Webhook.on_confirmed d id c w) in
  same_ledger w w' \/ (Charge.credited c = false /\ credited_by c w w').
Proof.
  unfold Webhook.on_confirmed.
  destruct (Charge.credited c) eqn:Hc; [left; split; reflexivity|].
  cbv zeta. rewrite snd_bind. unfold lift. cbn [fst snd].
  destruct (Webhook.read_confirmed d c) as [r|e]; [|left; split; reflexivity].
  destruct (num_lt (Webhook.confirmations r) (Charge.confirm_threshold c)).
  { left. revert w. change (preserves same_ledger
      (Webhook.updateChargeStatus (Charge.id c) Charge.confirming
         (Some (Webhook.confirmations r, Webhook.networkTx r)))).
    preserve. }
  rewrite snd_bind.
  destruct (rpc_cases (Charge.user_id c) (Charge.asset c)
              (Webhook.num_or (Webhook.cryptoAmount r) (Charge.crypto_amount c)) w)
    as [[[e He] Hsame]|(Hret & Htx & delta & Hd & Hup)].
  { rewrite He. now left. }
  rewrite Hret. right. split; [reflexivity|]. exists delta.
  set (w1 := snd (rpc_upsert_balance _ _ _ w)) in *.
  rewrite snd_bind.
  match goal with |- context [supabase_post.transactions ?mk w1] =>
    destruct (post_cases mk w1) as [[[e He] [Hb Ht]]|(txid & Hrow & Ht & Hb)] end.
  { rewrite He. split; [now rewrite Hb|left; congruence]. }
  rewrite Hrow.
  set (w2 := snd (supabase_post.transactions _ w1)) in *.
  match goal with |- context [snd (?tail w2)] =>
    assert (Htail : same_ledger w2 (snd (tail w2))) end.
  { generalize w2. match goal with |- forall w, same_ledger w (snd (?m w)) =>
      change (preserves same_ledger m) end.
    preserve. }
  destruct Htail as [Hb3 Ht3]. split.
  - rewrite Hb3, Hb. exact Hup.
  - right. eexists. split; [rewrite Ht3, Ht, Htx; reflexivity|].
    rewrite Hd. split_and!; reflexivity.
Qed.

End LedgerEffect.

Lemma with_faults_same w : with_faults (faults w) w = w.
Proof. destruct w; reflexivity. Qed.

(** A read fails or answers from the tables as they are; either way only the
    failure schedule moves. *)
Lemma supabase_read_cases {A} (f : World -> A) w :
  let r := supabase (fun w => (Ret (f w), w)) w in
  (exists fs, snd r = with_faults fs w) /\
  ((exists e, fst r = Throw e) \/ fst r = Ret (f (snd r))).
Proof.
  unfold supabase. destruct (faults w) as [|[] fs] eqn:E; simpl.
  - split; [exists (faults w); now rewrite with_faults_same|now right].
  - split; [now exists fs|left; eexists; reflexivity].
  - split; [now exists fs|now right].
Qed.

Section DeliveryLedger.

Implicit Types (w : World) (c : Charge.t) (d data type : value) (key : string).

Lemma dispatch_ledger type d c w :
  let w' := snd (Webhook.dispatch type d c w) in
  same_ledger w w' \/
  (Webhook.classify type = Webhook.charge_confirmed /\ Charge.credited c = false /\
   credited_by c w w').
Proof.
  unfold Webhook.dispatch.
  destruct (Webhook.classify type) eqn:E;
    try solve [left; revert w;
         match goal with |- forall w, same_ledger w (snd (?m w)) =>
           change (preserves same_ledger m) end;
         unfold Webhook.on_pending, Webhook.on_failed; preserve].
  destruct (on_confirmed_ledger d (prop d "id") c w) as [H|[Hc H]]; [now left|right].
  now split_and!.
Qed.

Lemma process_ledger type d w :
  let w' := deliver type d w in
  same_ledger w w' \/
  exists key c,
    to_string (prop d "id") = Ret key /\ lookup key w = Some c /\
    Webhook.classify type = Webhook.charge_confirmed /\ Charge.credited c = false /\
    credited_by c w w'.
Proof.
  unfold deliver, Webhook.process. cbv zeta. rewrite snd_try_catch_ret, snd_bind.
  unfold lift. cbn [fst snd].
  destruct (to_string (prop d "id")) as [key|e]; [|left; split; reflexivity].
  rewrite snd_bind. unfold supabase_get.deposit_charges.
  destruct (supabase_read_cases
              (fun w => filter (fun c => Charge.coinbase_charge_id c = key) (charges w)) w)
    as [[fs Hw] [[e He]|Hr]].
  - rewrite He, Hw. left. split; reflexivity.
  - rewrite Hr, Hw. cbn [charges with_faults].
    destruct (filter (fun c => Charge.coinbase_charge_id c = key) (charges w))
      as [|c rest] eqn:Hfound; [left; split; reflexivity|].
    rewrite snd_bind.
    match goal with |- context [Webhook.dispatch type d c ?w0] =>
      destruct (dispatch_ledger type d c w0) as [H|(Ht & Hc & H)];
      destruct (fst (Webhook.dispatch type d c w0)); cbn [ret snd] end;
      try (now left); right; exists key, c;
      (split_and!; [reflexivity|unfold lookup; now rewrite Hfound|assumption..]).
Qed.

End DeliveryLedger.

Section HandlerLedger.

Variable WEBHOOK_SECRET : option string.
Variable hmac : string -> string -> string.
Variable parse : string -> option value.

Lemma timingSafeEqual_true a b : timingSafeEqual a b = Ret true -> a = b.
Proof.
  unfold timingSafeEqual. destruct (String.length a =? String.length b)%nat; [|discriminate].
  intros [= H]. now apply String.eqb_eq.
Qed.

(** A request either ends before any store call, or it is validly signed and
    its parsed event goes through steps 3 and 4. *)
Lemma webhook_handler_cases event w :
  snd (webhook_handler WEBHOOK_SECRET hmac parse event w) = w \/
  (validly_signed WEBHOOK_SECRET hmac event /\
   exists payload,
     parse (default "" (rawBody event)) = Some payload /\
     webhook_handler WEBHOOK_SECRET hmac parse event w
     = Webhook.process (prop (event_of payload) "type") (prop (event_of payload) "data") w).
Proof.
  destruct (String.eqb_spec (httpMethod event) "POST") as [Hm|Hm];
    [|left; unfold webhook_handler;
      destruct (String.eqb_spec (httpMethod event) "POST"); [contradiction|reflexivity]].
  destruct WEBHOOK_SECRET as [secret|] eqn:Hs;
    [|left; unfold webhook_handler; rewrite Hm; reflexivity].
  destruct (String.eqb_spec secret "") as [->|Hne];
    [left; unfold webhook_handler; rewrite Hm; reflexivity|].
  destruct (timingSafeEqual (default "" (headers event !! "x-cc-webhook-signature"))
              (hmac secret (default "" (rawBody event)))) as [[]|e] eqn:Heq.
  - apply timingSafeEqual_true in Heq.
    assert (Hv : validly_signed (Some secret) hmac event).
    { split; [assumption|]. exists secret. now split_and!. }
    rewrite (webhook_handler_signed (Some secret) hmac parse event w Hv).
    destruct (parse (default "" (rawBody event))) as [payload|] eqn:Hp; [|now left].
    destruct (get payload "event") as [ev|e] eqn:Hg; [|now left].
    assert (Hev : or_else ev empty_obj = event_of payload).
    { unfold event_of. destruct payload; try discriminate; now injection Hg as <-. }
    cbv zeta. rewrite Hev.
    destruct (truthy (prop (event_of payload) "type")
              && truthy (prop (event_of payload) "data")); [|now left].
    destruct (to_string (prop (event_of payload) "type")); [|now left].
    destruct (to_string (prop (prop (event_of payload) "data") "id")) eqn:Hk; [|now left].
    right. split; [assumption|]. exists payload. now split.
  - left. unfold webhook_handler. rewrite Hm. cbn [negb String.eqb].
    destruct secret as [|a secret]; [contradiction|].
    cbv zeta. unfold bind, lift. rewrite Heq. reflexivity.
  - left. unfold webhook_handler. rewrite Hm. cbn [negb String.eqb].
    destruct secret as [|a secret]; [contradiction|].
    cbv zeta. unfold bind, lift. rewrite Heq. reflexivity.
Qed.

End HandlerLedger.

(** X2.  What one webhook request can do to the ledger, under any schedule
    of store failures.  Either the balances and the transaction rows are
    left as they were; or the request is validly signed, its event is
    [charge:confirmed] for a stored charge that is not yet credited, the
    balances are those the balance primitive answers for one call with that
    charge's user and asset, and the transaction rows are unchanged or
    extended by one completed deposit row of that user and asset whose
    amount is the credited delta.  So no request debits or credits anybody
    else, and no transaction row is written without its credit. *)
Theorem webhook_ledger_effect WEBHOOK_SECRET hmac parse event w :
  let w' := snd (webhook_handler WEBHOOK_SECRET hmac parse event w) in
  same_ledger w w' \/
  (validly_signed WEBHOOK_SECRET hmac event /\
   exists payload key c,
     parse (default "" (rawBody event)) = Some payload /\
     Webhook.classify (prop (event_of payload) "type") = Webhook.charge_confirmed /\
     to_string (prop (prop (event_of payload) "data") "id") = Ret key /\
     lookup key w = Some c /\ Charge.credited c = false /\
     credited_by c w w').
Proof.
  destruct (webhook_handler_cases WEBHOOK_SECRET hmac parse event w)
    as [H|(Hv & payload & Hp & H)]; cbv zeta.
  - rewrite H. left. split; reflexivity.
  - rewrite H.
    destruct (process_ledger (prop (event_of payload) "type")
                (prop (event_of payload) "data") w)
      as [Hs|(key & c & Hk & Hl & Ht & Hc & Hcr)]; [now left|right].
    split; [assumption|]. exists payload, key, c. now split_and!.
Qed.

(** ** Which charge rows a delivery rewrites *)

Section DeliveryCharges.

Implicit Types (w : World) (c : Charge.t) (d data type : value) (key : string).

(** Steps 3 and 4 either move nothing but the failure schedule, or dispatch
    on the first stored charge with the provider id of the event. *)
Lemma process_found (P : World -> World -> Prop) type d w :
  (forall fs, P w (with_faults fs w)) ->
  (forall key c fs,
     to_string (prop d "id") = Ret key -> lookup key w = Some c ->
     P w (snd (Webhook.dispatch type d c (with_faults fs w)))) ->
  P w (deliver type d w).
Proof.
  intros Hsame Hfound.
  unfold deliver, Webhook.process. cbv zeta. rewrite snd_try_catch_ret, snd_bind.
  unfold lift. cbn [fst snd].
  destruct (to_string (prop d "id")) as [key|e];
    [|rewrite <- (with_faults_same w) at 2; apply Hsame].
  rewrite snd_bind. unfold supabase_get.deposit_charges.
  destruct (supabase_read_cases
              (fun w => filter (fun c => Charge.coinbase_charge_id c = key) (charges w)) w)
    as [[fs Hw] [[e He]|Hr]].
  - rewrite He, Hw. apply Hsame.
  - rewrite Hr, Hw. cbn [charges with_faults].
    destruct (filter (fun c => Charge.coinbase_charge_id c = key) (charges w))
      as [|c rest] eqn:Hf; [apply Hsame|].
    rewrite snd_bind.
    assert (H := Hfound key c fs eq_refl).
    destruct (fst (Webhook.dispatch type d c (with_faults fs w))); cbn [ret snd];
      apply H; unfold lookup; now rewrite Hf.
Qed.

Lemma rpc_keeps_other_charges id (user asset : string) (delta : option Z) :
  preserves (charges_but id) (rpc_upsert_balance user asset delta).
Proof. apply preserves_rpc; [apply _|]. intros; solve_write. Qed.
#[local] Hint Resolve rpc_keeps_other_charges : preserves.

Lemma dispatch_charges_but type d c :
  preserves (charges_but (Charge.id c)) (Webhook.dispatch type d c).
Proof.
  unfold Webhook.dispatch, Webhook.on_pending, Webhook.on_confirmed, Webhook.on_failed.
  destruct (Webhook.classify type); preserve.
Qed.

End DeliveryCharges.

(** X3.  A webhook request rewrites no charge row other than those with the
    id of the charge it loads: the first stored charge whose provider id is
    the [data.id] of a validly signed event.  Every other row is left whole,
    under any schedule of store failures. *)
Theorem webhook_touches_one_charge WEBHOOK_SECRET hmac parse event w :
  let w' := snd (webhook_handler WEBHOOK_SECRET hmac parse event w) in
  charges w' = charges w \/
  (validly_signed WEBHOOK_SECRET hmac event /\
   exists payload key c,
     parse (default "" (rawBody event)) = Some payload /\
     to_string (prop (prop (event_of payload) "data") "id") = Ret key /\
     lookup key w = Some c /\
     Forall2 (fun x x' => Charge.id x <> Charge.id c -> x' = x) (charges w) (charges w')).
Proof.
  destruct (webhook_handler_cases WEBHOOK_SECRET hmac parse event w)
    as [H|(Hv & payload & Hp & H)]; cbv zeta; rewrite H; [now left|].
  change (snd (Webhook.process ?t ?d w)) with (deliver t d w).
  apply (process_found (fun w w' =>
    charges w' = charges w \/
    (validly_signed WEBHOOK_SECRET hmac event /\
     exists payload key c,
       parse (default "" (rawBody event)) = Some payload /\
       to_string (prop (prop (event_of payload) "data") "id") = Ret key /\
       lookup key w = Some c /\
       Forall2 (fun x x' => Charge.id x <> Charge.id c -> x' = x)
         (charges w) (charges w')))).
  - intros fs. now left.
  - intros key c fs Hk Hl. right. split; [assumption|].
    exists payload, key, c. split_and!; try assumption.
    exact (dispatch_charges_but _ _ c (with_faults fs w)).
Qed.

(** ** Which cookies are sessions *)

Section SessionSoundness.

Variable secret : option string.
Variable hmac : string -> string -> string.
Variable decode : string -> string.
Variable parse : string -> option value.
Variable now : Z.

Lemma catch_null_some {A} (o : Outcome (option A)) (a : A) :
  catch_null o = Ret (Some a) -> o = Ret (Some a).
Proof. destruct o; [auto|discriminate]. Qed.

Lemma signed_data_some token key data :
  signed_data hmac token key = Ret (Some data) ->
  exists k,
    key = Some k /\ data = nth 0 (split_on "." token) "" /\ data <> "" /\
    hmac k data <> "" /\
    nth_error (split_on "." token) 1 = Some (hmac k data).
Proof.
  unfold signed_data.
  destruct (nth_error (split_on "." token) 1) as [sig|]; [|discriminate].
  destruct (String.eqb_spec (nth 0 (split_on "." token) "") ""); [discriminate|].
  destruct (String.eqb_spec sig ""); [discriminate|]. cbn [orb].
  destruct key as [k|]; [|discriminate].
  destruct (timingSafeEqual sig (hmac k (nth 0 (split_on "." token) ""))) as [[]|e] eqn:E;
    try discriminate.
  apply timingSafeEqual_true in E. intros [= <-]. exists k. subst sig. now split_and!.
Qed.

Lemma getSession_some event payload :
  getSession secret hmac decode parse now event = Ret (Some payload) ->
  exists raw key,
    find_cookie (default "" (headers event !! "cookie")) = Some raw /\
    secret = Some key /\
    sig_of raw = Some (hmac key (data_of raw)) /\
    data_of raw <> "" /\ hmac key (data_of raw) <> "" /\
    parse (decode (data_of raw)) = Some payload /\
    nullish payload = false /\
    (truthy (prop payload "exp") = true -> past now (prop payload "exp") = Ret false).
Proof.
  unfold getSession.
  destruct (find_cookie (default "" (headers event !! "cookie"))) as [raw|] eqn:Hc;
    [|discriminate].
  intros H. apply catch_null_some in H. fold (token_of raw) in H.
  destruct (signed_data hmac (token_of raw) secret) as [[data|]|e] eqn:Hs;
    try discriminate.
  apply signed_data_some in Hs. destruct Hs as (k & -> & Hd & Hne & Hsne & Hsig).
  fold (data_of raw) in Hd. subst data. cbn [obind] in H.
  unfold parse_payload in H.
  destruct (parse (decode (data_of raw))) as [p|] eqn:Hp; [|discriminate].
  cbn [obind] in H.
  destruct (get p "exp") as [exp|e] eqn:Hg; [|discriminate]. cbn [obind] in H.
  assert (Hn : nullish p = false) by (destruct p; try discriminate; reflexivity).
  assert (Hexp : exp = prop p "exp").
  { destruct p; try discriminate; now injection Hg as <-. }
  subst exp.
  assert (Hl : p = payload /\
               (truthy (prop p "exp") = true -> past now (prop p "exp") = Ret false)).
  { destruct (truthy (prop p "exp")).
    - destruct (past now (prop p "exp")) as [[]|e]; try discriminate.
      injection H as <-. now split.
    - injection H as <-. now split. }
  destruct Hl as [<- Hl].
  exists raw, k. now split_and!.
Qed.

Lemma getSession_accepts event raw key payload :
  find_cookie (default "" (headers event !! "cookie")) = Some raw ->
  secret = Some key ->
  sig_of raw = Some (hmac key (data_of raw)) ->
  data_of raw <> "" -> hmac key (data_of raw) <> "" ->
  parse (decode (data_of raw)) = Some payload ->
  nullish payload = false ->
  (truthy (prop payload "exp") = true -> past now (prop payload "exp") = Ret false) ->
  getSession secret hmac decode parse now event = Ret (Some payload).
Proof.
  intros Hc -> Hsig Hd Hs Hp Hn Hexp. unfold getSession. rewrite Hc.
  fold (token_of raw). unfold signed_data.
  fold (sig_of raw). fold (data_of raw). rewrite Hsig.
  destruct (String.eqb_spec (data_of raw) ""); [contradiction|].
  destruct (String.eqb_spec (hmac key (data_of raw)) ""); [contradiction|].
  cbn [orb]. rewrite timingSafeEqual_same. cbn [obind negb].
  unfold parse_payload. rewrite Hp. cbn [obind].
  assert (Hg : get payload "exp" = Ret (prop payload "exp"))
    by (destruct payload; try discriminate; reflexivity).
  rewrite Hg. cbn [obind].
  destruct (truthy (prop payload "exp")); [|reflexivity].
  now rewrite Hexp.
Qed.

End SessionSoundness.

(** X4.  [getSession] returns a payload for exactly the requests whose
    cookie header holds an [apex_session] cookie of the form data.sig in
    which both parts are non-empty, sig is the HMAC of data under the
    configured secret, data decodes and parses to the payload, the payload is
    not null, and its [exp], when set, is not in the past.  No other cookie
    is a session; in particular none is when the secret is not configured. *)
Theorem session_iff_signed secret hmac decode parse now event payload :
  getSession secret hmac decode parse now event = Ret (Some payload) <->
  exists raw key,
    find_cookie (default "" (headers event !! "cookie")) = Some raw /\
    secret = Some key /\
    sig_of raw = Some (hmac key (data_of raw)) /\
    data_of raw <> "" /\ hmac key (data_of raw) <> "" /\
    parse (decode (data_of raw)) = Some payload /\
    nullish payload = false /\
    (truthy (prop payload "exp") = true -> past now (prop payload "exp") = Ret false).
Proof.
  split.
  - apply getSession_some.
  - intros (raw & key & Hc & Hk & Hsig & Hd & Hs & Hp & Hn & Hexp).
    now apply (getSession_accepts secret hmac decode parse now event raw key payload).
Qed.


(** X5.  The two session checks accept the same requests: auth-user.js
    answers 200 exactly when [getSession] of _db.js returns a payload that
    passes [if (!session)].  (They differ only in how they refuse: a payload
    whose [exp] cannot be compared makes auth-user.js throw, where
    [getSession] returns null.) *)
Theorem session_checks_agree secret hmac decode parse now event :
  auth_user secret hmac decode parse now event = Ret (json 200 "{ok:true,user}") <->
  exists payload,
    getSession secret hmac decode parse now event = Ret (Some payload) /\
    truthy payload = true.
Proof.
  unfold auth_user, getSession, parseCookie, verifyPayload.
  destruct (find_cookie (default "" (headers event !! "cookie"))) as [raw|];
    [|split; [discriminate|intros (p & H & _); discriminate]].
  cbn [option_map]. fold (token_of raw).
  destruct (token_of raw) as [|a token] eqn:Ht.
  { split; [discriminate|]. intros (p & H & _). discriminate. }
  rewrite <- Ht. clear Ht.
  destruct (signed_data hmac (token_of raw) secret) as [[data|]|e]; cbn [obind catch_null];
    try (split; [discriminate|intros (p & H & _); discriminate]).
  unfold parse_payload.
  destruct (parse (decode data)) as [p|]; cbn [obind catch_null session_ok];
    try (split; [discriminate|intros (p & H & _); discriminate]).
  destruct (truthy p) eqn:Hp.
  - assert (Hg : get p "exp" = Ret (prop p "exp"))
      by (destruct p; try discriminate; reflexivity).
    rewrite Hg. cbn [obind].
    destruct (truthy (prop p "exp")).
    + destruct (past now (prop p "exp")) as [[]|e]; cbn [obind catch_null];
        try (split; [discriminate|intros (q & H & _); discriminate]).
      split; [intros _; exists p; now split|reflexivity].
    + cbn [obind catch_null]. split; [intros _; exists p; now split|reflexivity].
  - split; [discriminate|]. intros (q & H & Hq).
    destruct (get p "exp") as [exp|e]; cbn [obind catch_null] in H; [|discriminate].
    destruct (truthy exp).
    + destruct (past now exp) as [[]|e]; cbn [obind catch_null] in H; try discriminate.
      injection H as <-. congruence.
    + cbn [catch_null] in H. injection H as <-. congruence.
Qed.

(** ** From the cookie set at login to the session read from it *)

Lemma all_chars_app p (a b : string) :
  all_chars p (a +:+ b) = all_chars p a && all_chars p b.
Proof. induction a as [|c a IH]; simpl; [reflexivity|]. now rewrite IH, andb_assoc. Qed.

Lemma all_chars_impl (p q : ascii -> bool) (s : string) :
  (forall c, p c = true -> q c = true) -> all_chars p s = true -> all_chars q s = true.
Proof.
  intros Hpq. induction s as [|c s IH]; simpl; [reflexivity|].
  intros [Hc Hs]%andb_prop. rewrite (Hpq c Hc). now apply IH.
Qed.

Lemma base64url_char_plain c :
  base64url_char c = true ->
  negb (Ascii.eqb c ".") && negb (Ascii.eqb c ";") && negb (is_space c) = true.
Proof.
  destruct c as [[] [] [] [] [] [] [] []]; vm_compute; intros H;
    first [reflexivity | discriminate H].
Qed.

Lemma split_on_whole sep (s : string) :
  all_chars (fun c => negb (Ascii.eqb c sep)) s = true -> split_on sep s = [s].
Proof.
  induction s as [|c s IH]; simpl; [reflexivity|].
  intros [Hc Hs]%andb_prop. apply negb_true_iff in Hc. rewrite Hc, (IH Hs). reflexivity.
Qed.

Lemma split_on_app sep (a b : string) :
  all_chars (fun c => negb (Ascii.eqb c sep)) a = true ->
  split_on sep (a +:+ String sep b) = a :: split_on sep b.
Proof.
  induction a as [|c a IH]; simpl.
  - intros _. now rewrite Ascii.eqb_refl.
  - intros [Hc Ha]%andb_prop. apply negb_true_iff in Hc. rewrite Hc, (IH Ha). reflexivity.
Qed.

Lemma rtrim_no_space (s : string) :
  all_chars (fun c => negb (is_space c)) s = true -> rtrim s = s.
Proof.
  induction s as [|c s IH]; simpl; [reflexivity|].
  intros [Hc Hs]%andb_prop. apply negb_true_iff in Hc. rewrite (IH Hs), Hc.
  now destruct s.
Qed.

Lemma prefix_app (a b : string) : String.prefix a (a +:+ b) = true.
Proof.
  induction a as [|c a IH]; simpl; [now destruct b|].
  destruct (ascii_dec c c); [exact IH|contradiction].
Qed.

Lemma issued_cookie_is_found (data sig : string) :
  base64url_text data -> base64url_text sig ->
  let raw := COOKIE_NAME +:+ "=" +:+ data +:+ "." +:+ sig in
  find_cookie raw = Some raw /\ data_of raw = data /\ sig_of raw = Some sig.
Proof.
  intros [Hdn Hd] [Hsn Hs] raw.
  assert (Hplain : forall p,
            (forall c, base64url_char c = true -> p c = true) ->
            all_chars p (COOKIE_NAME +:+ "=" +:+ ".") = true -> all_chars p raw = true).
  { intros p Hp Hlit. unfold raw. rewrite !all_chars_app in *.
    rewrite (all_chars_impl _ p data Hp Hd), (all_chars_impl _ p sig Hp Hs).
    apply andb_prop in Hlit as [-> [-> ->]%andb_prop]. reflexivity. }
  assert (Hsemi : split_on ";" raw = [raw]).
  { apply split_on_whole, Hplain; [|reflexivity].
    intros c Hc. apply base64url_char_plain in Hc.
    now apply andb_prop in Hc as [[_ ?]%andb_prop _]. }
  assert (Htrim : trim raw = raw).
  { unfold trim. change (skip_space raw) with raw.
    apply rtrim_no_space, Hplain; [|reflexivity].
    intros c Hc. apply base64url_char_plain in Hc.
    now apply andb_prop in Hc as [_ ?]. }
  assert (Hdot : split_on "." (data +:+ "." +:+ sig) = [data; sig]).
  { change (data +:+ "." +:+ sig) with (data +:+ String "." sig).
    rewrite split_on_app, split_on_whole; [reflexivity| |].
    - apply (all_chars_impl base64url_char); [|assumption].
      intros c Hc. apply base64url_char_plain in Hc.
      now apply andb_prop in Hc as [[? _]%andb_prop _].
    - apply (all_chars_impl base64url_char); [|assumption].
      intros c Hc. apply base64url_char_plain in Hc.
      now apply andb_prop in Hc as [[? _]%andb_prop _]. }
  split_and!.
  - unfold find_cookie. rewrite Hsemi. cbn [map]. rewrite Htrim. cbn [find].
    change raw with ((COOKIE_NAME +:+ "=") +:+ data +:+ "." +:+ sig).
    now rewrite prefix_app.
  - unfold data_of. change (token_of raw) with (data +:+ "." +:+ sig). now rewrite Hdot.
  - unfold sig_of. change (token_of raw) with (data +:+ "." +:+ sig). now rewrite Hdot.
Qed.

Lemma session_payload_exp user login payload :
  session_payload user login = Ret payload ->
  prop payload "exp" = VNum (login / 1000 + MAX_AGE_SECONDS) /\
  prop payload "iat" = VNum (login / 1000).
Proof.
  unfold session_payload.
  destruct (get user "name"); [|discriminate]. cbn [obind].
  destruct (includes_admin _); [|discriminate]. cbn [obind].
  intros [= <-]. split; reflexivity.
Qed.

(** X6.  The cookie that auth-callback.js sets at login is the session that
    [getSession] of _db.js reads back, for eight hours: from a request that
    carries the cookie, [getSession] returns the payload parsed from it until
    [Date.now() / 1000] exceeds the login second plus [MAX_AGE_SECONDS], and
    null afterwards.  The encoder, the digest and the parser are those of
    Node: the encoded payload and its digest are non-empty base64url texts,
    and decoding and parsing the encoded payload yields an object with the
    [exp] that was written. *)
Theorem issued_session_round_trip hmac encode decode stringify parse key user login now
    payload sessionValue session event :
  0 <= login ->
  session_payload user login = Ret payload ->
  signPayload hmac encode stringify payload (Some key) = Ret sessionValue ->
  headers event !! "cookie" = Some (COOKIE_NAME +:+ "=" +:+ sessionValue) ->
  base64url_text (encode (stringify payload)) ->
  base64url_text (hmac key (encode (stringify payload))) ->
  parse (decode (encode (stringify payload))) = Some session ->
  prop session "exp" = prop payload "exp" ->
  getSession (Some key) hmac decode parse now event
  = Ret (if 1000 * (login / 1000 + MAX_AGE_SECONDS) <? now then None else Some session).
Proof.
  intros Hlogin Hpay Hsign Hcookie Hd Hs Hparse Hexp.
  unfold signPayload in Hsign. injection Hsign as <-.
  destruct (issued_cookie_is_found _ _ Hd Hs) as (Hfind & Hdata & Hsig).
  destruct (session_payload_exp user login payload Hpay) as [Hn _].
  rewrite Hn in Hexp.
  assert (Hpos : 0 < login / 1000 + MAX_AGE_SECONDS).
  { unfold MAX_AGE_SECONDS. assert (0 <= login / 1000) by (apply Z.div_pos; lia). lia. }
  assert (Hc : find_cookie (default "" (headers event !! "cookie"))
               = Some (COOKIE_NAME +:+ "=" +:+ encode (stringify payload) +:+ "."
                       +:+ hmac key (encode (stringify payload))))
    by (rewrite Hcookie; exact Hfind).
  destruct (Z.ltb_spec (1000 * (login / 1000 + MAX_AGE_SECONDS)) now) as [Hlate|Hok].
  - apply getSession_refused.
    eapply expired; [exact Hc|rewrite Hdata; exact Hparse|exact Hexp|lia|exact Hlate].
  - eapply getSession_accepts; [exact Hc|reflexivity|rewrite Hdata; exact Hsig|
      rewrite Hdata; apply Hd|rewrite Hdata; apply Hs|rewrite Hdata; exact Hparse| |].
    + destruct session; try discriminate; reflexivity.
    + intros _. rewrite Hexp. unfold past. cbn [to_number obind].
      destruct (Z.ltb_spec (1000 * (login / 1000 + MAX_AGE_SECONDS)) now); [lia|reflexivity].
Qed.

(** A login at second 1000, read back one hour later. *)
Lemma issued_session_round_trip_witness :
  getSession (Some "k1") demo_digest demo_decode demo_parse_session 4600000
    (with_cookie (Some "apex_session=exp29800.k1-exp29800"))
  = Ret (Some (VObj [("sub", VStr "auth0|1"); ("isAdmin", VBool true);
                     ("exp", VNum 29800)])).
Proof.
  apply (issued_session_round_trip demo_digest demo_decode demo_decode demo_stringify
           demo_parse_session "k1" login_profile 1000000 4600000
           (VObj [("sub", VStr "auth0|1"); ("email", VStr "ada@example.com");
                  ("name", VStr "Ada"); ("picture", VNull); ("isAdmin", VBool true);
                  ("iat", VNum 1000); ("exp", VNum 29800)])
           "exp29800.k1-exp29800").
  - lia.
  - reflexivity.
  - reflexivity.
  - reflexivity.
  - split; [discriminate|reflexivity].
  - split; [discriminate|reflexivity].
  - reflexivity.
  - reflexivity.
Defined.


(** ** What ledger-transaction-create does to the ledger *)

Lemma rpc_or_bad_request_cases (user asset : string) (delta : option Z) msg w :
  let r := rpc_or_bad_request user asset delta msg w in
  (same_ledger w (snd r) /\
   (fst r = Ret (Some (badReq msg)) \/ exists e, fst r = Throw e)) \/
  (fst r = Ret None /\ transactions (snd r) = transactions w /\
   exists d, delta = Some d /\
     upsert_balance user asset d (balances w) = Ret (balances (snd r))).
Proof.
  cbv zeta. unfold rpc_or_bad_request, try_catch, bind.
  pose proof (rpc_cases user asset delta w) as H. cbv zeta in H.
  destruct (rpc_upsert_balance user asset delta w) as [o w1]. cbn [fst snd] in H.
  destruct H as [[[e He] Hsame]|(Hret & Htx & d & Hd & Hup)].
  - subst o. left. destruct e; cbn [fst snd ret throw]; (split; [assumption|]);
      first [now left | right; eexists; reflexivity].
  - subst o. right. cbn [ret fst snd]. split_and!; [reflexivity|assumption|].
    exists d. now split.
Qed.

(** The audit row and the notification end a handler without touching the
    ledger, and without throwing. *)
Lemma audit_notify_ok event userId action meta n (answer : Response) w :
  let r := (auditLog_for event userId action meta ;;
            notify_transactionInitiated n ;; ret answer) w in
  fst r = Ret answer /\ same_ledger w (snd r).
Proof.
  cbv zeta. unfold auditLog_for, auditLog, supabase_post.audit_log, supabase, try_catch,
    bind, notify_transactionInitiated, ret.
  destruct (faults w) as [|[] fs]; cbn [fst snd]; split; try reflexivity; split; reflexivity.
Qed.

Section CreateEffect.

Variable prices : string -> option Z.

Lemma record_returns event session type asset numAmount body w :
  exists r, fst (LedgerCreate.record prices event session type asset numAmount body w)
            = Ret r.
Proof.
  unfold LedgerCreate.record, try_catch, ret.
  match goal with |- context [match ?m w with _ => _ end] =>
    destruct (m w) as [[r|e] w1] end; eexists; reflexivity.
Qed.

End CreateEffect.

Section CreateLedger.

Variable prices : string -> option Z.

Lemma record_cases event session type asset numAmount body w result :
  result = LedgerCreate.record prices event session type asset numAmount body w ->
  (exists r, fst result = Ret r) /\
  ((same_ledger w (snd result) /\ fst result <> Ret (ok "transaction")) \/
   exists user delta,
     reaches_balance_call prices session type asset numAmount user delta w /\
     upsert_balance (User.id user) asset delta (balances w) = Ret (balances (snd result)) /\
     ((fst result = Ret serverErr /\ transactions (snd result) = transactions w) \/
      (fst result = Ret (ok "transaction") /\
       exists row,
         transactions (snd result) = transactions w ++ [row] /\
         Tx.user_id row = User.id user /\ Tx.type row = type /\ Tx.asset row = asset /\
         Tx.amount row = numAmount /\
         Tx.status row = match type with
                         | Tx.deposit => Tx.processing
                         | Tx.withdrawal => Tx.pending
                         end))).
Proof.
  intros Hr. split; [subst result; apply record_returns|].
  unfold LedgerCreate.record, try_catch in Hr.
  unfold bind at 1, lift in Hr.
  destruct (to_string (prop session "sub")) as [sub|e] eqn:Hsub;
    [|subst result; left; split; [split; reflexivity|discriminate]].
  unfold bind at 1, users_by_sub in Hr.
  pose proof (supabase_read_cases
                (fun w => filter (fun u => User.auth0_sub u = sub) (users w)) w) as Hread.
  cbv zeta in Hread.
  destruct (supabase _ w) as [o w1]. cbn [fst snd] in Hread.
  destruct Hread as [[fs ->] [[e ->]| ->]];
    [subst result; left; split; [split; reflexivity|discriminate]|].
  cbn [users with_faults] in Hr.
  destruct (filter (fun u => User.auth0_sub u = sub) (users w)) as [|user rest] eqn:Hu;
    [subst result; left; split; [split; reflexivity|discriminate]|].
  cbv zeta in Hr.
  destruct (String.eqb_spec (User.kyc_status user) "rejected") as [Hk|Hk];
    [subst result; left; split; [split; reflexivity|discriminate]|].
  destruct (num_lt _ (LedgerCreate.minimum_of type)) eqn:Hmin;
    [subst result; left; split; [split; reflexivity|discriminate]|].
  unfold bind at 1 in Hr.
  pose proof (rpc_or_bad_request_cases (User.id user) asset
                (LedgerCreate.delta_of type numAmount (LedgerCreate.fee_of type numAmount))
                "Insufficient balance" (with_faults fs w)) as Hrpc.
  cbv zeta in Hrpc.
  destruct (rpc_or_bad_request _ _ _ _ (with_faults fs w)) as [o w2]. cbn [fst snd] in Hrpc.
  destruct Hrpc as [[Hsame [->|[e ->]]]|(-> & Htx & delta & Hd & Hup)];
    [subst result; left; split; [exact Hsame|discriminate]..|].
  right. exists user, delta. split.
  { split_and!; [exists sub; split; [assumption|now rewrite Hu]|assumption..]. }
  unfold bind at 1 in Hr.
  match type of Hr with context [supabase_post.transactions ?mk w2] =>
    pose proof (post_cases mk w2) as Hpost; cbv zeta in Hpost;
    destruct (supabase_post.transactions mk w2) as [o w3]; cbn [fst snd] in Hpost;
    destruct Hpost as [[[e ->] [Hb Ht]]|(txid & -> & Ht & Hb)]
  end.
  { subst result. cbn [fst snd ret]. split; [now rewrite Hb|].
    left. split; [reflexivity|]. now rewrite Ht. }
  match type of Hr with context [(auditLog_for ?ev ?u ?a ?m ;;
                                  notify_transactionInitiated ?n ;; ret ?ans) w3] =>
    pose proof (audit_notify_ok ev u a m n ans w3) as Hend; cbv zeta in Hend;
    destruct ((auditLog_for ev u a m ;; notify_transactionInitiated n ;; ret ans) w3)
      as [o w4]; cbn [fst snd] in Hend; destruct Hend as [-> [Hb4 Ht4]]
  end.
  subst result. cbn [fst snd]. split; [now rewrite Hb4, Hb|].
  right. split; [reflexivity|]. eexists. split; [rewrite Ht4, Ht, Htx; reflexivity|].
  now split_and!.
Qed.

End CreateLedger.

Section CreateHandler.

Variable prices : string -> option Z.
Variable parse : string -> option value.
Variable getSession : HttpEvent -> Outcome (option value).

(** A request either ends in the validation, before any store call, or it
    enters the [try] with its validated type, asset and amount. *)
Lemma create_handler_cases event w result :
  result = LedgerCreate.handler prices parse getSession event w ->
  (snd result = w /\ fst result <> Ret (ok "transaction")) \/
  exists session body type asset numAmount,
    httpMethod event = "POST" /\
    getSession event = Ret (Some session) /\ truthy session = true /\
    parse (default "{}" (non_empty (rawBody event))) = Some body /\
    one_of LedgerCreate.ALLOWED_TYPES (prop body "type") = Some type /\
    one_of LedgerCreate.ALLOWED_ASSETS (prop body "asset") = Some asset /\
    LedgerCreate.bad_amount (prop body "amount") = Ret false /\
    parseFloat (prop body "amount") = Ret numAmount /\
    result = LedgerCreate.record prices event session (LedgerCreate.kind_of type) asset
               numAmount body w.
Proof.
  intros Hr. unfold LedgerCreate.handler in Hr.
  destruct (String.eqb_spec (httpMethod event) "POST") as [Hm|Hm]; cbn [negb] in Hr;
    [|subst result; left; split; [reflexivity|discriminate]].
  unfold bind at 1, lift in Hr.
  destruct (getSession event) as [[session|]|e] eqn:Hs; cbn [session_ok] in Hr;
    try (subst result; left; split; [reflexivity|discriminate]).
  destruct (truthy session) eqn:Ht;
    [|subst result; left; split; [reflexivity|discriminate]].
  destruct (parse (default "{}" (non_empty (rawBody event)))) as [body|] eqn:Hp;
    [|subst result; left; split; [reflexivity|discriminate]].
  unfold bind at 1, lift in Hr.
  destruct (get body "type") as [type|e] eqn:Hg;
    [|subst result; left; split; [reflexivity|discriminate]].
  assert (Htype : type = prop body "type")
    by (destruct body; try discriminate; now injection Hg as <-).
  subst type.
  destruct (one_of LedgerCreate.ALLOWED_TYPES (prop body "type")) as [type|] eqn:Hty.
  2:{ left. unfold bind, lift, ret in Hr.
      destruct (to_string (prop body "type")); subst result;
        (split; [reflexivity|discriminate]). }
  destruct (one_of LedgerCreate.ALLOWED_ASSETS (prop body "asset")) as [asset|] eqn:Has.
  2:{ left. unfold bind, lift, ret in Hr.
      destruct (to_string (prop body "asset")); subst result;
        (split; [reflexivity|discriminate]). }
  cbv zeta in Hr. unfold bind at 1, lift in Hr.
  destruct (LedgerCreate.bad_amount (prop body "amount")) as [[]|e] eqn:Hbad;
    try (subst result; left; split; [reflexivity|discriminate]).
  destruct (String.eqb type "withdrawal" && negb (truthy (prop body "address")));
    [subst result; left; split; [reflexivity|discriminate]|].
  unfold bind at 1, lift in Hr.
  destruct (parseFloat (prop body "amount")) as [numAmount|e] eqn:Hpf;
    [|subst result; left; split; [reflexivity|discriminate]].
  right. exists session, body, type, asset, numAmount. now split_and!.
Qed.

End CreateHandler.

(** X8.  What one request to ledger-transaction-create does to the ledger,
    under any schedule of store failures.  Either the balances and the
    transaction rows are left as they were and the answer is not the 200 of a
    created transaction (every 400 and 401, and a 502 before the balance
    call); or the request passed the validation, the balance call was made
    once for the session's user with the delta of line 84, and then either
    the answer is 200 and exactly one row was appended, with that user, type,
    asset and amount and the initial status of its type, or the insert
    failed, the answer is 502 and no row records the balance change. *)
Theorem create_ledger_effect prices parse getSession event w :
  let result := LedgerCreate.handler prices parse getSession event w in
  let w' := snd result in
  (same_ledger w w' /\ fst result <> Ret (ok "transaction")) \/
  exists session body type asset numAmount user delta,
    getSession event = Ret (Some session) /\
    parse (default "{}" (non_empty (rawBody event))) = Some body /\
    one_of LedgerCreate.ALLOWED_TYPES (prop body "type") = Some type /\
    one_of LedgerCreate.ALLOWED_ASSETS (prop body "asset") = Some asset /\
    parseFloat (prop body "amount") = Ret numAmount /\
    reaches_balance_call prices session (LedgerCreate.kind_of type) asset numAmount
      user delta w /\
    upsert_balance (User.id user) asset delta (balances w) = Ret (balances w') /\
    ((fst result = Ret serverErr /\ transactions w' = transactions w) \/
     (fst result = Ret (ok "transaction") /\
      exists row,
        transactions w' = transactions w ++ [row] /\
        Tx.user_id row = User.id user /\ Tx.type row = LedgerCreate.kind_of type /\
        Tx.asset row = asset /\ Tx.amount row = numAmount /\
        Tx.status row = match LedgerCreate.kind_of type with
                        | Tx.deposit => Tx.processing
                        | Tx.withdrawal => Tx.pending
                        end)).
Proof.
  cbv zeta.
  destruct (create_handler_cases prices parse getSession event w _ eq_refl)
    as [[Hw Hans]|(session & body & type & asset & numAmount & Hm & Hs & Ht & Hp & Hty
                   & Has & Hbad & Hpf & Hres)].
  { left. rewrite Hw. split; [split; reflexivity|assumption]. }
  destruct (record_cases prices event session (LedgerCreate.kind_of type) asset numAmount
              body w _ Hres) as [_ [H|(user & delta & Hreach & Hup & H)]]; [now left|].
  right. exists session, body, type, asset, numAmount, user, delta. now split_and!.
Qed.

(** ** A withdrawal that is created and then rejected *)

Section CreateThenReject.

Variable prices : string -> option Z.


End CreateThenReject.





(** ** What admin-transaction-update rewrites *)



(** ** What admin-balance-adjust does to the ledger *)

Lemma adjust_tail event userId action meta n (user asset : string) (answer : Response) w :
  let r := (auditLog_for event userId action meta ;;
            notify_transactionInitiated n ;;
            read_balance user asset ;; ret answer) w in
  same_ledger w (snd r) /\ (fst r = Ret answer \/ exists e, fst r = Throw e).
Proof.
  cbv zeta. split.
  - revert w.
    match goal with |- forall w, same_ledger w (snd (?m w)) =>
      change (preserves same_ledger m) end.
    preserve.
  - unfold auditLog_for, auditLog, supabase_post.audit_log, read_balance, supabase,
      try_catch, bind, notify_transactionInitiated, ret.
    destruct (faults w) as [|[] fs] eqn:E; cbn; rewrite ?E; cbn;
      try (destruct fs as [|[] fs]; cbn);
      first [left; reflexivity | right; eexists; reflexivity].
Qed.

Lemma adjust_cases event session (userId asset : string) numDelta (user : User.t) w result :
  result = AdminAdjust.adjust event session userId asset numDelta user w ->
  (same_ledger w (snd result) /\ fst result <> Ret (ok "adjusted")) \/
  exists delta : Z,
    numDelta = Some delta /\
    upsert_balance userId asset delta (balances w) = Ret (balances (snd result)) /\
    ((transactions (snd result) = transactions w /\ exists e, fst result = Throw e) \/
     (exists row,
        transactions (snd result) = transactions w ++ [row] /\
        Tx.user_id row = userId /\ Tx.asset row = asset /\
        Tx.type row = (if 0 <? delta then Tx.deposit else Tx.withdrawal) /\
        Tx.amount row = Some (Z.abs delta) /\ Tx.status row = Tx.completed /\
        (fst result = Ret (ok "adjusted") \/ exists e, fst result = Throw e))).
Proof.
  intros Hr. unfold AdminAdjust.adjust in Hr. unfold bind at 1 in Hr.
  pose proof (rpc_or_bad_request_cases userId asset numDelta
                "Insufficient balance - debit would go negative" w) as Hrpc.
  cbv zeta in Hrpc.
  destruct (rpc_or_bad_request _ _ _ _ w) as [o w1]. cbn [fst snd] in Hrpc.
  destruct Hrpc as [[Hsame [->|[e ->]]]|(-> & Htx & delta & -> & Hup)];
    [subst result; left; split; [exact Hsame|discriminate]..|].
  right. exists delta. split; [reflexivity|].
  cbv zeta in Hr. unfold bind at 1 in Hr.
  match type of Hr with context [supabase_post.transactions ?mk w1] =>
    pose proof (post_cases mk w1) as Hpost; cbv zeta in Hpost;
    destruct (supabase_post.transactions mk w1) as [o w2]; cbn [fst snd] in Hpost;
    destruct Hpost as [[[e ->] [Hb Ht]]|(txid & -> & Ht & Hb)]
  end.
  { subst result. cbn [fst snd]. split; [now rewrite Hb|].
    left. split; [now rewrite Ht|eexists; reflexivity]. }
  match type of Hr with context [(auditLog_for ?ev ?u ?a ?m ;;
                                  notify_transactionInitiated ?n ;;
                                  read_balance ?us ?as_ ;; ret ?ans) w2] =>
    pose proof (adjust_tail ev u a m n us as_ ans w2) as Hend; cbv zeta in Hend;
    destruct ((auditLog_for ev u a m ;; notify_transactionInitiated n ;;
               read_balance us as_ ;; ret ans) w2)
      as [o w3]; cbn [fst snd] in Hend; destruct Hend as [[Hb3 Ht3] Hans]
  end.
  subst result. cbn [fst snd]. split; [now rewrite Hb3, Hb|].
  right. eexists. split; [rewrite Ht3, Ht, Htx; reflexivity|].
  cbn [Tx.user_id Tx.asset Tx.type Tx.amount Tx.status fmap option_fmap option_map].
  split_and!; try reflexivity. exact Hans.
Qed.

Section AdjustHandler.

Variable parse : string -> option value.

Lemma adjust_handler_cases event session w result :
  result = AdminAdjust.handler parse event session w ->
  (same_ledger w (snd result) /\ fst result <> Ret (ok "adjusted")) \/
  exists body userId asset numDelta (user : User.t) fs,
    parse (default "{}" (non_empty (rawBody event))) = Some body /\
    to_string (prop body "userId") = Ret userId /\
    one_of AdminAdjust.ALLOWED_ASSETS (prop body "asset") = Some asset /\
    parseFloat (prop body "delta") = Ret numDelta /\
    head (filter (fun u => User.id u = userId) (users w)) = Some user /\
    result = AdminAdjust.adjust event session userId asset numDelta user (with_faults fs w).
Proof.
  intros Hr. unfold AdminAdjust.handler in Hr.
  destruct (negb (String.eqb (httpMethod event) "POST"));
    [subst result; left; split; [split; reflexivity|discriminate]|].
  destruct (parse (default "{}" (non_empty (rawBody event)))) as [body|] eqn:Hp;
    [|subst result; left; split; [split; reflexivity|discriminate]].
  unfold bind at 1, lift in Hr.
  destruct (get body "userId") as [userId|e] eqn:Hg;
    [|subst result; left; split; [split; reflexivity|discriminate]].
  assert (Hid : userId = prop body "userId")
    by (destruct body; try discriminate; now injection Hg as <-).
  subst userId.
  destruct (truthy (prop body "userId")); cbn [negb] in Hr;
    [|subst result; left; split; [split; reflexivity|discriminate]].
  destruct (one_of AdminAdjust.ALLOWED_ASSETS (prop body "asset")) as [asset|] eqn:Has.
  2:{ left. unfold bind, lift, ret in Hr.
      destruct (to_string (prop body "asset")); subst result;
        (split; [split; reflexivity|discriminate]). }
  cbv zeta in Hr. unfold bind at 1, lift in Hr.
  destruct (AdminAdjust.bad_delta (prop body "delta")) as [[]|e];
    try (subst result; left; split; [split; reflexivity|discriminate]).
  unfold bind at 1, lift in Hr.
  destruct (AdminAdjust.no_reason (prop body "reason")) as [[]|e];
    try (subst result; left; split; [split; reflexivity|discriminate]).
  unfold bind at 1, lift in Hr.
  destruct (parseFloat (prop body "delta")) as [numDelta|e] eqn:Hpf;
    [|subst result; left; split; [split; reflexivity|discriminate]].
  unfold bind at 1, lift in Hr.
  destruct (to_string (prop body "userId")) as [userId|e] eqn:Hk;
    [|subst result; left; split; [split; reflexivity|discriminate]].
  unfold bind at 1, supabase_get.users_by_id in Hr.
  pose proof (supabase_read_cases
                (fun w => filter (fun u => User.id u = userId) (users w)) w) as Hread.
  cbv zeta in Hread.
  destruct (supabase _ w) as [o w1]. cbn [fst snd] in Hread.
  destruct Hread as [[fs ->] [[e ->]| ->]];
    [subst result; left; split; [split; reflexivity|discriminate]|].
  cbn [users with_faults] in Hr.
  destruct (filter (fun u => User.id u = userId) (users w)) as [|user rest] eqn:Hu;
    [subst result; left; split; [split; reflexivity|discriminate]|].
  right. exists body, userId, asset, numDelta, user, fs.
  split_and!; try assumption; try reflexivity. now rewrite Hu.
Qed.

End AdjustHandler.

(** X11.  What one request to admin-balance-adjust does to the ledger, under
    any schedule of store failures.  Either the balances and the transaction
    rows are left as they were and the answer is not the 200 of an
    adjustment; or the balance call was made once for the requested user and
    asset with the requested delta, and then either the insert failed and
    the handler threw with no row written, or exactly one completed row was
    appended for that user and asset, a deposit when the delta is positive
    and a withdrawal otherwise, whose amount is the absolute value of the
    delta.  In the last case the handler answers 200 or throws (when the
    final read of the balance fails). *)
Theorem adjust_ledger_effect parse event session w :
  let result := AdminAdjust.handler parse event session w in
  let w' := snd result in
  (same_ledger w w' /\ fst result <> Ret (ok "adjusted")) \/
  exists body userId asset (delta : Z),
    parse (default "{}" (non_empty (rawBody event))) = Some body /\
    to_string (prop body "userId") = Ret userId /\
    one_of AdminAdjust.ALLOWED_ASSETS (prop body "asset") = Some asset /\
    parseFloat (prop body "delta") = Ret (Some delta) /\
    upsert_balance userId asset delta (balances w) = Ret (balances w') /\
    ((transactions w' = transactions w /\ exists e, fst result = Throw e) \/
     (exists row,
        transactions w' = transactions w ++ [row] /\
        Tx.user_id row = userId /\ Tx.asset row = asset /\
        Tx.type row = (if 0 <? delta then Tx.deposit else Tx.withdrawal) /\
        Tx.amount row = Some (Z.abs delta) /\ Tx.status row = Tx.completed /\
        (fst result = Ret (ok "adjusted") \/ exists e, fst result = Throw e))).
Proof.
  cbv zeta.
  destruct (adjust_handler_cases parse event session w _ eq_refl)
    as [H|(body & userId & asset & numDelta & user & fs & Hp & Hk & Has & Hpf & Hu & Hres)];
    [now left|].
  destruct (adjust_cases event session userId asset numDelta user (with_faults fs w) _ Hres)
    as [H|(delta & -> & Hup & H)]; [now left|].
  right. exists body, userId, asset, delta. now split_and!.
Qed.

(** ** A rejected KYC status suspends the account *)

Lemma head_filter_sub_patched sub key status (l : list User.t) :
  head (filter (fun u => User.auth0_sub u = sub)
          (map (fun u => if decide (User.id u = key) then AdminKyc.with_kyc status u else u)
               l))
  = (fun u => if decide (User.id u = key) then AdminKyc.with_kyc status u else u)
      <$> head (filter (fun u => User.auth0_sub u = sub) l).
Proof.
  induction l as [|u l IH]; [reflexivity|].
  cbn [map]. rewrite !filter_cons.
  assert (Hsub : User.auth0_sub
                   (if decide (User.id u = key) then AdminKyc.with_kyc status u else u)
                 = User.auth0_sub u) by (destruct (decide (User.id u = key)); reflexivity).
  rewrite Hsub. destruct (decide (User.auth0_sub u = sub)); [reflexivity|exact IH].
Qed.

(** X12.  Once admin-kyc-update has set a user's KYC status to [rejected],
    ledger-transaction-create refuses every request of that user: the answer
    is 400 'Account suspended', or a 401 or 502 under store failures, never
    the 200 of a created transaction, and neither a balance nor a transaction
    row changes.  The update itself changes no table but the users and the
    audit log. *)
Theorem rejected_kyc_suspends_account prices event session body key w
    event2 session2 sub type asset numAmount body2 (u : User.t) :
  faults w = [] ->
  (exists tid, get body "userId" = Ret tid /\ truthy tid = true /\ to_string tid = Ret key) ->
  prop body "kyc_status" = VStr "rejected" ->
  to_string (prop session2 "sub") = Ret sub ->
  head (filter (fun u => User.auth0_sub u = sub) (users w)) = Some u ->
  User.id u = key ->
  let w1 := snd (AdminKyc.update event session body w) in
  fst (AdminKyc.update event session body w) = Ret (ok "updated") /\
  charges w1 = charges w /\ balances w1 = balances w /\ transactions w1 = transactions w /\
  LedgerCreate.record prices event2 session2 type asset numAmount body2 w1
  = (Ret (badReq "Account suspended. Contact support."), w1) /\
  forall fs,
    let r := LedgerCreate.record prices event2 session2 type asset numAmount body2
               (with_faults fs w1) in
    fst r <> Ret (ok "transaction") /\ same_ledger w1 (snd r).
Proof.
  intros Hf (tid & Hg & Ht & Hk) Hkyc Hsub Hu Hid w1.
  assert (Hfound : filter (fun x => User.id x = key) (users w) <> []).
  { intros Hnil. destruct (filter (fun u => User.auth0_sub u = sub) (users w))
      as [|u0 rest] eqn:Hs; [discriminate|]. injection Hu as ->.
    assert (Hin : u ∈ filter (fun x => User.id x = key) (users w)).
    { apply list_elem_of_filter. split; [assumption|].
      assert (Hin : u ∈ filter (fun u => User.auth0_sub u = sub) (users w))
        by (rewrite Hs; left).
      now apply list_elem_of_filter in Hin as [_ ?]. }
    rewrite Hnil in Hin. inversion Hin. }
  assert (Hupd : AdminKyc.update event session body w
                 = (Ret (ok "updated"),
                    with_audit_log
                      (audit_log w ++
                       [Audit.mk None "admin_kyc_update" (client_ip event) (user_agent event)
                          [("admin_email", prop session "email");
                           ("target_user_id", tid);
                           ("target_email",
                            VStr (User.email
                                    (default u (head (filter (fun x => User.id x = key)
                                                        (users w))))));
                           ("prev_status",
                            VStr (User.kyc_status
                                    (default u (head (filter (fun x => User.id x = key)
                                                        (users w))))));
                           ("new_status", VStr "rejected");
                           ("notes", or_else (prop body "notes") VNull)]])
                      (with_users
                         (map (fun u => if decide (User.id u = key)
                                        then AdminKyc.with_kyc "rejected" u else u)
                              (users w)) w))).
  { unfold AdminKyc.update, bind, lift. rewrite Hg, Ht, Hkyc. cbn [negb one_of].
    destruct (decide ("rejected" ∈ AdminKyc.ALLOWED_STATUSES)) as [_|Hn];
      [|exfalso; apply Hn; unfold AdminKyc.ALLOWED_STATUSES; set_solver].
    rewrite Hk. unfold supabase_get.users_by_id. rewrite (supabase_no_fault _ _ Hf).
    destruct (filter (fun x => User.id x = key) (users w)) as [|u0 rest];
      [contradiction|].
    unfold AdminKyc.patch_users, auditLog_for, auditLog, supabase_post.audit_log,
      try_catch, ret, supabase. cbn. rewrite Hf. cbn. rewrite Hf. reflexivity. }
  assert (Hhead : head (filter (fun u => User.auth0_sub u = sub) (users w1))
                  = Some (AdminKyc.with_kyc "rejected" u)).
  { unfold w1. rewrite Hupd. cbn [snd users with_audit_log with_users].
    rewrite head_filter_sub_patched, Hu. cbn.
    destruct (decide (User.id u = key)); [reflexivity|contradiction]. }
  assert (Hf1 : faults w1 = []) by (unfold w1; rewrite Hupd; exact Hf).
  split_and!.
  - now rewrite Hupd.
  - unfold w1. now rewrite Hupd.
  - unfold w1. now rewrite Hupd.
  - unfold w1. now rewrite Hupd.
  - unfold LedgerCreate.record, try_catch, bind, lift. rewrite Hsub.
    unfold users_by_sub. rewrite (supabase_no_fault _ _ Hf1).
    destruct (filter (fun u => User.auth0_sub u = sub) (users w1)) as [|u0 rest];
      [discriminate|]. injection Hhead as ->. reflexivity.
  - intros fs r.
    destruct (record_cases prices event2 session2 type asset numAmount body2
                (with_faults fs w1) r eq_refl) as [_ [[Hs Ha]|(user & delta & Hreach & _)]].
    + now split.
    + destruct Hreach as ((sub' & Hsub' & Hu') & Hne & _).
      rewrite Hsub in Hsub'. injection Hsub' as <-.
      cbn [users with_faults] in Hu'. rewrite Hhead in Hu'. injection Hu' as <-.
      now contradiction Hne.
Qed.

(** The user of the scenario is rejected and then asks for a withdrawal. *)
Lemma rejected_kyc_suspends_account_witness :
  LedgerCreate.record (fun _ => None) admin_event user_session Tx.withdrawal "BTC"
    (Some 1000000) (VObj [])
    (snd (AdminKyc.update admin_event admin_session
            (VObj [("userId", VStr "user-1"); ("kyc_status", VStr "rejected")])
            scenario_world))
  = (Ret (badReq "Account suspended. Contact support."),
     snd (AdminKyc.update admin_event admin_session
            (VObj [("userId", VStr "user-1"); ("kyc_status", VStr "rejected")])
            scenario_world)).
Proof.
  apply (rejected_kyc_suspends_account (fun _ => None) admin_event admin_session
           (VObj [("userId", VStr "user-1"); ("kyc_status", VStr "rejected")])
           "user-1" scenario_world admin_event user_session "auth0|1" Tx.withdrawal "BTC"
           (Some 1000000) (VObj []) scenario_user).
  - reflexivity.
  - exists (VStr "user-1"). split_and!; reflexivity.
  - reflexivity.
  - reflexivity.
  - reflexivity.
  - reflexivity.
Defined.

(** ** When a charge is marked as credited *)

(** A PATCH either fails and leaves the tables alone, or rewrites the rows
    with the id. *)
Lemma patch_charges_cases id p w :
  let r := supabase_patch.deposit_charges id p w in
  same_ledger w (snd r) /\
  (((exists e, fst r = Throw e) /\ charges (snd r) = charges w) \/
   (fst r = Ret tt /\
    charges (snd r)
    = map (fun c => if decide (Charge.id c = id) then Charge.apply p c else c) (charges w))).
Proof.
  unfold supabase_patch.deposit_charges, supabase.
  destruct (faults w) as [|[] fs]; cbn; (split; [split; reflexivity|]).
  - now right.
  - left. split; [eexists; reflexivity|reflexivity].
  - now right.
Qed.

Lemma map_marked (c : Charge.t) (row : Tx.t) p (l : list Charge.t) :
  Charge.set_credited p = Some true -> Charge.set_status p = Some Charge.completed ->
  Charge.set_transaction_id p = Some (Some (Tx.id row)) ->
  Forall2 (fun x x' =>
             if decide (Charge.id x = Charge.id c)
             then Charge.credited x' = true /\ Charge.status x' = Charge.completed /\
                  Charge.transaction_id x' = Some (Tx.id row)
             else x' = x)
    l (map (fun x => if decide (Charge.id x = Charge.id c) then Charge.apply p x else x) l).
Proof.
  intros H1 H2 H3. induction l as [|x l IH]; simpl; constructor; [|exact IH].
  destruct (decide (Charge.id x = Charge.id c)); [|reflexivity].
  simpl. rewrite H1, H2, H3. now split_and!.
Qed.

Section CreditedMark.

Implicit Types (w : World) (c : Charge.t) (d data type : value) (key : string).

Lemma on_confirmed_marks d id c w :
  let w' := snd (Webhook.on_confirmed d id c w) in
  same_credited w w' \/
  (Charge.credited c = false /\
   exists (delta : Z) row,
     upsert_balance (Charge.user_id c) (Charge.asset c) delta (balances w)
     = Ret (balances w') /\
     transactions w' = transactions w ++ [row] /\
     Tx.user_id row = Charge.user_id c /\ Tx.asset row = Charge.asset c /\
     Tx.amount row = Some delta /\
     marked_credited c row w w').
Proof.
  assert (Hrefl : forall w0, same_credited w0 w0) by apply stable_refl.
  unfold Webhook.on_confirmed.
  destruct (Charge.credited c) eqn:Hc; [left; apply Hrefl|].
  cbv zeta. rewrite snd_bind. unfold lift. cbn [fst snd].
  destruct (Webhook.read_confirmed d c) as [r|e]; [|left; apply Hrefl].
  destruct (num_lt (Webhook.confirmations r) (Charge.confirm_threshold c)).
  { left. revert w. change (preserves same_credited
      (Webhook.updateChargeStatus (Charge.id c) Charge.confirming
         (Some (Webhook.confirmations r, Webhook.networkTx r)))).
    preserve. }
  rewrite snd_bind.
  destruct (rpc_cases (Charge.user_id c) (Charge.asset c)
              (Webhook.num_or (Webhook.cryptoAmount r) (Charge.crypto_amount c)) w)
    as [[[e He] Hsame]|(Hret & Htx & delta & Hd & Hup)].
  { rewrite He. left.
    revert w Hrefl Hsame He. intros w _ _ _. revert w.
    match goal with |- forall w, same_credited w (snd (?m w)) =>
      change (preserves same_credited m) end.
    preserve. }
  rewrite Hret.
  assert (Hch1 : charges (snd (rpc_upsert_balance (Charge.user_id c) (Charge.asset c)
                                 (Webhook.num_or (Webhook.cryptoAmount r)
                                    (Charge.crypto_amount c)) w)) = charges w).
  { clear -w. revert w.
    match goal with |- forall w, charges (snd (?m w)) = charges w =>
      change (preserves same_charges m) end.
    preserve. }
  set (w1 := snd (rpc_upsert_balance _ _ _ w)) in *.
  rewrite snd_bind.
  match goal with |- context [supabase_post.transactions ?mk w1] =>
    assert (Hch2 : charges (snd (supabase_post.transactions mk w1)) = charges w1)
      by (generalize w1; change (preserves same_charges (supabase_post.transactions mk));
          preserve);
    destruct (post_cases mk w1) as [[[e He] [Hb Ht]]|(txid & Hrow & Ht & Hb)]
  end.
  { rewrite He. left. unfold same_credited. rewrite Hch2, Hch1. apply Hrefl. }
  rewrite Hrow.
  set (w2 := snd (supabase_post.transactions _ w1)) in *.
  rewrite snd_bind.
  match goal with |- context [supabase_patch.deposit_charges ?i ?p w2] =>
    destruct (patch_charges_cases i p w2) as [[Hb3 Ht3] [[[e He] Hch3]|[Hok Hch3]]];
    set (w3 := snd (supabase_patch.deposit_charges i p w2)) in *
  end.
  { rewrite He. left. unfold same_credited. rewrite Hch3, Hch2, Hch1. apply Hrefl. }
  rewrite Hok. right. split; [reflexivity|].
  match goal with |- context [snd (?tail w3)] =>
    assert (Htail : same_ledger w3 (snd (tail w3)) /\ charges (snd (tail w3)) = charges w3)
  end.
  { split.
    - generalize w3. match goal with |- forall w, same_ledger w (snd (?m w)) =>
        change (preserves same_ledger m) end. preserve.
    - generalize w3. match goal with |- forall w, charges (snd (?m w)) = charges w =>
        change (preserves same_charges m) end. preserve. }
  destruct Htail as [[Hb4 Ht4] Hch4].
  exists delta. eexists. split_and!.
  - rewrite Hb4, Hb3, Hb. exact Hup.
  - rewrite Ht4, Ht3, Ht, Htx. reflexivity.
  - reflexivity.
  - reflexivity.
  - cbn [Tx.amount]. exact Hd.
  - unfold marked_credited. rewrite Hch4, Hch3, Hch2, Hch1.
    apply map_marked; reflexivity.
Qed.

End CreditedMark.

Section CreditedMarkRequest.

Implicit Types (w : World) (c : Charge.t) (d data type : value) (key : string).

Lemma dispatch_marks type d c w :
  let w' := snd (Webhook.dispatch type d c w) in
  same_credited w w' \/
  (Charge.credited c = false /\
   exists (delta : Z) row,
     upsert_balance (Charge.user_id c) (Charge.asset c) delta (balances w)
     = Ret (balances w') /\
     transactions w' = transactions w ++ [row] /\
     Tx.user_id row = Charge.user_id c /\ Tx.asset row = Charge.asset c /\
     Tx.amount row = Some delta /\
     marked_credited c row w w').
Proof.
  unfold Webhook.dispatch.
  destruct (Webhook.classify type) eqn:E;
    try solve [left; revert w;
         match goal with |- forall w, same_credited w (snd (?m w)) =>
           change (preserves same_credited m) end;
         unfold Webhook.on_pending, Webhook.on_failed; preserve].
  apply on_confirmed_marks.
Qed.

End CreditedMarkRequest.

(** X13.  A charge is marked as credited only by a request that did credit
    it.  Under any schedule of store failures, a webhook request either
    leaves the [credited] flag of every charge as it was; or it is a validly
    signed event for a stored charge that was not credited, the balance
    primitive accepted one call for that charge's user and asset, one
    transaction row of that user, asset and amount was appended, and the rows
    with the id of the charge are now credited, completed and point to that
    transaction row, every other charge being left whole. *)
Theorem credited_mark_is_backed WEBHOOK_SECRET hmac parse event w :
  let w' := snd (webhook_handler WEBHOOK_SECRET hmac parse event w) in
  same_credited w w' \/
  (validly_signed WEBHOOK_SECRET hmac event /\
   exists payload key c (delta : Z) row,
     parse (default "" (rawBody event)) = Some payload /\
     to_string (prop (prop (event_of payload) "data") "id") = Ret key /\
     lookup key w = Some c /\ Charge.credited c = false /\
     upsert_balance (Charge.user_id c) (Charge.asset c) delta (balances w)
     = Ret (balances w') /\
     transactions w' = transactions w ++ [row] /\
     Tx.user_id row = Charge.user_id c /\ Tx.asset row = Charge.asset c /\
     Tx.amount row = Some delta /\
     marked_credited c row w w').
Proof.
  destruct (webhook_handler_cases WEBHOOK_SECRET hmac parse event w)
    as [H|(Hv & payload & Hp & H)]; cbv zeta; rewrite H; [left; apply stable_refl|].
  change (snd (Webhook.process ?t ?d w)) with (deliver t d w).
  apply (process_found (fun w w' =>
    same_credited w w' \/
    (validly_signed WEBHOOK_SECRET hmac event /\
     exists payload key c (delta : Z) row,
       parse (default "" (rawBody event)) = Some payload /\
       to_string (prop (prop (event_of payload) "data") "id") = Ret key /\
       lookup key w = Some c /\ Charge.credited c = false /\
       upsert_balance (Charge.user_id c) (Charge.asset c) delta (balances w)
       = Ret (balances w') /\
       transactions w' = transactions w ++ [row] /\
       Tx.user_id row = Charge.user_id c /\ Tx.asset row = Charge.asset c /\
       Tx.amount row = Some delta /\
       marked_credited c row w w'))).
  - intros fs. left. apply stable_faults.
  - intros key c fs Hk Hl.
    destruct (dispatch_marks (prop (event_of payload) "type")
                (prop (event_of payload) "data") c (with_faults fs w))
      as [Hs|(Hc & delta & row & Hup & Ht & Hu & Ha & Hd & Hm)]; [now left|right].
    split; [assumption|]. exists payload, key, c, delta, row. now split_and!.
Qed.

(** ** The pages of the transaction history *)



(** ** Who may poll a deposit *)



(** ** The audit logger *)

Lemma non_empty_some s t : non_empty s = Some t -> t <> "".
Proof. destruct s as [[|a s]|]; try discriminate. now intros [= <-]. Qed.

Lemma client_ip_known event : client_ip event <> "".
Proof.
  unfold client_ip.
  destruct (non_empty (_ <$> headers event !! "x-forwarded-for")) as [ip|] eqn:E;
    [exact (non_empty_some _ _ E)|].
  destruct (non_empty (headers event !! "client-ip")) as [ip|] eqn:E2;
    [exact (non_empty_some _ _ E2)|discriminate].
Qed.

Lemma user_agent_known event : user_agent event <> "".
Proof.
  unfold user_agent.
  destruct (non_empty (headers event !! "user-agent")) as [ua|] eqn:E;
    [exact (non_empty_some _ _ E)|discriminate].
Qed.

(** X16.  [auditLog] never throws, whatever the request headers and whether
    or not the store accepts the row, so an audit failure cannot break the
    request it belongs to.  It writes nothing but the audit log, to which it
    appends at most one row; the row carries the action and the user it was
    given, and its origin and user agent are never empty ('unknown' stands in
    for a missing header). *)
Theorem auditLog_never_throws event userId action meta w :
  let result := auditLog_for event userId action meta w in
  fst result = Ret tt /\
  charges (snd result) = charges w /\ balances (snd result) = balances w /\
  transactions (snd result) = transactions w /\ users (snd result) = users w /\
  (audit_log (snd result) = audit_log w \/
   exists row,
     audit_log (snd result) = audit_log w ++ [row] /\
     Audit.user_id row = userId /\ Audit.action row = action /\ Audit.meta row = meta /\
     Audit.ip_address row <> "" /\ Audit.user_agent row <> "").
Proof.
  cbv zeta. unfold auditLog_for, auditLog, supabase_post.audit_log, supabase, try_catch, ret.
  destruct (faults w) as [|[] fs]; cbn; split_and!; try reflexivity;
    first [ now left
          | right; eexists; split_and!; try reflexivity;
            [apply client_ip_known|apply user_agent_known] ].
Qed.

(** ** What no sequence of requests undoes *)

Lemma with_status_same (x : Tx.t) : Tx.with_status (Tx.status x) x = x.
Proof. now destruct x. Qed.

Lemma restatused_refl x : restatused x x.
Proof. exists (Tx.status x). now rewrite with_status_same. Qed.

Lemma restatused_trans x y z : restatused x y -> restatused y z -> restatused x z.
Proof. intros [s ->] [s' ->]. now exists s'. Qed.

Lemma history_kept_same w w' : transactions w' = transactions w -> history_kept w w'.
Proof.
  intros H. exists (transactions w), []. rewrite app_nil_r. split; [assumption|].
  apply Forall2_refl_on, restatused_refl.
Qed.



#[global] Instance history_kept_stable : Stable history_kept.
Proof.
  split.
  - intros w. now apply history_kept_same.
  - intros a b c (k1 & a1 & H1 & F1) (k2 & a2 & H2 & F2).
    rewrite H1 in F2. apply Forall2_app_inv_l in F2 as (k2a & k2b & Fa & Fb & ->).
    exists k2a, (k2b ++ a2). split; [now rewrite H2, app_assoc|].
    exact (Forall2_trans_on restatused _ _ _ restatused_trans F1 Fa).
  - intros fs w. now apply history_kept_same.
Qed.

Lemma through_primitive_trans b1 b2 b3 :
  through_primitive b1 b2 -> through_primitive b2 b3 -> through_primitive b1 b3.
Proof.
  induction 1 as [|b user asset delta b1 b' Hup _ IH]; [auto|].
  intros H. exact (one_call b user asset delta b1 b3 Hup (IH H)).
Qed.

#[global] Instance balances_through_primitive_stable : Stable balances_through_primitive.
Proof.
  split; unfold balances_through_primitive.
  - intros w. apply no_call.
  - intros a b c. apply through_primitive_trans.
  - intros fs w. apply no_call.
Qed.




Lemma with_kyc_same (u : User.t) : AdminKyc.with_kyc (User.kyc_status u) u = u.
Proof. now destruct u. Qed.

Lemma users_kept_refl (l : list User.t) :
  Forall2 (fun u u' => exists s, u' = AdminKyc.with_kyc s u) l l.
Proof.
  apply Forall2_refl_on. intros u. exists (User.kyc_status u). now rewrite with_kyc_same.
Qed.

#[global] Instance users_kept_stable : Stable users_kept.
Proof.
  apply (Stable_on users (Forall2 (fun u u' => exists s, u' = AdminKyc.with_kyc s u))).
  - apply users_kept_refl.
  - intros l1 l2 l3. apply Forall2_trans_on.
    intros u1 u2 u3 [s ->] [s' ->]. now exists s'.
  - reflexivity.
Qed.


Section PlatformInvariants.

Variable WEBHOOK_SECRET AUTH0_COOKIE_SECRET : option string.
Variable hmac_hex hmac_base64url : string -> string -> string.
Variable decode : string -> string.
Variable parse : string -> option value.








End PlatformInvariants.




(** ** From the roles at login to the admin functions *)



